(** * The validation-session lifecycle of the subnet validator backend

    A shallow embedding of the Express handlers of [src/src/server.ts]
    (session repository, history recorder, reward-update log, leaderboard
    and project summary) and the properties of its specification.

    Conventions of the embedding.
    - A JavaScript [number] is an IEEE-754 binary64 value: Rocq's primitive
      [float], with the arithmetic of [PrimFloat].  Array lengths and
      positions are [nat]; they enter arithmetic through [Number_of_nat].
    - A [Date] is its epoch time in milliseconds, a [Z].
    - A request field has the type the handler's own table of endpoints
      ([GET /api/docs]) gives it; [None] stands for a value that fails the
      check the handler makes on the field ([typeof x !== 'number'],
      [!Array.isArray(x)]) or, for an unchecked field, for [undefined].
    - The three Mongoose models are the three components of [Store].
      [ValidationSession] has a unique index on [sessionId] and is a finite
      map keyed by it; the two logs are lists in insertion order.
    - The store keeps the values a handler gives it.  Of what Mongoose does
      between a handler and the store two things are modelled.  A key of an
      update whose value is [undefined] is dropped ([Mongo.set_path]).  A
      [Number] path refuses NaN ([Mongo.castNumber]): a body is JSON, whose
      numbers are never NaN, so the refusal is modelled where a handler
      makes the number itself, the metrics of a reward batch and the
      [parseInt] of a path parameter.  No other cast is modelled: a value
      already has the type of its path.
    - [uuidv4()], [new Date()] and the host's time zone are inputs of a
      handler. *)

From Stdlib Require Import ZArith Lia Uint63 Permutation.
From Stdlib Require Import Floats.PrimFloat Floats.FloatOps Floats.SpecFloat.
From stdpp Require Import gmap strings list fin_maps sorting.

Local Open Scope Z_scope.

(** ** JavaScript numbers *)

Abbreviation number := float.

Module JS.

(** [arr.length], or a position, used as a number. *)
Definition Number_of_nat (n : nat) : number :=
  PrimFloat.of_uint63 (Uint63.of_Z (Z.of_nat n)).

(** [x > 0]. *)
Definition gt0 (x : number) : bool := PrimFloat.ltb 0%float x.

(** Truthiness of a number: [0], [-0] and [NaN] are falsy. *)
Definition truthy (x : number) : bool :=
  negb (PrimFloat.eqb x 0%float) && negb (PrimFloat.is_nan x).

(** [x || d] where [x] is a number or [undefined]. *)
Definition or_number (x : option number) (d : number) : number :=
  match x with
  | Some v => if truthy v then v else d
  | None => d
  end.

(** [!s] on a string or [undefined]: the empty string is falsy. *)
Definition falsy_string (s : option string) : bool :=
  match s with
  | Some v => String.eqb v ""
  | None => true
  end.

(** [Number.isInteger(x)]. *)
Definition isInteger (x : number) : bool :=
  match Prim2SF x with
  | S754_zero _ => true
  | S754_finite _ m e => (0 <=? e) || (Z.pos m mod 2 ^ (- e) =? 0)
  | _ => false
  end.

(** [rewards.reduce((a, b) => a + b, 0)]. *)
Definition sum (l : list number) : number :=
  fold_left PrimFloat.add l 0%float.

End JS.

(** A free-form payload ([Record<string, any>], [Schema.Types.Mixed]). *)
#[local] Set Warnings "-register-all".
Inductive json :=
| JNull
| JBool (b : bool)
| JNumber (x : number)
| JString (s : string)
| JArray (l : list json)
| JObject (o : list (string * json)).
#[local] Set Warnings "register-all".

(** ** The document store's comparison of numbers

    MongoDB compares numbers by value, with [NaN] equal to itself and below
    every other number, and [-0] equal to [0].  A finite binary64 value is an
    integer multiple of [2^-1074]; [num_key] is that integer. *)

Module Mongo.

Inductive NumKey := KNaN | KNegInf | KFin (z : Z) | KPosInf.

Definition num_key (x : number) : NumKey :=
  match Prim2SF x with
  | S754_nan => KNaN
  | S754_infinity true => KNegInf
  | S754_infinity false => KPosInf
  | S754_zero _ => KFin 0
  | S754_finite s m e => KFin ((if s then -1 else 1) * Z.pos m * 2 ^ (e + 1074))
  end.

Definition key_class (k : NumKey) : Z :=
  match k with KNaN => 0 | KNegInf => 1 | KFin _ => 2 | KPosInf => 3 end.

Definition key_value (k : NumKey) : Z :=
  match k with KFin z => z | _ => 0 end.

Definition key_leb (a b : NumKey) : bool :=
  (key_class a <? key_class b)
  || ((key_class a =? key_class b) && (key_value a <=? key_value b)).

Definition key_eqb (a b : NumKey) : bool :=
  (key_class a =? key_class b) && (key_value a =? key_value b).

(** [{ field: x }] matching a stored number [y]. *)
Definition num_eq (x y : number) : bool := key_eqb (num_key x) (num_key y).

(** A [$set] of one path.  Mongoose drops the keys of an update whose
    value is [undefined], so the stored value stays. *)
Definition set_path {A} (new old : option A) : option A :=
  match new with
  | Some v => Some v
  | None => old
  end.

(** The cast of a number to a [Number] path, in a document or in a filter:
    NaN is refused with a [CastError]; every other number, the infinities
    included, is taken as it is. *)
Definition castNumber (x : number) : option number :=
  if PrimFloat.is_nan x then None else Some x.

(** [$sort]: a stable insertion sort; [le x y] says that [x] may come
    before [y]. *)
Fixpoint insert_by {A} (le : A -> A -> bool) (x : A) (l : list A) : list A :=
  match l with
  | [] => [x]
  | y :: t => if le x y then x :: y :: t else y :: insert_by le x t
  end.

Definition sort_by {A} (le : A -> A -> bool) (l : list A) : list A :=
  fold_right (insert_by le) [] l.

(** [$group] by a numeric key: the groups in order of first occurrence,
    each with its members in collection order. *)
Fixpoint group_insert {A} (key : A -> number) (x : A)
    (gs : list (number * list A)) : list (number * list A) :=
  match gs with
  | [] => [(key x, [x])]
  | (k, xs) :: gs' =>
      if num_eq k (key x) then (k, xs ++ [x]) :: gs'
      else (k, xs) :: group_insert key x gs'
  end.

Definition group_by {A} (key : A -> number) (l : list A)
    : list (number * list A) :=
  fold_left (fun gs x => group_insert key x gs) l [].

End Mongo.

(** ** Data model *)

Module State.
Inductive t := pending | in_progress | completed | failed.
End State.

Module Status.
Inductive t := success | failed | timeout | error.
End Status.

Module ChallengeInfo.
Record t := mk {
  projectId : option string;
  description : option string;
  difficulty : option string;
  createdAt : option Z;
  rawData : option json
}.
Definition empty : t := mk None None None None None.
End ChallengeInfo.

Module GroundTruth.
Record t := mk {
  reportId : option string;
  vulnerabilities : list string;
  criticalIssues : option number;
  rawData : option json
}.
Definition empty : t := mk None [] None None.
End GroundTruth.

Module AgentPerformance.
Record t := mk {
  executionTime : option number;
  findingsCount : option number;
  accuracy : option number;
  completionStatus : option string
}.
Definition empty : t := mk None None None None.
End AgentPerformance.

Module MinerResponse.
Record t := mk {
  minerUid : number;
  githubUrl : option string;
  responseTime : option number;
  success : option bool;
  errorMessage : option string;
  timestamp : Z;
  agentPerformance : AgentPerformance.t;
  rewardScore : option number;
  rewardReason : option string
}.
End MinerResponse.

Module ComputedReward.
Record t := mk {
  minerUid : number;
  score : option number;
  timestamp : Z
}.
End ComputedReward.

Module ValidationMetrics.
Record t := mk {
  totalQueryTime : option number;
  averageRewardScore : option number;
  successRate : option number;
  failureCount : option number;
  validFindings : option number
}.
Definition empty : t := mk None None None None None.

(** The validation of [save()] on the five [Number] paths of [metrics]: a
    path that is set must pass the cast. *)
Definition validate (m : t) : bool :=
  forallb (fun x : option number =>
             match x with
             | Some v => bool_decide (is_Some (Mongo.castNumber v))
             | None => true
             end)
    [totalQueryTime m; averageRewardScore m; successRate m; failureCount m;
     validFindings m].
End ValidationMetrics.

Module SubnetSnapshot.
Record t := mk {
  netuid : option number;
  block : option number;
  activeValidators : option number;
  activeMiners : option number;
  totalStake : option number;
  emissionPerBlock : option number;
  timestamp : option Z
}.
Definition empty : t := mk None None None None None None None.
End SubnetSnapshot.

Module ValidationError.
Record t := mk {
  stage : string;
  message : string;
  timestamp : Z;
  stackTrace : option string
}.
End ValidationError.

Module Metadata.
Record t := mk {
  validatorAddress : option string;
  configVersion : option string;
  remarks : option string
}.
End Metadata.

Module Session.
Record t := mk {
  sessionId : string;
  timestamp : Z;
  projectId : option string;
  projectName : option string;
  state : State.t;
  sampledMinerCount : number;
  sampledMinerUids : list number;
  challengeInfo : ChallengeInfo.t;
  groundTruth : GroundTruth.t;
  minerResponses : list MinerResponse.t;
  computedRewards : list ComputedReward.t;
  metrics : ValidationMetrics.t;
  subnetSnapshot : SubnetSnapshot.t;
  validationErrors : list ValidationError.t;
  metadata : Metadata.t
}.
End Session.

Module MinerHistoryDoc.
Record t := mk {
  minerUid : number;
  sessionId : string;
  performanceScore : option number;
  rewardScore : option number;
  githubUrl : option string;
  findingsCount : option number;
  accuracy : option number;
  executionTime : option number;
  timestamp : Z;
  status : Status.t
}.
End MinerHistoryDoc.

Module RewardUpdateDoc.
Record t := mk {
  updateId : string;
  sessionId : string;
  minerUids : list number;
  rewards : list number;
  timestamp : Z;
  confirmed : bool;
  confirmationTime : option Z
}.
End RewardUpdateDoc.

(** The three collections. *)
Record Store := mkStore {
  ValidationSession : gmap string Session.t;
  MinerHistory : list MinerHistoryDoc.t;
  RewardUpdate : list RewardUpdateDoc.t
}.

(** ** Responses *)

Inductive Body :=
| message (m : string)   (* [{ success: true, message: m, ... }] *)
| error (e : string)     (* [{ success: false, error: e }] *)
| thrown.                (* [{ success: false, error: error.message || ... }] *)

Record Response := mkResponse {
  status : Z;
  success : bool;
  body : Body
}.

Definition ok (m : string) : Response := mkResponse 200 true (message m).
Definition created (m : string) : Response := mkResponse 201 true (message m).
Definition bad_request (e : string) : Response := mkResponse 400 false (error e).
Definition not_found (e : string) : Response := mkResponse 404 false (error e).
Definition internal_error : Response := mkResponse 500 false thrown.

(** The two failures the specification names. *)
Definition isValidationError (r : Response) : Prop := status r = 400.
Definition isNotFoundError (r : Response) : Prop := status r = 404.

(** ** Session repository

    Each handler takes the request ([req.params], [req.body]), the values
    of [uuidv4()] and [new Date()] it consumes, and the store; it returns
    the store after the call and the response.  A rejected promise of the
    store (a duplicate key on a unique index) reaches the handler's [catch]
    and answers 500. *)

Module Session_set.
Import Session.

Definition state' (v : State.t) (s : t) : t :=
  mk (sessionId s) (timestamp s) (projectId s) (projectName s) v
     (sampledMinerCount s) (sampledMinerUids s) (challengeInfo s)
     (groundTruth s) (minerResponses s) (computedRewards s) (metrics s)
     (subnetSnapshot s) (validationErrors s) (metadata s).

Definition projectId' (v : option string) (s : t) : t :=
  mk (sessionId s) (timestamp s) v (projectName s) (state s)
     (sampledMinerCount s) (sampledMinerUids s) (challengeInfo s)
     (groundTruth s) (minerResponses s) (computedRewards s) (metrics s)
     (subnetSnapshot s) (validationErrors s) (metadata s).

Definition challengeInfo' (v : ChallengeInfo.t) (s : t) : t :=
  mk (sessionId s) (timestamp s) (projectId s) (projectName s) (state s)
     (sampledMinerCount s) (sampledMinerUids s) v
     (groundTruth s) (minerResponses s) (computedRewards s) (metrics s)
     (subnetSnapshot s) (validationErrors s) (metadata s).

Definition groundTruth' (v : GroundTruth.t) (s : t) : t :=
  mk (sessionId s) (timestamp s) (projectId s) (projectName s) (state s)
     (sampledMinerCount s) (sampledMinerUids s) (challengeInfo s)
     v (minerResponses s) (computedRewards s) (metrics s)
     (subnetSnapshot s) (validationErrors s) (metadata s).

Definition minerResponses' (v : list MinerResponse.t) (s : t) : t :=
  mk (sessionId s) (timestamp s) (projectId s) (projectName s) (state s)
     (sampledMinerCount s) (sampledMinerUids s) (challengeInfo s)
     (groundTruth s) v (computedRewards s) (metrics s)
     (subnetSnapshot s) (validationErrors s) (metadata s).

Definition computedRewards' (v : list ComputedReward.t) (s : t) : t :=
  mk (sessionId s) (timestamp s) (projectId s) (projectName s) (state s)
     (sampledMinerCount s) (sampledMinerUids s) (challengeInfo s)
     (groundTruth s) (minerResponses s) v (metrics s)
     (subnetSnapshot s) (validationErrors s) (metadata s).

Definition metrics' (v : ValidationMetrics.t) (s : t) : t :=
  mk (sessionId s) (timestamp s) (projectId s) (projectName s) (state s)
     (sampledMinerCount s) (sampledMinerUids s) (challengeInfo s)
     (groundTruth s) (minerResponses s) (computedRewards s) v
     (subnetSnapshot s) (validationErrors s) (metadata s).

Definition subnetSnapshot' (v : SubnetSnapshot.t) (s : t) : t :=
  mk (sessionId s) (timestamp s) (projectId s) (projectName s) (state s)
     (sampledMinerCount s) (sampledMinerUids s) (challengeInfo s)
     (groundTruth s) (minerResponses s) (computedRewards s) (metrics s)
     v (validationErrors s) (metadata s).

Definition validationErrors' (v : list ValidationError.t) (s : t) : t :=
  mk (sessionId s) (timestamp s) (projectId s) (projectName s) (state s)
     (sampledMinerCount s) (sampledMinerUids s) (challengeInfo s)
     (groundTruth s) (minerResponses s) (computedRewards s) (metrics s)
     (subnetSnapshot s) v (metadata s).

End Session_set.

(** [ValidationSession.findOneAndUpdate({ sessionId }, u)]: the matching
    document, if any, is replaced by its update; nothing is inserted. *)
Definition findOneAndUpdate (sessionId : string) (u : Session.t -> Session.t)
    (st : Store) : Store * option Session.t :=
  match ValidationSession st !! sessionId with
  | Some s =>
      (mkStore (<[sessionId := u s]> (ValidationSession st))
               (MinerHistory st) (RewardUpdate st),
       Some (u s))
  | None => (st, None)
  end.

(** [POST /api/validation/start] *)
Definition createSession
    (sampledMinerCount : option number) (sampledMinerUids : option (list number))
    (validatorAddress configVersion : option string)
    (uuid : string) (now : Z) (st : Store) : Store * Response :=
  match sampledMinerUids with
  | None => (st, bad_request "sampledMinerUids must be an array")
  | Some uids =>
      let sessionId := uuid in
      let session :=
        Session.mk sessionId now None None State.pending
          (JS.or_number sampledMinerCount (JS.Number_of_nat (length uids)))
          uids ChallengeInfo.empty GroundTruth.empty [] []
          ValidationMetrics.empty SubnetSnapshot.empty []
          (Metadata.mk validatorAddress configVersion None) in
      match ValidationSession st !! sessionId with
      | Some _ => (st, internal_error)
      | None =>
          (mkStore (<[sessionId := session]> (ValidationSession st))
                   (MinerHistory st) (RewardUpdate st),
           created "Validation session started")
      end
  end.

(** [POST /api/validation/:sessionId/challenge] *)
Definition recordChallenge (sessionId : string)
    (projectId description difficulty : option string) (rawData : option json)
    (now : Z) (st : Store) : Store * Response :=
  if JS.falsy_string projectId then (st, bad_request "projectId is required")
  else
    let update s :=
      let c := Session.challengeInfo s in
      Session_set.state' State.in_progress
        (Session_set.projectId' projectId
          (Session_set.challengeInfo'
            (ChallengeInfo.mk projectId
               (Mongo.set_path description (ChallengeInfo.description c))
               (Mongo.set_path difficulty (ChallengeInfo.difficulty c))
               (Some now)
               (Mongo.set_path rawData (ChallengeInfo.rawData c)))
            s)) in
    match findOneAndUpdate sessionId update st with
    | (st', Some _) => (st', ok "Challenge recorded")
    | (st', None) => (st', not_found "Session not found")
    end.

(** [POST /api/validation/:sessionId/ground-truth] *)
Definition recordGroundTruth (sessionId : string)
    (reportId : option string) (vulnerabilities : option (list string))
    (criticalIssues : option number) (rawData : option json)
    (st : Store) : Store * Response :=
  let update s :=
    let g := Session.groundTruth s in
    Session_set.groundTruth'
      (GroundTruth.mk
         (Mongo.set_path reportId (GroundTruth.reportId g))
         (default [] vulnerabilities)
         (Mongo.set_path criticalIssues (GroundTruth.criticalIssues g))
         (Mongo.set_path rawData (GroundTruth.rawData g)))
      s in
  match findOneAndUpdate sessionId update st with
  | (st', Some _) => (st', ok "Ground truth recorded")
  | (st', None) => (st', not_found "Session not found")
  end.

(** [POST /api/validation/:sessionId/miner-response] *)
Definition recordMinerResponse (sessionId : string)
    (minerUid : option number) (githubUrl : option string)
    (responseTime : option number) (success : option bool)
    (errorMessage : option string)
    (agentPerformance : option AgentPerformance.t)
    (now : Z) (st : Store) : Store * Response :=
  match minerUid with
  | None => (st, bad_request "minerUid must be a number")
  | Some uid =>
      let entry :=
        MinerResponse.mk uid githubUrl responseTime success errorMessage now
          (default AgentPerformance.empty agentPerformance) None None in
      let update s :=
        Session_set.minerResponses' (Session.minerResponses s ++ [entry]) s in
      match findOneAndUpdate sessionId update st with
      | (st', Some _) => (st', ok "Miner response recorded")
      | (st', None) => (st', not_found "Session not found")
      end
  end.

(** The positional operator [$] of an update whose query names an array
    field: the position of the first element that matches. *)
Fixpoint positional {A} (p : A -> bool) (l : list A) : option nat :=
  match l with
  | [] => None
  | x :: t => if p x then Some O else S <$> positional p t
  end.

(** The [$set] of [minerResponses.$.rewardScore] and
    [minerResponses.$.rewardReason] on the matched entry. *)
Definition set_reward (rewardScore : option number)
    (rewardReason : option string)
    (r : MinerResponse.t) : MinerResponse.t :=
  MinerResponse.mk
    (MinerResponse.minerUid r) (MinerResponse.githubUrl r)
    (MinerResponse.responseTime r) (MinerResponse.success r)
    (MinerResponse.errorMessage r) (MinerResponse.timestamp r)
    (MinerResponse.agentPerformance r)
    (Mongo.set_path rewardScore (MinerResponse.rewardScore r))
    (Mongo.set_path rewardReason (MinerResponse.rewardReason r)).

(** [rewardScore > 0] on a number or [undefined]: [undefined > 0] is
    [false]. *)
Definition scored (rewardScore : option number) : bool :=
  match rewardScore with
  | Some x => JS.gt0 x
  | None => false
  end.

(** [POST /api/validation/:sessionId/miner-reward].  The handler checks
    [minerUid] only: [rewardScore] is a number or [undefined]. *)
Definition recordMinerReward (sessionId : string)
    (minerUid : option number) (rewardScore : option number)
    (rewardReason : option string)
    (now : Z) (st : Store) : Store * Response :=
  match minerUid with
  | None => (st, bad_request "minerUid must be a number")
  | Some uid =>
      let matches r := Mongo.num_eq uid (MinerResponse.minerUid r) in
      let found :=
        s ← ValidationSession st !! sessionId;
        i ← positional matches (Session.minerResponses s);
        Some (s, i) in
      match found with
      | None => (st, not_found "Session or miner response not found")
      | Some (s, i) =>
          let s' :=
            Session_set.minerResponses'
              (alter (set_reward rewardScore rewardReason) i
                     (Session.minerResponses s)) s in
          let entry :=
            MinerHistoryDoc.mk uid sessionId None rewardScore
              None None None None now
              (if scored rewardScore then Status.success else Status.failed) in
          (mkStore (<[sessionId := s']> (ValidationSession st))
                   (MinerHistory st ++ [entry]) (RewardUpdate st),
           ok "Reward recorded")
      end
  end.

(** The metrics a reward batch assigns to [session.metrics]. *)
Definition batchMetrics (minerUids rewards : list number) : ValidationMetrics.t :=
  let successCount := length (List.filter JS.gt0 rewards) in
  let n := JS.Number_of_nat (length minerUids) in
  ValidationMetrics.mk
    None
    (Some (PrimFloat.div (JS.sum rewards) n))
    (Some (PrimFloat.mul (PrimFloat.div (JS.Number_of_nat successCount) n) 100%float))
    (Some (PrimFloat.sub n (JS.Number_of_nat successCount)))
    None.

(** [POST /api/validation/:sessionId/rewards-update].  [clock idx] is the
    [new Date()] read while mapping element [idx]; [now] is the default
    timestamp of the log entry.  The log entry is created first.  The
    session is then changed in memory and saved: [save()] validates the
    document, and when a computed metric is NaN it fails, the store keeps
    the session as it was and the [catch] answers 500. *)
Definition recordRewardsBatch (sessionId : string)
    (minerUids rewards : option (list number))
    (uuid : string) (now : Z) (clock : nat -> Z)
    (st : Store) : Store * Response :=
  match minerUids, rewards with
  | Some uids, Some rws =>
      if negb (length uids =? length rws)%nat
      then (st, bad_request "minerUids and rewards must have the same length")
      else
        let updateId := uuid in
        if existsb (fun u => String.eqb (RewardUpdateDoc.updateId u) updateId)
                   (RewardUpdate st)
        then (st, internal_error)
        else
          let log :=
            RewardUpdate st
              ++ [RewardUpdateDoc.mk updateId sessionId uids rws now false None] in
          match ValidationSession st !! sessionId with
          | Some session =>
              let session' :=
                Session_set.metrics' (batchMetrics uids rws)
                  (Session_set.computedRewards'
                     (imap (fun idx uid =>
                              ComputedReward.mk uid (rws !! idx) (clock idx))
                           uids)
                     session) in
              if ValidationMetrics.validate (batchMetrics uids rws)
              then (mkStore (<[sessionId := session']> (ValidationSession st))
                            (MinerHistory st) log,
                    ok "Rewards updated")
              else (mkStore (ValidationSession st) (MinerHistory st) log,
                    internal_error)
          | None =>
              (mkStore (ValidationSession st) (MinerHistory st) log,
               ok "Rewards updated")
          end
  | _, _ => (st, bad_request "minerUids and rewards must be arrays")
  end.

(** [POST /api/validation/:sessionId/subnet-snapshot] *)
Definition recordSubnetSnapshot (sessionId : string)
    (netuid block : option number)
    (activeValidators activeMiners totalStake emissionPerBlock : option number)
    (now : Z) (st : Store) : Store * Response :=
  match netuid, block with
  | Some _, Some _ =>
      let update s :=
        let n := Session.subnetSnapshot s in
        Session_set.subnetSnapshot'
          (SubnetSnapshot.mk netuid block
             (Mongo.set_path activeValidators (SubnetSnapshot.activeValidators n))
             (Mongo.set_path activeMiners (SubnetSnapshot.activeMiners n))
             (Mongo.set_path totalStake (SubnetSnapshot.totalStake n))
             (Mongo.set_path emissionPerBlock (SubnetSnapshot.emissionPerBlock n))
             (Some now))
          s in
      ((findOneAndUpdate sessionId update st).1, ok "Subnet snapshot recorded")
  | _, _ => (st, bad_request "netuid and block must be numbers")
  end.

(** [POST /api/validation/:sessionId/error] *)
Definition logError (sessionId : string)
    (stage message stackTrace : option string)
    (now : Z) (st : Store) : Store * Response :=
  if JS.falsy_string stage || JS.falsy_string message
  then (st, bad_request "stage and message are required")
  else
    (* past the check, both are non-empty strings *)
    let entry :=
      ValidationError.mk (default "" stage) (default "" message) now stackTrace in
    let update s :=
      Session_set.validationErrors' (Session.validationErrors s ++ [entry]) s in
    ((findOneAndUpdate sessionId update st).1, ok "Error logged").

(** [POST /api/validation/:sessionId/complete]; [metrics] is the request's
    [metrics] object, and [metrics ≫= f] is [metrics?.f]. *)
Definition completeSession (sessionId : string)
    (metrics : option ValidationMetrics.t)
    (st : Store) : Store * Response :=
  let update s :=
    let m := Session.metrics s in
    Session_set.state' State.completed
      (Session_set.metrics'
         (ValidationMetrics.mk
            (Mongo.set_path (metrics ≫= ValidationMetrics.totalQueryTime)
                            (ValidationMetrics.totalQueryTime m))
            (Mongo.set_path (metrics ≫= ValidationMetrics.averageRewardScore)
                            (ValidationMetrics.averageRewardScore m))
            (Mongo.set_path (metrics ≫= ValidationMetrics.successRate)
                            (ValidationMetrics.successRate m))
            (Mongo.set_path (metrics ≫= ValidationMetrics.failureCount)
                            (ValidationMetrics.failureCount m))
            (Mongo.set_path (metrics ≫= ValidationMetrics.validFindings)
                            (ValidationMetrics.validFindings m)))
         s) in
  match findOneAndUpdate sessionId update st with
  | (st', Some _) => (st', ok "Validation session completed")
  | (st', None) => (st', not_found "Session not found")
  end.

(** The nine mutating operations of the repository, each with the request
    and the environment values it consumes. *)
Inductive Operation :=
| CreateSession (sampledMinerCount : option number)
    (sampledMinerUids : option (list number))
    (validatorAddress configVersion : option string) (uuid : string) (now : Z)
| RecordChallenge (sessionId : string)
    (projectId description difficulty : option string) (rawData : option json)
    (now : Z)
| RecordGroundTruth (sessionId : string) (reportId : option string)
    (vulnerabilities : option (list string)) (criticalIssues : option number)
    (rawData : option json)
| RecordMinerResponse (sessionId : string) (minerUid : option number)
    (githubUrl : option string) (responseTime : option number)
    (success : option bool) (errorMessage : option string)
    (agentPerformance : option AgentPerformance.t) (now : Z)
| RecordMinerReward (sessionId : string) (minerUid : option number)
    (rewardScore : option number) (rewardReason : option string) (now : Z)
| RecordRewardsBatch (sessionId : string)
    (minerUids rewards : option (list number))
    (uuid : string) (now : Z) (clock : nat -> Z)
| RecordSubnetSnapshot (sessionId : string) (netuid block : option number)
    (activeValidators activeMiners totalStake emissionPerBlock : option number)
    (now : Z)
| LogError (sessionId : string) (stage message stackTrace : option string)
    (now : Z)
| CompleteSession (sessionId : string) (metrics : option ValidationMetrics.t).

Definition run (op : Operation) (st : Store) : Store * Response :=
  match op with
  | CreateSession c u a v uuid now => createSession c u a v uuid now st
  | RecordChallenge sid p d f r now => recordChallenge sid p d f r now st
  | RecordGroundTruth sid r v c d => recordGroundTruth sid r v c d st
  | RecordMinerResponse sid u g t s e a now =>
      recordMinerResponse sid u g t s e a now st
  | RecordMinerReward sid u r e now => recordMinerReward sid u r e now st
  | RecordRewardsBatch sid u r uuid now clock =>
      recordRewardsBatch sid u r uuid now clock st
  | RecordSubnetSnapshot sid n b v m t e now =>
      recordSubnetSnapshot sid n b v m t e now st
  | LogError sid s m t now => logError sid s m t now st
  | CompleteSession sid m => completeSession sid m st
  end.

(** ** Analytics *)

#[global] Instance State_eq_dec : EqDecision State.t.
Proof. solve_decision. Defined.

#[global] Instance Status_eq_dec : EqDecision Status.t.
Proof. solve_decision. Defined.

(** The host's time zone as [Date] reads it: the offset of local time from
    UTC, in milliseconds, at a UTC instant and at a local time. *)
Module Zone.
Record t := mk {
  atUTC : Z -> Z;
  atLocal : Z -> Z
}.
(** A zone without daylight saving. *)
Definition fixed (offset : Z) : t := mk (fun _ => offset) (fun _ => offset).
End Zone.

(** [LocalTime(t)] and [UTC(t)] of the language's [Date]. *)
Definition LocalTime (zone : Zone.t) (t : Z) : Z := t + Zone.atUTC zone t.
Definition UTC (zone : Zone.t) (t : Z) : Z := t - Zone.atLocal zone t.

(** The start of a time window.  [setHours(getHours() - 24)] and
    [setDate(getDate() - d)] read the local time, take whole hours or days
    off its fields and convert the result back, so the window is as long in
    wall-clock time whatever the zone does in between.  Any other
    [timeRange] leaves [startDate] at the current time. *)
Definition startDate (zone : Zone.t) (timeRange : string) (now : Z) : Z :=
  let back (ms : Z) := UTC zone (LocalTime zone now - ms) in
  if String.eqb timeRange "24h" then back (24 * 3600000)
  else if String.eqb timeRange "7d" then back (7 * 86400000)
  else if String.eqb timeRange "30d" then back (30 * 86400000)
  else now.

Module LeaderGroup.
Record t := mk {
  _id : number;
  totalRewards : number;
  avgReward : option number;
  participationCount : nat;
  successCount : nat;
  avgAccuracy : option number
}.
End LeaderGroup.

Module LeaderboardEntry.
Record t := mk {
  rank : nat;
  minerUid : number;
  totalRewards : number;
  avgReward : number;
  participationCount : nat;
  successRate : string;
  avgAccuracy : string
}.
End LeaderboardEntry.

(** In-window history entries: [$match: { timestamp: { $gte: startDate } }]. *)
Definition inWindow (start : Z) (h : MinerHistoryDoc.t) : bool :=
  start <=? MinerHistoryDoc.timestamp h.

(** [$sort: { totalRewards: -1 }]: [a] may come before [b]. *)
Definition byTotalRewardsDesc (a b : LeaderGroup.t) : bool :=
  Mongo.key_leb (Mongo.num_key (LeaderGroup.totalRewards b))
                (Mongo.num_key (LeaderGroup.totalRewards a)).

(** [$limit] takes a positive 64-bit integer. *)
Definition limit_ok (n : Z) : bool := (1 <=? n) && (n <? 2 ^ 63).

Section Leaderboard.

(** The store's accumulators [$sum] and [$avg] over the numeric values of
    a field ([$avg] is [null] when there is none), and the three
    conversions of the standard library the handler formats with. *)
Variable acc_sum : list number -> number.
Variable acc_avg : list number -> option number.
Variable toFixed : nat -> number -> string.
Variable Number_of_string : string -> number.
Variable String_of_number : number -> string.

(** One [$group] output document. *)
Definition leaderGroup (g : number * list MinerHistoryDoc.t) : LeaderGroup.t :=
  let members := g.2 in
  let scores := omap MinerHistoryDoc.rewardScore members in
  LeaderGroup.mk g.1
    (acc_sum scores)
    (acc_avg scores)
    (length members)
    (length (List.filter
               (fun h => bool_decide (MinerHistoryDoc.status h = Status.success))
               members))
    (acc_avg (omap MinerHistoryDoc.accuracy members)).

(** The pipeline up to [$sort]. *)
Definition leaderGroups (start : Z) (history : list MinerHistoryDoc.t)
    : list LeaderGroup.t :=
  Mongo.sort_by byTotalRewardsDesc
    (leaderGroup <$>
       Mongo.group_by MinerHistoryDoc.minerUid
         (List.filter (inWindow start) history)).

(** The callback of [leaderboard.map((entry, idx) => ...)]. *)
Definition leaderboardEntry (idx : nat) (entry : LeaderGroup.t)
    : LeaderboardEntry.t :=
  LeaderboardEntry.mk
    (idx + 1)
    (LeaderGroup._id entry)
    (LeaderGroup.totalRewards entry)
    (match LeaderGroup.avgReward entry with
     | Some a =>
         JS.or_number (Some (Number_of_string (toFixed 4 a))) 0%float
     | None => 0%float
     end)
    (LeaderGroup.participationCount entry)
    (String_of_number
       (Number_of_string
          (toFixed 2
             (PrimFloat.mul
                (PrimFloat.div
                   (JS.Number_of_nat (LeaderGroup.successCount entry))
                   (JS.Number_of_nat (LeaderGroup.participationCount entry)))
                100%float)))
     +:+ "%")
    (match LeaderGroup.avgAccuracy entry with
     | Some a => let s := toFixed 4 a in if String.eqb s "" then "N/A" else s
     | None => "N/A"
     end).

(** [GET /api/leaderboard].  [limit] is [parseInt] of the query's [limit]
    (["100"] when absent), [None] for [NaN]; [timeRange] is the query's
    [timeRange] (["30d"] when absent).  [None] is the 500 answer to a
    rejected aggregation. *)
Definition leaderboard (zone : Zone.t) (limit : option Z) (timeRange : string)
    (now : Z) (st : Store) : option (list LeaderboardEntry.t) :=
  match limit with
  | Some n =>
      if limit_ok n
      then Some (imap leaderboardEntry
                   (take (Z.to_nat n)
                      (leaderGroups (startDate zone timeRange now)
                         (MinerHistory st))))
      else None
  | None => None
  end.

End Leaderboard.

Module SummaryRow.
Record t := mk {
  sessionId : string;
  timestamp : Z;
  state : State.t;
  sampledMinerCount : number;
  avgRewardScore : option number
}.
End SummaryRow.

Module ProjectSummary.
Record t := mk {
  projectId : string;
  totalValidationRuns : nat;
  successfulRuns : nat;
  failedRuns : nat;
  totalMinersQueried : number;
  avgRewardScore : number;
  lastRun : option Z;
  sessions : list SummaryRow.t
}.
End ProjectSummary.

(** [ValidationSession.find({ projectId }).sort({ timestamp: -1 })] *)
Definition findByProject (projectId : string) (st : Store) : list Session.t :=
  Mongo.sort_by (fun a b => Session.timestamp b <=? Session.timestamp a)
    (List.filter
       (fun s => bool_decide (Session.projectId s = Some projectId))
       (map_to_list (ValidationSession st)).*2).

(** [GET /api/project/:projectId/summary]: the [summary] object. *)
Definition projectSummary (projectId : string) (st : Store) : ProjectSummary.t :=
  let sessions := findByProject projectId st in
  ProjectSummary.mk
    projectId
    (length sessions)
    (length (List.filter
               (fun s => bool_decide (Session.state s = State.completed)) sessions))
    (length (List.filter
               (fun s => bool_decide (Session.state s = State.failed)) sessions))
    (fold_left
       (fun acc s =>
          PrimFloat.add acc (JS.or_number (Some (Session.sampledMinerCount s)) 0%float))
       sessions 0%float)
    (PrimFloat.div
       (fold_left
          (fun acc s =>
             PrimFloat.add acc
               (JS.or_number
                  (ValidationMetrics.averageRewardScore (Session.metrics s))
                  0%float))
          sessions 0%float)
       (JS.Number_of_nat (length sessions)))
    (Session.timestamp <$> head sessions)
    ((fun s =>
        SummaryRow.mk (Session.sessionId s) (Session.timestamp s)
          (Session.state s) (Session.sampledMinerCount s)
          (ValidationMetrics.averageRewardScore (Session.metrics s)))
       <$> sessions).

(** ** Reading the repository *)

(** [GET /api/validation/:sessionId]: the stored session, or the 404 answer. *)
Definition getSession (sessionId : string) (st : Store) : Session.t + Response :=
  match ValidationSession st !! sessionId with
  | Some session => inl session
  | None => inr (not_found "Session not found")
  end.

(** A cursor's [limit(n)]: [0] leaves the result unlimited. *)
Definition limitTo {A} (n : nat) (l : list A) : list A :=
  match n with
  | O => l
  | _ => take n l
  end.

(** [sort({ timestamp: -1 })] on sessions: [a] may come before [b]. *)
Definition byTimestampDesc (a b : Session.t) : bool :=
  Session.timestamp b <=? Session.timestamp a.

Module Pagination.
Record t := mk {
  total : nat;
  limit : nat;
  skip : nat
}.
End Pagination.

(** [GET /api/validation/sessions/recent].  [limit] and [skip] are the
    non-negative integers [parseInt] makes of the query (["20"] and ["0"]
    when absent); a cursor skips before it limits, in whatever order the two
    are set.  The answer's [data] and [pagination]. *)
Definition listRecent (limit skip : nat) (st : Store)
    : list Session.t * Pagination.t :=
  let sessions :=
    limitTo limit
      (drop skip
         (Mongo.sort_by byTimestampDesc (map_to_list (ValidationSession st)).*2)) in
  let total := size (ValidationSession st) in
  (sessions, Pagination.mk total limit skip).

Module SessionStats.
Record t := mk {
  totalSessions : nat;
  completedSessions : nat;
  failedSessions : nat;
  avgRewardScore : option number;
  totalMinersQueried : number;
  avgQueryTime : option number
}.
End SessionStats.

Module MinerStats.
Record t := mk {
  avgReward : option number;
  totalParticipations : nat;
  successCount : nat;
  failureCount : nat;
  avgAccuracy : option number
}.
End MinerStats.

Section Statistics.

(** The store's accumulators, as for the leaderboard. *)
Variable acc_sum : list number -> number.
Variable acc_avg : list number -> option number.

(** The sessions [$match: { timestamp: { $gte: startDate } }] lets through. *)
Definition sessionsSince (start : Z) (st : Store) : list Session.t :=
  List.filter (fun s => start <=? Session.timestamp s)
    (map_to_list (ValidationSession st)).*2.

(** [GET /api/validation/sessions/stats]: the answer's [data].  A [$group]
    with [_id: null] yields one document when a session matches and none
    otherwise, and [stats[0] || {...}] then answers the zeroed record. *)
Definition sessionStats (zone : Zone.t) (timeRange : string) (now : Z)
    (st : Store) : SessionStats.t :=
  let matched := sessionsSince (startDate zone timeRange now) st in
  match matched with
  | [] => SessionStats.mk 0 0 0 (Some 0%float) 0%float (Some 0%float)
  | _ =>
      SessionStats.mk
        (length matched)
        (length (List.filter
                   (fun s => bool_decide (Session.state s = State.completed))
                   matched))
        (length (List.filter
                   (fun s => bool_decide (Session.state s = State.failed))
                   matched))
        (acc_avg (omap (fun s => ValidationMetrics.averageRewardScore
                                   (Session.metrics s)) matched))
        (acc_sum (Session.sampledMinerCount <$> matched))
        (acc_avg (omap (fun s => ValidationMetrics.totalQueryTime
                                   (Session.metrics s)) matched))
  end.

(** The history entries [{ minerUid: minerIdNum }] matches. *)
Definition historyOf (minerIdNum : number) (st : Store) : list MinerHistoryDoc.t :=
  List.filter (fun h => Mongo.num_eq minerIdNum (MinerHistoryDoc.minerUid h))
    (MinerHistory st).

(** [sort({ timestamp: -1 })] on history entries. *)
Definition byHistoryTimestampDesc (a b : MinerHistoryDoc.t) : bool :=
  MinerHistoryDoc.timestamp b <=? MinerHistoryDoc.timestamp a.

(** [GET /api/miners/:minerUid/history]: the answer's [history] and [stats],
    or the 500 of the [catch].  [minerIdNum] is [parseInt(minerUid)] and
    [limit] the non-negative integer [parseInt] makes of the query's [limit]
    (["50"] when absent).  Of a path parameter that does not start with a
    number [parseInt] makes NaN; [find] casts its filter and throws. *)
Definition minerHistory (minerIdNum : number) (limit : nat) (st : Store)
    : list MinerHistoryDoc.t * MinerStats.t + Response :=
  match Mongo.castNumber minerIdNum with
  | None => inr internal_error
  | Some uid =>
      let mine := historyOf uid st in
      let history := limitTo limit (Mongo.sort_by byHistoryTimestampDesc mine) in
      let stats :=
        match mine with
        | [] => MinerStats.mk (Some 0%float) 0 0 0 (Some 0%float)
        | _ =>
            MinerStats.mk
              (acc_avg (omap MinerHistoryDoc.rewardScore mine))
              (length mine)
              (length (List.filter
                         (fun h => bool_decide (MinerHistoryDoc.status h = Status.success))
                         mine))
              (length (List.filter
                         (fun h => bool_decide (MinerHistoryDoc.status h = Status.failed))
                         mine))
              (acc_avg (omap MinerHistoryDoc.accuracy mine))
        end in
      inl (history, stats)
  end.

End Statistics.

(** ** Audit reports ([src/src/routes/audit.ts])

    The [Audit] model has a unique index on [id]; the collection is a finite
    map keyed by it.  A body has the shape of the schema, each field present
    or not, and a stored report is the body it was created from (the [_id]
    and [__v] the store adds are left out).  [PUT /:id] is not embedded: what
    it stores is decided by the cast and the validators Mongoose applies to
    an update. *)

Module Vulnerability.
Record t := mk {
  id : option string;
  title : option string;
  severity : option string;
  line : option number;
  impact : option string;
  description : option string;
  recommendation : option string
}.
End Vulnerability.

Module FindingsCount.
Record t := mk {
  critical : option number;
  high : option number;
  medium : option number;
  low : option number;
  info : option number
}.
End FindingsCount.

Module AuditDoc.
Record t := mk {
  id : option string;
  created_at : option number;
  miner_hotkey : option string;
  name : option string;
  score : option number;
  status : option string;
  findings_count : FindingsCount.t;
  vulnerabilities : list Vulnerability.t
}.
End AuditDoc.

Module Audit.

(** [enum: ["critical", "high", "medium", "low", "info"]] *)
Definition severities : list string :=
  ["critical"; "high"; "medium"; "low"; "info"].

(** [required: true] on a [String] path: the validator fails on a missing
    value and on the empty string. *)
Definition required (s : option string) : bool := negb (JS.falsy_string s).

Definition validVulnerability (v : Vulnerability.t) : bool :=
  required (Vulnerability.id v)
  && match Vulnerability.severity v with
     | Some s => bool_decide (s ∈ severities)
     | None => false
     end.

(** The document validation [Audit.create] runs before it inserts. *)
Definition valid (body : AuditDoc.t) : bool :=
  required (AuditDoc.id body)
  && forallb validVulnerability (AuditDoc.vulnerabilities body).

(** [POST /]: the store after the call, the status, and the document sent
    with a 201.  A failed validation and a duplicate [id] both reach the
    [catch] and answer 400. *)
Definition create (body : AuditDoc.t) (audits : gmap string AuditDoc.t)
    : gmap string AuditDoc.t * (Z * option AuditDoc.t) :=
  match AuditDoc.id body with
  | Some id =>
      if valid body
      then match audits !! id with
           | Some _ => (audits, (400, None))
           | None => (<[id := body]> audits, (201, Some body))
           end
      else (audits, (400, None))
  | None => (audits, (400, None))
  end.

(** [GET /]: all audits. *)
Definition find (audits : gmap string AuditDoc.t) : list AuditDoc.t :=
  (map_to_list audits).*2.

(** [GET /:id] *)
Definition findOne (id : string) (audits : gmap string AuditDoc.t)
    : Z * option AuditDoc.t :=
  match audits !! id with
  | Some audit => (200, Some audit)
  | None => (404, None)
  end.

(** [DELETE /:id] *)
Definition findOneAndDelete (id : string) (audits : gmap string AuditDoc.t)
    : gmap string AuditDoc.t * Z :=
  match audits !! id with
  | Some _ => (base.delete id audits, 204)
  | None => (audits, 404)
  end.

End Audit.

(** * Specification vocabulary *)

(** ** Frames: what an update of one session leaves alone *)

(** Every field of the session but [minerResponses] is the same. *)
Definition same_but_minerResponses (s s' : Session.t) : Prop :=
  Session.sessionId s' = Session.sessionId s
  ∧ Session.timestamp s' = Session.timestamp s
  ∧ Session.projectId s' = Session.projectId s
  ∧ Session.projectName s' = Session.projectName s
  ∧ Session.state s' = Session.state s
  ∧ Session.sampledMinerCount s' = Session.sampledMinerCount s
  ∧ Session.sampledMinerUids s' = Session.sampledMinerUids s
  ∧ Session.challengeInfo s' = Session.challengeInfo s
  ∧ Session.groundTruth s' = Session.groundTruth s
  ∧ Session.computedRewards s' = Session.computedRewards s
  ∧ Session.metrics s' = Session.metrics s
  ∧ Session.subnetSnapshot s' = Session.subnetSnapshot s
  ∧ Session.validationErrors s' = Session.validationErrors s
  ∧ Session.metadata s' = Session.metadata s.

(** Every field of the response entry but the two reward fields is the same. *)
Definition same_but_reward (r r' : MinerResponse.t) : Prop :=
  MinerResponse.minerUid r' = MinerResponse.minerUid r
  ∧ MinerResponse.githubUrl r' = MinerResponse.githubUrl r
  ∧ MinerResponse.responseTime r' = MinerResponse.responseTime r
  ∧ MinerResponse.success r' = MinerResponse.success r
  ∧ MinerResponse.errorMessage r' = MinerResponse.errorMessage r
  ∧ MinerResponse.timestamp r' = MinerResponse.timestamp r
  ∧ MinerResponse.agentPerformance r' = MinerResponse.agentPerformance r.

(** The request's value for a metrics sub-field overwrites the stored one; a
    sub-field the request omits keeps its stored value. *)
Definition patched (f : ValidationMetrics.t → option number)
    (request : option ValidationMetrics.t) (old new : ValidationMetrics.t) : Prop :=
  match request ≫= f with
  | Some v => f new = Some v
  | None => f new = f old
  end.

(** Every field of the session but [state] and [metrics] is the same. *)
Definition same_but_state_metrics (s s' : Session.t) : Prop :=
  Session.sessionId s' = Session.sessionId s
  ∧ Session.timestamp s' = Session.timestamp s
  ∧ Session.projectId s' = Session.projectId s
  ∧ Session.projectName s' = Session.projectName s
  ∧ Session.sampledMinerCount s' = Session.sampledMinerCount s
  ∧ Session.sampledMinerUids s' = Session.sampledMinerUids s
  ∧ Session.challengeInfo s' = Session.challengeInfo s
  ∧ Session.groundTruth s' = Session.groundTruth s
  ∧ Session.minerResponses s' = Session.minerResponses s
  ∧ Session.computedRewards s' = Session.computedRewards s
  ∧ Session.subnetSnapshot s' = Session.subnetSnapshot s
  ∧ Session.validationErrors s' = Session.validationErrors s
  ∧ Session.metadata s' = Session.metadata s.

(** No entry of the log has this [updateId]: what [uuidv4()] promises. *)
Definition fresh_updateId (uuid : string) (st : Store) : Prop :=
  ∀ u, u ∈ RewardUpdate st → RewardUpdateDoc.updateId u ≠ uuid.

(** The session a batch leaves behind. *)
Definition batchSession (uids rws : list number) (clock : nat → Z)
    (s : Session.t) : Session.t :=
  Session_set.metrics' (batchMetrics uids rws)
    (Session_set.computedRewards'
       (imap (λ idx uid, ComputedReward.mk uid (rws !! idx) (clock idx)) uids) s).

(** ** Grouping *)

#[global] Instance NumKey_eq_dec : EqDecision Mongo.NumKey.
Proof. solve_decision. Defined.

Section GroupingSpec.

Context {A : Type} (key : A → number).

Definition group_keys (gs : list (number * list A)) : list Mongo.NumKey :=
  (λ g, Mongo.num_key g.1) <$> gs.

(** [gs] is the grouping of [l]: each group holds the elements of [l] with
    its key, in order, and is not empty; no two groups have the same key;
    every element of [l] is in a group. *)
Record grouped (l : list A) (gs : list (number * list A)) : Prop := {
  grouped_members :
    ∀ k xs, (k, xs) ∈ gs →
            xs = List.filter (λ y, Mongo.num_eq k (key y)) l ∧ xs ≠ [];
  grouped_distinct : NoDup (group_keys gs);
  grouped_cover : ∀ y, y ∈ l → Mongo.num_key (key y) ∈ group_keys gs
}.

End GroupingSpec.

(** The in-window history entries of the miner of a group. *)
Definition groupMembers (start : Z) (history : list MinerHistoryDoc.t)
    (uid : number) : list MinerHistoryDoc.t :=
  List.filter (λ h, Mongo.num_eq uid (MinerHistoryDoc.minerUid h))
    (List.filter (inWindow start) history).

(** The miners with a history entry in the window, each once, by the
    store's equality on numbers. *)
Definition minersInWindow (start : Z) (history : list MinerHistoryDoc.t)
    : list Mongo.NumKey :=
  remove_dups
    ((λ h, Mongo.num_key (MinerHistoryDoc.minerUid h))
       <$> List.filter (inWindow start) history).

(** ** A sample run

    One session driven through the repository: created, three responses
    (miner 1 once, miner 2 twice), three rewards, completed. *)

Module Sample.

Definition store0 : Store := mkStore ∅ [] [].

Definition created : Store :=
  (run (CreateSession None (Some [1%float; 2%float; 3%float]) None (Some "v1")
          "s1" 1000) store0).1.

Definition responded : Store :=
  (run (RecordMinerResponse "s1" (Some 2%float) (Some "url-b") (Some 40%float)
          (Some true) None None 1003)
  (run (RecordMinerResponse "s1" (Some 2%float) (Some "url-a") (Some 35%float)
          (Some true) None None 1002)
  (run (RecordMinerResponse "s1" (Some 1%float) None (Some 20%float)
          (Some false) (Some "timeout") None 1001)
     created).1).1).1.

Definition rewarded : Store :=
  (run (RecordMinerReward "s1" (Some 2%float) (Some 3%float) None 1006)
  (run (RecordMinerReward "s1" (Some 1%float) (Some 4%float) (Some "ok") 1005)
  (run (RecordMinerReward "s1" (Some 2%float) (Some 5%float) (Some "good") 1004)
     responded).1).1).1.

Definition completed : Store :=
  (run (CompleteSession "s1"
          (Some (ValidationMetrics.mk (Some 12%float) None None None
                   (Some 4%float))))
       rewarded).1.

(** Accumulators and conversions to run the leaderboard with: the sum and
    mean in binary64 arithmetic, and constant formatting. *)
Definition ieee_avg (l : list number) : option number :=
  match l with
  | [] => None
  | _ => Some (PrimFloat.div (JS.sum l) (JS.Number_of_nat (length l)))
  end.

Definition board (limit : Z) (now : Z) (st : Store)
    : option (list LeaderboardEntry.t) :=
  leaderboard JS.sum ieee_avg (λ _ _, "0") (λ _, 0%float) (λ _, "0")
    (Zone.fixed 0) (Some limit) "24h" now st.

End Sample.

(** ** Runs of operations and what they keep *)

Definition emptyStore : Store := mkStore ∅ [] [].

(** The store after a sequence of operations, first to last. *)
Definition runs (ops : list Operation) (st : Store) : Store :=
  foldl (λ st op, (run op st).1) st ops.

(** What operations may do to a stored session: its identity and sampling
    stay; the error log and the responses only grow at the end; a response
    entry keeps every field but the two reward fields, and a reward score,
    once there, stays there; the state stays or becomes [in_progress] or
    [completed]. *)
Record session_step (s s' : Session.t) : Prop := {
  step_sessionId : Session.sessionId s' = Session.sessionId s;
  step_timestamp : Session.timestamp s' = Session.timestamp s;
  step_projectName : Session.projectName s' = Session.projectName s;
  step_sampledMinerCount :
    Session.sampledMinerCount s' = Session.sampledMinerCount s;
  step_sampledMinerUids :
    Session.sampledMinerUids s' = Session.sampledMinerUids s;
  step_metadata : Session.metadata s' = Session.metadata s;
  step_validationErrors :
    Session.validationErrors s `prefix_of` Session.validationErrors s';
  step_length :
    (length (Session.minerResponses s) ≤ length (Session.minerResponses s'))%nat;
  step_responses :
    ∀ i r, Session.minerResponses s !! i = Some r →
           ∃ r', Session.minerResponses s' !! i = Some r'
                 ∧ same_but_reward r r'
                 ∧ (is_Some (MinerResponse.rewardScore r) →
                    is_Some (MinerResponse.rewardScore r'));
  step_state :
    Session.state s' = Session.state s
    ∨ Session.state s' = State.in_progress
    ∨ Session.state s' = State.completed
}.

(** A history entry is backed by the store: its session is stored and has a
    response entry of its miner, which carries a reward score when the
    history entry has one; and its status is [success] when it has a score
    above 0 and [failed] otherwise. *)
Definition backed (st : Store) (h : MinerHistoryDoc.t) : Prop :=
  (∃ s r,
     ValidationSession st !! MinerHistoryDoc.sessionId h = Some s
     ∧ r ∈ Session.minerResponses s
     ∧ Mongo.num_eq (MinerHistoryDoc.minerUid h) (MinerResponse.minerUid r) = true
     ∧ (is_Some (MinerHistoryDoc.rewardScore h)
        → is_Some (MinerResponse.rewardScore r)))
  ∧ MinerHistoryDoc.status h
    = if scored (MinerHistoryDoc.rewardScore h)
      then Status.success else Status.failed.

(** The relations between the collections that every operation keeps. *)
Record consistent (st : Store) : Prop := {
  keys_are_ids :
    ∀ sid s, ValidationSession st !! sid = Some s → Session.sessionId s = sid;
  never_failed :
    ∀ sid s, ValidationSession st !! sid = Some s →
             Session.state s ≠ State.failed;
  updateIds_unique : NoDup (RewardUpdateDoc.updateId <$> RewardUpdate st);
  history_backed : ∀ h, h ∈ MinerHistory st → backed st h
}.

(** Every field of the session but [state], [projectId] and [challengeInfo]
    is the same. *)
Definition same_but_challenge (s s' : Session.t) : Prop :=
  Session.sessionId s' = Session.sessionId s
  ∧ Session.timestamp s' = Session.timestamp s
  ∧ Session.projectName s' = Session.projectName s
  ∧ Session.sampledMinerCount s' = Session.sampledMinerCount s
  ∧ Session.sampledMinerUids s' = Session.sampledMinerUids s
  ∧ Session.groundTruth s' = Session.groundTruth s
  ∧ Session.minerResponses s' = Session.minerResponses s
  ∧ Session.computedRewards s' = Session.computedRewards s
  ∧ Session.metrics s' = Session.metrics s
  ∧ Session.subnetSnapshot s' = Session.subnetSnapshot s
  ∧ Session.validationErrors s' = Session.validationErrors s
  ∧ Session.metadata s' = Session.metadata s.

(** Every field of the session but [groundTruth] is the same. *)
Definition same_but_groundTruth (s s' : Session.t) : Prop :=
  Session.sessionId s' = Session.sessionId s
  ∧ Session.timestamp s' = Session.timestamp s
  ∧ Session.projectId s' = Session.projectId s
  ∧ Session.projectName s' = Session.projectName s
  ∧ Session.state s' = Session.state s
  ∧ Session.sampledMinerCount s' = Session.sampledMinerCount s
  ∧ Session.sampledMinerUids s' = Session.sampledMinerUids s
  ∧ Session.challengeInfo s' = Session.challengeInfo s
  ∧ Session.minerResponses s' = Session.minerResponses s
  ∧ Session.computedRewards s' = Session.computedRewards s
  ∧ Session.metrics s' = Session.metrics s
  ∧ Session.subnetSnapshot s' = Session.subnetSnapshot s
  ∧ Session.validationErrors s' = Session.validationErrors s
  ∧ Session.metadata s' = Session.metadata s.

(** Every field of the session but [subnetSnapshot] is the same. *)
Definition same_but_subnetSnapshot (s s' : Session.t) : Prop :=
  Session.sessionId s' = Session.sessionId s
  ∧ Session.timestamp s' = Session.timestamp s
  ∧ Session.projectId s' = Session.projectId s
  ∧ Session.projectName s' = Session.projectName s
  ∧ Session.state s' = Session.state s
  ∧ Session.sampledMinerCount s' = Session.sampledMinerCount s
  ∧ Session.sampledMinerUids s' = Session.sampledMinerUids s
  ∧ Session.challengeInfo s' = Session.challengeInfo s
  ∧ Session.groundTruth s' = Session.groundTruth s
  ∧ Session.minerResponses s' = Session.minerResponses s
  ∧ Session.computedRewards s' = Session.computedRewards s
  ∧ Session.metrics s' = Session.metrics s
  ∧ Session.validationErrors s' = Session.validationErrors s
  ∧ Session.metadata s' = Session.metadata s.

(** Every field of the session but [validationErrors] is the same. *)
Definition same_but_validationErrors (s s' : Session.t) : Prop :=
  Session.sessionId s' = Session.sessionId s
  ∧ Session.timestamp s' = Session.timestamp s
  ∧ Session.projectId s' = Session.projectId s
  ∧ Session.projectName s' = Session.projectName s
  ∧ Session.state s' = Session.state s
  ∧ Session.sampledMinerCount s' = Session.sampledMinerCount s
  ∧ Session.sampledMinerUids s' = Session.sampledMinerUids s
  ∧ Session.challengeInfo s' = Session.challengeInfo s
  ∧ Session.groundTruth s' = Session.groundTruth s
  ∧ Session.minerResponses s' = Session.minerResponses s
  ∧ Session.computedRewards s' = Session.computedRewards s
  ∧ Session.metrics s' = Session.metrics s
  ∧ Session.subnetSnapshot s' = Session.subnetSnapshot s
  ∧ Session.metadata s' = Session.metadata s.

(** The store is the same but for the one session. *)
Definition only_session_changed (sessionId : string) (st st' : Store) : Prop :=
  (∀ sid, sid ≠ sessionId →
          ValidationSession st' !! sid = ValidationSession st !! sid)
  ∧ MinerHistory st' = MinerHistory st
  ∧ RewardUpdate st' = RewardUpdate st.

(** The operations of the sample run, in order, and a later batch. *)
Module SampleRun.

Definition respond : list Operation :=
  [RecordMinerResponse "s1" (Some 1%float) None (Some 20%float)
     (Some false) (Some "timeout") None 1001;
   RecordMinerResponse "s1" (Some 2%float) (Some "url-a") (Some 35%float)
     (Some true) None None 1002;
   RecordMinerResponse "s1" (Some 2%float) (Some "url-b") (Some 40%float)
     (Some true) None None 1003].

Definition reward : list Operation :=
  [RecordMinerReward "s1" (Some 2%float) (Some 5%float) (Some "good") 1004;
   RecordMinerReward "s1" (Some 1%float) (Some 4%float) (Some "ok") 1005;
   RecordMinerReward "s1" (Some 2%float) (Some 3%float) None 1006].

Definition finish : list Operation :=
  [LogError "s1" (Some "scoring") (Some "late answer") None 1007;
   RecordRewardsBatch "s1" (Some [1%float; 2%float]) (Some [4%float; 8%float])
     "u1" 1008 (λ _, 1008);
   RecordChallenge "s1" (Some "p1") (Some "first") None None 1009;
   CompleteSession "s1" None].

Definition ops : list Operation :=
  CreateSession None (Some [1%float; 2%float; 3%float]) None (Some "v1")
    "s1" 1000
  :: respond ++ reward ++ finish.

Definition final : Store := runs ops emptyStore.

End SampleRun.

(** Two audit reports: a well formed one, and one whose vulnerability has a
    severity outside the schema's list. *)
Module SampleAudit.

Definition finding (severity : string) : Vulnerability.t :=
  Vulnerability.mk (Some "V-1") (Some "Reentrancy") (Some severity)
    (Some 42%float) None None None.

Definition report : AuditDoc.t :=
  AuditDoc.mk (Some "a1") (Some 1700000000%float) (Some "5F3s") (Some "vault")
    (Some 0.5%float) (Some "done")
    (FindingsCount.mk (Some 0%float) (Some 1%float) None None None)
    [finding "high"].

Definition badReport : AuditDoc.t :=
  AuditDoc.mk (Some "a2") None None None None None
    (FindingsCount.mk None None None None None)
    [finding "severe"].

End SampleAudit.

(** * Properties *)

(** ** The store primitives *)

Lemma findOneAndUpdate_lookup sid u st sid' :
  ValidationSession (findOneAndUpdate sid u st).1 !! sid'
  = if decide (sid = sid') then u <$> ValidationSession st !! sid'
    else ValidationSession st !! sid'.
Proof.
  unfold findOneAndUpdate.
  destruct (ValidationSession st !! sid) as [s|] eqn:E; simpl.
  - rewrite lookup_insert. case_decide; subst; [by rewrite E|done].
  - case_decide; subst; [by rewrite E|done].
Qed.

Lemma findOneAndUpdate_logs sid u st :
  MinerHistory (findOneAndUpdate sid u st).1 = MinerHistory st
  ∧ RewardUpdate (findOneAndUpdate sid u st).1 = RewardUpdate st.
Proof.
  unfold findOneAndUpdate. by destruct (ValidationSession st !! sid).
Qed.

Lemma findOneAndUpdate_absent sid u st :
  ValidationSession st !! sid = None → findOneAndUpdate sid u st = (st, None).
Proof. unfold findOneAndUpdate. by intros ->. Qed.

Lemma findOneAndUpdate_present sid u st s :
  ValidationSession st !! sid = Some s →
  findOneAndUpdate sid u st
  = (mkStore (<[sid := u s]> (ValidationSession st))
             (MinerHistory st) (RewardUpdate st), Some (u s)).
Proof. unfold findOneAndUpdate. by intros ->. Qed.

(** The positional operator finds the least matching position. *)
Lemma positional_Some {A} (p : A → bool) l i :
  positional p l = Some i ↔
  ∃ x, l !! i = Some x ∧ p x = true
       ∧ ∀ j y, (j < i)%nat → l !! j = Some y → p y = false.
Proof.
  revert i. induction l as [|a l IH]; intros i; simpl.
  - split; [done|]. by intros (x & ? & _).
  - destruct (p a) eqn:Pa.
    + split.
      * intros [= <-]. exists a. split_and!; [done..|]. intros; lia.
      * intros (x & Hx & Px & Hlt). destruct i as [|i]; [done|].
        specialize (Hlt O a ltac:(lia) eq_refl). congruence.
    + split.
      * intros (k & Ek & ->)%fmap_Some. apply IH in Ek as (x & Hx & Px & Hlt).
        exists x. split_and!; [done..|].
        intros [|j] y Hj Hy; simpl in Hy; [congruence|].
        apply (Hlt j); [lia|done].
      * intros (x & Hx & Px & Hlt). destruct i as [|i]; simpl in Hx.
        -- congruence.
        -- assert (positional p l = Some i) as ->; [|done].
           apply IH. exists x. split_and!; [done..|].
           intros j y Hj Hy. apply (Hlt (S j) y); [lia|done].
Qed.

Lemma positional_None {A} (p : A → bool) l :
  positional p l = None ↔ ∀ x, x ∈ l → p x = false.
Proof.
  induction l as [|a l IH]; simpl.
  - split; [|done]. intros _ x Hx. by apply elem_of_nil in Hx.
  - destruct (p a) eqn:Pa.
    + split; [done|]. intros H. specialize (H a ltac:(left)). congruence.
    + destruct (positional p l) eqn:E; simpl.
      * split; [done|]. intros H.
        assert (Some n = None) as Hn; [|done].
        apply IH. intros x Hx. apply H. by right.
      * split; [|done]. intros _ x [->|Hx]%elem_of_cons; [done|].
        by apply (proj1 IH).
Qed.

(** ** recordMinerReward *)

(** C1.  A call of recordMinerReward whose minerUid is a number and that
    carries a rewardScore:
    - when the session is absent, or none of its response entries has that
      minerUid, the call answers 404 (NotFoundError) and the store, so also
      the history log, is unchanged;
    - when entry [i] of the session is the first one with that minerUid, the
      call answers 200; entry [i] gets the given rewardScore, and the given
      rewardReason when there is one (an omitted reason leaves the stored one),
      and keeps its other fields; every other entry, every other field of the
      session and every other session is unchanged; exactly one history entry
      is appended, for this miner, session and score, with status [success]
      when [rewardScore > 0] and [failed] otherwise. *)
Theorem recordMinerReward_first_match
    (sessionId : string) (uid rewardScore : number)
    (rewardReason : option string) (now : Z) (st : Store) :
  let matches r := Mongo.num_eq uid (MinerResponse.minerUid r) in
  let res := recordMinerReward sessionId (Some uid) (Some rewardScore)
               rewardReason now st in
  ((ValidationSession st !! sessionId = None
    ∨ ∃ s, ValidationSession st !! sessionId = Some s
           ∧ ∀ r, r ∈ Session.minerResponses s → matches r = false) →
   isNotFoundError res.2 ∧ res.1 = st)
  ∧
  (∀ s i r,
     ValidationSession st !! sessionId = Some s →
     Session.minerResponses s !! i = Some r →
     matches r = true →
     (∀ j r', (j < i)%nat → Session.minerResponses s !! j = Some r' →
              matches r' = false) →
     status res.2 = 200 ∧ success res.2 = true
     ∧ (∃ s' r',
          ValidationSession res.1 !! sessionId = Some s'
          ∧ Session.minerResponses s' !! i = Some r'
          ∧ MinerResponse.rewardScore r' = Some rewardScore
          ∧ MinerResponse.rewardReason r'
            = match rewardReason with
              | Some reason => Some reason
              | None => MinerResponse.rewardReason r
              end
          ∧ same_but_reward r r'
          ∧ length (Session.minerResponses s') = length (Session.minerResponses s)
          ∧ (∀ j, j ≠ i →
                  Session.minerResponses s' !! j = Session.minerResponses s !! j)
          ∧ same_but_minerResponses s s')
     ∧ (∀ sid, sid ≠ sessionId →
               ValidationSession res.1 !! sid = ValidationSession st !! sid)
     ∧ (∃ h, MinerHistory res.1 = MinerHistory st ++ [h]
             ∧ MinerHistoryDoc.minerUid h = uid
             ∧ MinerHistoryDoc.sessionId h = sessionId
             ∧ MinerHistoryDoc.rewardScore h = Some rewardScore
             ∧ MinerHistoryDoc.timestamp h = now
             ∧ MinerHistoryDoc.status h
               = if JS.gt0 rewardScore then Status.success else Status.failed)
     ∧ RewardUpdate res.1 = RewardUpdate st).
Proof.
  intros matches res. subst res. unfold recordMinerReward. fold matches. split.
  - intros [Hnone | (s & Hs & Hall)].
    + rewrite Hnone. simpl. done.
    + rewrite Hs. simpl.
      apply positional_None in Hall. rewrite Hall. simpl. done.
  - intros s i r Hs Hi Hr Hfirst. rewrite Hs. simpl.
    assert (positional matches (Session.minerResponses s) = Some i) as ->.
    { apply positional_Some. by exists r. }
    simpl. split_and!; try done.
    + eexists _, _. rewrite lookup_insert_eq. split; [reflexivity|]. simpl.
      rewrite list_lookup_alter_eq, Hi. simpl. split; [reflexivity|].
      split_and!; try done.
      * by rewrite length_alter.
      * intros j Hj. by rewrite list_lookup_alter_ne.
    + intros sid Hsid. by rewrite lookup_insert_ne.
    + eexists. split; [reflexivity|]. done.
Qed.

(** ** The state machine *)

(** What one operation does to the state of a stored session: the session
    stays stored, and its state is kept, or set to [in_progress] by a
    recordChallenge on it, or set to [completed] by a completeSession on it. *)
Lemma run_state (op : Operation) (st : Store) (sid : string) (s : Session.t) :
  ValidationSession st !! sid = Some s →
  ∃ s', ValidationSession (run op st).1 !! sid = Some s'
        ∧ (Session.state s' = Session.state s
           ∨ (Session.state s' = State.in_progress
              ∧ ∃ p d f r now, op = RecordChallenge sid p d f r now)
           ∨ (Session.state s' = State.completed
              ∧ ∃ m, op = CompleteSession sid m)).
Proof.
  intros Hs. destruct op; simpl.
  - unfold createSession. destruct sampledMinerUids as [uids|]; [|eauto].
    destruct (ValidationSession st !! uuid) eqn:E; [eauto|]. simpl.
    rewrite lookup_insert_ne; [eauto|]. intros ->. congruence.
  - unfold recordChallenge. destruct (JS.falsy_string projectId); [eauto|].
    match goal with |- context [findOneAndUpdate ?a ?u st] =>
      pose proof (findOneAndUpdate_lookup a u st sid) as L;
      destruct (findOneAndUpdate a u st) as [st' [x|]] end;
    simpl in *; rewrite L; case_decide; subst; rewrite Hs; simpl; eauto 12.
  - unfold recordGroundTruth.
    match goal with |- context [findOneAndUpdate ?a ?u st] =>
      pose proof (findOneAndUpdate_lookup a u st sid) as L;
      destruct (findOneAndUpdate a u st) as [st' [x|]] end;
    simpl in *; rewrite L; case_decide; subst; rewrite Hs; simpl; eauto.
  - unfold recordMinerResponse. destruct minerUid; [|eauto].
    match goal with |- context [findOneAndUpdate ?a ?u st] =>
      pose proof (findOneAndUpdate_lookup a u st sid) as L;
      destruct (findOneAndUpdate a u st) as [st' [x|]] end;
    simpl in *; rewrite L; case_decide; subst; rewrite Hs; simpl; eauto.
  - unfold recordMinerReward. destruct minerUid as [uid|]; [|eauto].
    destruct (ValidationSession st !! sessionId) as [s0|] eqn:E; simpl; [|eauto].
    destruct (positional _ (Session.minerResponses s0)); simpl; [|eauto].
    destruct (decide (sessionId = sid)) as [->|Hne].
    + rewrite lookup_insert_eq. simplify_eq. eauto.
    + rewrite lookup_insert_ne by done. eauto.
  - unfold recordRewardsBatch.
    destruct minerUids as [uids|], rewards as [rws|]; [|eauto..].
    destruct (negb _); [eauto|]. destruct (existsb _ _); [eauto|].
    destruct (ValidationSession st !! sessionId) as [s0|] eqn:E; simpl; [|eauto].
    destruct (ValidationMetrics.validate _); simpl; [|eauto].
    destruct (decide (sessionId = sid)) as [->|Hne].
    + rewrite lookup_insert_eq. simplify_eq. eauto.
    + rewrite lookup_insert_ne by done. eauto.
  - unfold recordSubnetSnapshot. destruct netuid, block; [|eauto..]. simpl.
    rewrite findOneAndUpdate_lookup. case_decide; subst; rewrite Hs; simpl; eauto.
  - unfold logError. destruct (_ || _); [eauto|]. simpl.
    rewrite findOneAndUpdate_lookup. case_decide; subst; rewrite Hs; simpl; eauto.
  - unfold completeSession.
    match goal with |- context [findOneAndUpdate ?a ?u st] =>
      pose proof (findOneAndUpdate_lookup a u st sid) as L;
      destruct (findOneAndUpdate a u st) as [st' [x|]] end;
    simpl in *; rewrite L; case_decide; subst; rewrite Hs; simpl; eauto 12.
Qed.

(** C3 (as amended).  For a stored session and any one operation: the
    session stays stored; if it was [completed], it is still [completed]
    afterwards unless the operation is a recordChallenge on it, which sets it
    to [in_progress] (every recordChallenge on it with a non-empty projectId
    does so); and if it was not [pending], it is not [pending] afterwards. *)
Theorem completed_state_transitions
    (op : Operation) (st : Store) (sid : string) (s : Session.t) :
  ValidationSession st !! sid = Some s →
  ∃ s', ValidationSession (run op st).1 !! sid = Some s'
        ∧ (Session.state s = State.completed →
           Session.state s' = State.completed
           ∨ (Session.state s' = State.in_progress
              ∧ ∃ p d f r now, op = RecordChallenge sid p d f r now))
        ∧ (∀ p d f r now,
             op = RecordChallenge sid p d f r now →
             JS.falsy_string p = false →
             Session.state s' = State.in_progress)
        ∧ (Session.state s ≠ State.pending → Session.state s' ≠ State.pending).
Proof.
  intros Hs. destruct (run_state op st sid s Hs) as (s' & Hs' & Hcases).
  exists s'. split; [done|]. split_and!.
  - intros Hc. destruct Hcases as [H|[[H ?]|[H ?]]]; eauto. left. congruence.
  - intros p d f r now -> Hp. simpl in Hs'. unfold recordChallenge in Hs'.
    rewrite Hp in Hs'. rewrite (findOneAndUpdate_present _ _ _ _ Hs) in Hs'.
    simpl in Hs'. rewrite lookup_insert_eq in Hs'. by simplify_eq.
  - intros Hp. destruct Hcases as [H|[[H ?]|[H ?]]]; congruence.
Qed.

(** ** createSession *)

(** C5 (as amended).  createSession answers 400 (ValidationError) and leaves
    the store unchanged when sampledMinerUids is not an array.  Given an
    array of numbers, integers or not, and a uuid that no stored session has,
    it answers 201 and stores under that uuid a session with that sessionId,
    state [pending], empty minerResponses, computedRewards and
    validationErrors, and the given sampledMinerUids, changing nothing else;
    without a count the stored sampledMinerCount is the array's length, which
    is 3 for [[1,2,3]]. *)
Theorem createSession_array_check
    (sampledMinerCount : option number) (sampledMinerUids : option (list number))
    (validatorAddress configVersion : option string)
    (uuid : string) (now : Z) (st : Store) :
  let res := createSession sampledMinerCount sampledMinerUids
               validatorAddress configVersion uuid now st in
  (sampledMinerUids = None → isValidationError res.2 ∧ res.1 = st)
  ∧ (∀ uids,
       sampledMinerUids = Some uids →
       ValidationSession st !! uuid = None →
       status res.2 = 201 ∧ success res.2 = true
       ∧ (∃ s, ValidationSession res.1 !! uuid = Some s
               ∧ Session.sessionId s = uuid
               ∧ Session.state s = State.pending
               ∧ Session.minerResponses s = []
               ∧ Session.computedRewards s = []
               ∧ Session.validationErrors s = []
               ∧ Session.sampledMinerUids s = uids
               ∧ (sampledMinerCount = None →
                  Session.sampledMinerCount s = JS.Number_of_nat (length uids))
               ∧ (sampledMinerCount = None →
                  uids = [1%float; 2%float; 3%float] →
                  Session.sampledMinerCount s = 3%float))
       ∧ (∀ sid, sid ≠ uuid →
                 ValidationSession res.1 !! sid = ValidationSession st !! sid)
       ∧ MinerHistory res.1 = MinerHistory st
       ∧ RewardUpdate res.1 = RewardUpdate st).
Proof.
  intros res. subst res. unfold createSession. split.
  - by intros ->.
  - intros uids -> Hfresh. rewrite Hfresh. simpl. split_and!; try done.
    + eexists. rewrite lookup_insert_eq. split; [reflexivity|]. simpl.
      split_and!; try done.
      * by intros ->.
      * by intros -> ->.
    + intros sid Hsid. by rewrite lookup_insert_ne.
Qed.

(** ** completeSession *)

(** C6.  completeSession on an absent session answers 404 (NotFoundError)
    and changes nothing.  On a stored session it answers 200, the state
    becomes [completed], each of the five metrics sub-fields is overwritten
    when the request has it and keeps its stored value when the request omits
    it, and nothing else changes. *)
Theorem completeSession_patches_metrics
    (sessionId : string) (metrics : option ValidationMetrics.t) (st : Store) :
  let res := completeSession sessionId metrics st in
  (ValidationSession st !! sessionId = None →
   isNotFoundError res.2 ∧ res.1 = st)
  ∧ (∀ s,
       ValidationSession st !! sessionId = Some s →
       status res.2 = 200 ∧ success res.2 = true
       ∧ (∃ s', ValidationSession res.1 !! sessionId = Some s'
                ∧ Session.state s' = State.completed
                ∧ patched ValidationMetrics.totalQueryTime metrics
                    (Session.metrics s) (Session.metrics s')
                ∧ patched ValidationMetrics.averageRewardScore metrics
                    (Session.metrics s) (Session.metrics s')
                ∧ patched ValidationMetrics.successRate metrics
                    (Session.metrics s) (Session.metrics s')
                ∧ patched ValidationMetrics.failureCount metrics
                    (Session.metrics s) (Session.metrics s')
                ∧ patched ValidationMetrics.validFindings metrics
                    (Session.metrics s) (Session.metrics s')
                ∧ same_but_state_metrics s s')
       ∧ (∀ sid, sid ≠ sessionId →
                 ValidationSession res.1 !! sid = ValidationSession st !! sid)
       ∧ MinerHistory res.1 = MinerHistory st
       ∧ RewardUpdate res.1 = RewardUpdate st).
Proof.
  intros res. subst res. unfold completeSession. split.
  - intros H. by rewrite (findOneAndUpdate_absent _ _ _ H).
  - intros s Hs. rewrite (findOneAndUpdate_present _ _ _ _ Hs). simpl.
    split_and!; try done.
    + eexists. rewrite lookup_insert_eq. split; [reflexivity|]. simpl.
      unfold patched, Mongo.set_path. simpl.
      split_and!; try done;
        match goal with |- match ?x with _ => _ end => by destruct x end.
    + intros sid Hsid. by rewrite lookup_insert_ne.
Qed.

(** ** recordRewardsBatch *)

Lemma fresh_updateId_existsb uuid st :
  fresh_updateId uuid st →
  existsb (λ u, String.eqb (RewardUpdateDoc.updateId u) uuid) (RewardUpdate st)
  = false.
Proof.
  unfold fresh_updateId. induction (RewardUpdate st) as [|u l IH]; [done|].
  intros H. simpl. rewrite IH.
  - rewrite orb_false_r. apply String.eqb_neq. apply H. by left.
  - intros v Hv. apply H. by right.
Qed.

Lemma castNumber_is_Some (x : number) :
  is_Some (Mongo.castNumber x) ↔ PrimFloat.is_nan x = false.
Proof.
  unfold Mongo.castNumber. by destruct (PrimFloat.is_nan x); split.
Qed.

(** The metrics of a batch pass the validation of [save()] exactly when
    none of the three computed numbers is NaN. *)
Lemma validate_batchMetrics (uids rws : list number) :
  let n := JS.Number_of_nat (length uids) in
  let successes := JS.Number_of_nat (length (List.filter JS.gt0 rws)) in
  ValidationMetrics.validate (batchMetrics uids rws)
  = negb (PrimFloat.is_nan (PrimFloat.div (JS.sum rws) n))
    && negb (PrimFloat.is_nan
               (PrimFloat.mul (PrimFloat.div successes n) 100%float))
    && negb (PrimFloat.is_nan (PrimFloat.sub n successes)).
Proof.
  intros n successes. unfold ValidationMetrics.validate, batchMetrics.
  fold n successes. cbn [forallb ValidationMetrics.totalQueryTime
    ValidationMetrics.averageRewardScore ValidationMetrics.successRate
    ValidationMetrics.failureCount ValidationMetrics.validFindings].
  assert (∀ x, bool_decide (is_Some (Mongo.castNumber x))
               = negb (PrimFloat.is_nan x)) as E.
  { intros x. unfold Mongo.castNumber.
    destruct (PrimFloat.is_nan x); [apply bool_decide_eq_false|
                                     apply bool_decide_eq_true]; simpl.
    - by intros [? ?].
    - by eexists. }
  rewrite !E. simpl. rewrite andb_true_r. by rewrite !andb_assoc.
Qed.

Lemma recordRewardsBatch_accepted sid uids rws uuid now clock st :
  length uids = length rws →
  fresh_updateId uuid st →
  recordRewardsBatch sid (Some uids) (Some rws) uuid now clock st
  = let log :=
      RewardUpdate st ++ [RewardUpdateDoc.mk uuid sid uids rws now false None] in
    match ValidationSession st !! sid with
    | Some s =>
        if ValidationMetrics.validate (batchMetrics uids rws)
        then (mkStore (<[sid := batchSession uids rws clock s]>
                         (ValidationSession st))
                      (MinerHistory st) log,
              ok "Rewards updated")
        else (mkStore (ValidationSession st) (MinerHistory st) log,
              internal_error)
    | None =>
        (mkStore (ValidationSession st) (MinerHistory st) log,
         ok "Rewards updated")
    end.
Proof.
  intros Hlen Hfresh. unfold recordRewardsBatch.
  rewrite Hlen, Nat.eqb_refl. simpl.
  rewrite (fresh_updateId_existsb _ _ Hfresh).
  by destruct (ValidationSession st !! sid).
Qed.

(** A batch answers 200 only to two arrays of the same length and a fresh
    updateId, and on a stored session only when the metrics pass. *)
Lemma recordRewardsBatch_ok sid minerUids rewards uuid now clock st s :
  ValidationSession st !! sid = Some s →
  status (recordRewardsBatch sid minerUids rewards uuid now clock st).2 = 200 →
  ∃ uids rws,
    minerUids = Some uids ∧ rewards = Some rws
    ∧ ValidationMetrics.validate (batchMetrics uids rws) = true
    ∧ recordRewardsBatch sid minerUids rewards uuid now clock st
      = (mkStore (<[sid := batchSession uids rws clock s]> (ValidationSession st))
                 (MinerHistory st)
                 (RewardUpdate st
                    ++ [RewardUpdateDoc.mk uuid sid uids rws now false None]),
         ok "Rewards updated").
Proof.
  intros Hs. unfold recordRewardsBatch.
  destruct minerUids as [uids|], rewards as [rws|]; try done.
  destruct (negb _); [done|]. destruct (existsb _ _); [done|].
  rewrite Hs. destruct (ValidationMetrics.validate _) eqn:E; [|done].
  intros _. by exists uids, rws.
Qed.

(** C2 (as amended).  A batch of two arrays of the same length on a stored
    session, with a fresh updateId.  When none of the three computed metrics
    is NaN the call answers 200; computedRewards becomes exactly the list of
    triples (minerUids[i], rewards[i], time of the i-th reading); successRate
    is (number of i with rewards[i] > 0) / n * 100, averageRewardScore is
    (sum of the rewards) / n and failureCount is n minus that number, in
    binary64 arithmetic.  When one of them is NaN the save is refused: the
    call answers 500 and no session is changed.  In both cases the log entry
    is written.  For minerUids [[1,2]] and
    rewards [[5,-1]] the call answers 200 and the metrics are 50, 2 and 1,
    with two computedRewards entries.  (The statement holds for every n; the
    claim asks for n >= 1.) *)
Theorem recordRewardsBatch_metrics
    (sessionId : string) (minerUids rewards : list number)
    (uuid : string) (now : Z) (clock : nat → Z) (st : Store) (s : Session.t) :
  ValidationSession st !! sessionId = Some s →
  length minerUids = length rewards →
  fresh_updateId uuid st →
  let res := recordRewardsBatch sessionId (Some minerUids) (Some rewards)
               uuid now clock st in
  let n := JS.Number_of_nat (length minerUids) in
  let successes := JS.Number_of_nat (length (List.filter JS.gt0 rewards)) in
  let successRate := PrimFloat.mul (PrimFloat.div successes n) 100%float in
  let averageRewardScore := PrimFloat.div (JS.sum rewards) n in
  let failureCount := PrimFloat.sub n successes in
  (PrimFloat.is_nan successRate = false →
   PrimFloat.is_nan averageRewardScore = false →
   PrimFloat.is_nan failureCount = false →
   status res.2 = 200 ∧ success res.2 = true
   ∧ ∃ s', ValidationSession res.1 !! sessionId = Some s'
           ∧ length (Session.computedRewards s') = length minerUids
           ∧ (∀ i uid reward,
                minerUids !! i = Some uid → rewards !! i = Some reward →
                Session.computedRewards s' !! i
                = Some (ComputedReward.mk uid (Some reward) (clock i)))
           ∧ ValidationMetrics.successRate (Session.metrics s')
             = Some successRate
           ∧ ValidationMetrics.averageRewardScore (Session.metrics s')
             = Some averageRewardScore
           ∧ ValidationMetrics.failureCount (Session.metrics s')
             = Some failureCount)
  ∧ (PrimFloat.is_nan successRate = true
     ∨ PrimFloat.is_nan averageRewardScore = true
     ∨ PrimFloat.is_nan failureCount = true →
     status res.2 = 500 ∧ success res.2 = false
     ∧ ValidationSession res.1 = ValidationSession st)
  ∧ (minerUids = [1%float; 2%float] →
     rewards = [5%float; (-1)%float] →
     status res.2 = 200
     ∧ ∃ s', ValidationSession res.1 !! sessionId = Some s'
             ∧ ValidationMetrics.successRate (Session.metrics s') = Some 50%float
             ∧ ValidationMetrics.averageRewardScore (Session.metrics s')
               = Some 2%float
             ∧ ValidationMetrics.failureCount (Session.metrics s')
               = Some 1%float
             ∧ length (Session.computedRewards s') = 2%nat)
  ∧ RewardUpdate res.1
    = RewardUpdate st
        ++ [RewardUpdateDoc.mk uuid sessionId minerUids rewards now false None].
Proof.
  intros Hs Hlen Hfresh res n successes successRate averageRewardScore
    failureCount. subst res.
  rewrite (recordRewardsBatch_accepted _ _ _ _ _ _ _ Hlen Hfresh), Hs.
  cbv zeta. rewrite validate_batchMetrics.
  fold n successes successRate averageRewardScore failureCount.
  split_and!.
  - intros -> -> ->. simpl. split_and!; try done.
    eexists. rewrite lookup_insert_eq. split; [reflexivity|]. simpl.
    split_and!; try done.
    + by rewrite length_imap.
    + intros i uid reward Hu Hr. by rewrite list_lookup_imap, Hu, Hr.
  - intros [-> | [-> | ->]]; simpl; rewrite ?andb_false_r; done.
  - intros -> ->. simpl. split; [done|].
    eexists. rewrite lookup_insert_eq. split; [reflexivity|]. done.
  - by destruct (_ && _).
Qed.

(** C9.  After a successful batch on a stored session, one that answers
    200, the metrics object holds successRate, averageRewardScore and
    failureCount and nothing else: totalQueryTime and validFindings are
    absent, whatever was stored before. *)
Theorem recordRewardsBatch_replaces_metrics
    (sessionId : string) (minerUids rewards : option (list number))
    (uuid : string) (now : Z) (clock : nat → Z) (st : Store) (s : Session.t) :
  ValidationSession st !! sessionId = Some s →
  let res := recordRewardsBatch sessionId minerUids rewards uuid now clock st in
  status res.2 = 200 →
  ∃ s', ValidationSession res.1 !! sessionId = Some s'
        ∧ ValidationMetrics.totalQueryTime (Session.metrics s') = None
        ∧ ValidationMetrics.validFindings (Session.metrics s') = None
        ∧ is_Some (ValidationMetrics.successRate (Session.metrics s'))
        ∧ is_Some (ValidationMetrics.averageRewardScore (Session.metrics s'))
        ∧ is_Some (ValidationMetrics.failureCount (Session.metrics s')).
Proof.
  intros Hs res Hok. subst res.
  destruct (recordRewardsBatch_ok _ _ _ _ _ _ _ _ Hs Hok)
    as (uids & rws & -> & -> & _ & ->). simpl.
  eexists. rewrite lookup_insert_eq. split; [reflexivity|]. simpl.
  split_and!; eauto.
Qed.

(** C10 (as amended).  A batch of two empty arrays with a fresh updateId
    passes the handler's checks and one log entry is appended; the metrics
    it computes are failureCount 0 and NaN for successRate and
    averageRewardScore.  Those are never stored: on a session that is not
    stored the call answers 200, and on a stored session the save is refused
    and the call answers 500; in both cases no session is changed. *)
Theorem recordRewardsBatch_empty
    (sessionId uuid : string) (now : Z) (clock : nat → Z) (st : Store) :
  fresh_updateId uuid st →
  let res := recordRewardsBatch sessionId (Some []) (Some []) uuid now clock st in
  let computed := batchMetrics [] [] in
  RewardUpdate res.1
  = RewardUpdate st ++ [RewardUpdateDoc.mk uuid sessionId [] [] now false None]
  ∧ MinerHistory res.1 = MinerHistory st
  ∧ ValidationSession res.1 = ValidationSession st
  ∧ ValidationMetrics.failureCount computed = Some 0%float
  ∧ (∃ rate avg,
       ValidationMetrics.successRate computed = Some rate
       ∧ PrimFloat.is_nan rate = true
       ∧ ValidationMetrics.averageRewardScore computed = Some avg
       ∧ PrimFloat.is_nan avg = true)
  ∧ (ValidationSession st !! sessionId = None →
     status res.2 = 200 ∧ success res.2 = true)
  ∧ (is_Some (ValidationSession st !! sessionId) →
     status res.2 = 500 ∧ success res.2 = false).
Proof.
  intros Hfresh res computed. subst res computed.
  rewrite (recordRewardsBatch_accepted _ _ _ _ _ _ _ eq_refl Hfresh).
  cbv zeta.
  assert (ValidationMetrics.validate (batchMetrics [] []) = false) as ->
    by (vm_compute; reflexivity).
  destruct (ValidationSession st !! sessionId) as [s|] eqn:Hs; simpl;
    (split_and!; try done; [eexists _, _; split_and!; reflexivity | ..]);
    by intros [? ?].
Qed.

(** ** Operations on a session that is not stored *)

(** C4.  With valid arguments and a sessionId that no stored session has:
    recordRewardsBatch (with a fresh updateId) answers 200, leaves the
    sessions and the history alone and appends one log entry carrying that
    updateId; recordSubnetSnapshot and logError answer 200 and leave the
    store unchanged. *)
Theorem missing_session_silent (sessionId : string) (st : Store) :
  ValidationSession st !! sessionId = None →
  (∀ minerUids rewards uuid now clock,
     length minerUids = length rewards →
     fresh_updateId uuid st →
     let res := recordRewardsBatch sessionId (Some minerUids) (Some rewards)
                  uuid now clock st in
     status res.2 = 200 ∧ success res.2 = true
     ∧ ValidationSession res.1 = ValidationSession st
     ∧ MinerHistory res.1 = MinerHistory st
     ∧ RewardUpdate res.1
       = RewardUpdate st
           ++ [RewardUpdateDoc.mk uuid sessionId minerUids rewards now false None])
  ∧ (∀ netuid block activeValidators activeMiners totalStake emissionPerBlock now,
       let res := recordSubnetSnapshot sessionId (Some netuid) (Some block)
                    activeValidators activeMiners totalStake emissionPerBlock
                    now st in
       status res.2 = 200 ∧ success res.2 = true ∧ res.1 = st)
  ∧ (∀ stage message stackTrace now,
       stage ≠ "" → message ≠ "" →
       let res := logError sessionId (Some stage) (Some message) stackTrace
                    now st in
       status res.2 = 200 ∧ success res.2 = true ∧ res.1 = st).
Proof.
  intros Hnone. split_and!.
  - intros uids rws uuid now clock Hlen Hfresh res. subst res.
    rewrite (recordRewardsBatch_accepted _ _ _ _ _ _ _ Hlen Hfresh), Hnone.
    done.
  - intros. subst res. unfold recordSubnetSnapshot.
    by rewrite findOneAndUpdate_absent.
  - intros stage msg trace now Hs Hm res. subst res. unfold logError. simpl.
    apply String.eqb_neq in Hs, Hm. rewrite Hs, Hm. simpl.
    by rewrite findOneAndUpdate_absent.
Qed.

(** ** projectSummary *)

Lemma elem_of_List_filter {A} (p : A → bool) (l : list A) (x : A) :
  x ∈ List.filter p l ↔ x ∈ l ∧ p x = true.
Proof. by rewrite !list_elem_of_In, List.filter_In. Qed.

Lemma filter_none {A} (p : A → bool) (l : list A) :
  (∀ x, x ∈ l → p x = false) → List.filter p l = [].
Proof.
  induction l as [|a l IH]; [done|]. intros H. simpl.
  rewrite (H a) by (by left). apply IH. intros x Hx. apply H. by right.
Qed.

(** C8.  When no stored session has the projectId, the summary has
    avgRewardScore NaN (0 divided by the zero session count), the four totals
    0 and lastRun null. *)
Theorem projectSummary_no_sessions (projectId : string) (st : Store) :
  (∀ sid s, ValidationSession st !! sid = Some s →
            Session.projectId s ≠ Some projectId) →
  let summary := projectSummary projectId st in
  PrimFloat.is_nan (ProjectSummary.avgRewardScore summary) = true
  ∧ ProjectSummary.totalValidationRuns summary = 0%nat
  ∧ ProjectSummary.successfulRuns summary = 0%nat
  ∧ ProjectSummary.failedRuns summary = 0%nat
  ∧ ProjectSummary.totalMinersQueried summary = 0%float
  ∧ ProjectSummary.lastRun summary = None
  ∧ ProjectSummary.sessions summary = [].
Proof.
  intros Hnone summary. subst summary. unfold projectSummary.
  assert (findByProject projectId st = []) as ->.
  { unfold findByProject. rewrite filter_none; [done|].
    intros s ([sid s'] & -> & Hin)%list_elem_of_fmap. simpl.
    apply elem_of_map_to_list in Hin. apply bool_decide_eq_false.
    by apply (Hnone sid). }
  simpl. split_and!; reflexivity.
Qed.

(** ** The store's order on numbers, sorting and grouping *)

Lemma key_leb_total a b : Mongo.key_leb a b = true ∨ Mongo.key_leb b a = true.
Proof.
  unfold Mongo.key_leb.
  destruct (Z.ltb_spec (Mongo.key_class a) (Mongo.key_class b));
    destruct (Z.ltb_spec (Mongo.key_class b) (Mongo.key_class a));
    destruct (Z.eqb_spec (Mongo.key_class a) (Mongo.key_class b));
    destruct (Z.eqb_spec (Mongo.key_class b) (Mongo.key_class a));
    destruct (Z.leb_spec (Mongo.key_value a) (Mongo.key_value b));
    destruct (Z.leb_spec (Mongo.key_value b) (Mongo.key_value a));
    simpl; auto; lia.
Qed.

Lemma key_leb_trans a b c :
  Mongo.key_leb a b = true → Mongo.key_leb b c = true → Mongo.key_leb a c = true.
Proof.
  unfold Mongo.key_leb.
  destruct (Z.ltb_spec (Mongo.key_class a) (Mongo.key_class b));
    destruct (Z.ltb_spec (Mongo.key_class b) (Mongo.key_class c));
    destruct (Z.ltb_spec (Mongo.key_class a) (Mongo.key_class c));
    destruct (Z.eqb_spec (Mongo.key_class a) (Mongo.key_class b));
    destruct (Z.eqb_spec (Mongo.key_class b) (Mongo.key_class c));
    destruct (Z.eqb_spec (Mongo.key_class a) (Mongo.key_class c));
    destruct (Z.leb_spec (Mongo.key_value a) (Mongo.key_value b));
    destruct (Z.leb_spec (Mongo.key_value b) (Mongo.key_value c));
    destruct (Z.leb_spec (Mongo.key_value a) (Mongo.key_value c));
    simpl; auto; try discriminate; lia.
Qed.

Lemma key_eqb_eq a b : Mongo.key_eqb a b = true ↔ a = b.
Proof.
  unfold Mongo.key_eqb. rewrite andb_true_iff, !Z.eqb_eq.
  split; [|by intros ->].
  destruct a, b; simpl; intros [? ?]; congruence.
Qed.

Lemma num_eq_key x y : Mongo.num_eq x y = true ↔ Mongo.num_key x = Mongo.num_key y.
Proof. apply key_eqb_eq. Qed.

Lemma num_eq_false_key x y :
  Mongo.num_eq x y = false ↔ Mongo.num_key x ≠ Mongo.num_key y.
Proof. rewrite <- num_eq_key. by destruct (Mongo.num_eq x y). Qed.

Section Sorting.

Context {A : Type} (le : A → A → bool).
Hypothesis le_total : ∀ x y, le x y = true ∨ le y x = true.
Hypothesis le_trans : ∀ x y z, le x y = true → le y z = true → le x z = true.

Lemma insert_by_perm x l : Mongo.insert_by le x l ≡ₚ x :: l.
Proof.
  induction l as [|y l IH]; simpl; [done|].
  destruct (le x y); [done|]. rewrite IH. apply Permutation_swap.
Qed.

Lemma sort_by_perm l : Mongo.sort_by le l ≡ₚ l.
Proof.
  induction l as [|x l IH]; simpl; [done|].
  unfold Mongo.sort_by in *. rewrite insert_by_perm. by rewrite IH.
Qed.

Lemma insert_by_sorted x l :
  StronglySorted (λ a b, le a b = true) l →
  StronglySorted (λ a b, le a b = true) (Mongo.insert_by le x l).
Proof.
  induction 1 as [|y l Hl IH Hy]; simpl.
  - repeat constructor.
  - destruct (le x y) eqn:E.
    + constructor; [by constructor|]. constructor; [done|].
      eapply Forall_impl; [exact Hy|]. intros z Hz. by eapply le_trans.
    + constructor; [done|].
      rewrite insert_by_perm. constructor; [|done].
      destruct (le_total x y); congruence.
Qed.

Lemma sort_by_sorted l :
  StronglySorted (λ a b, le a b = true) (Mongo.sort_by le l).
Proof.
  induction l as [|x l IH]; simpl; [constructor|].
  by apply insert_by_sorted.
Qed.

End Sorting.

Lemma StronglySorted_lookup {A} (R : relation A) l i j a b :
  StronglySorted R l → (i < j)%nat → l !! i = Some a → l !! j = Some b → R a b.
Proof.
  intros Hl. revert i j. induction Hl as [|x l Hl IH Hx]; intros i j Hij Hi Hj.
  - by rewrite lookup_nil in Hi.
  - destruct j as [|j]; [lia|]. destruct i as [|i]; simpl in *.
    + simplify_eq. rewrite Forall_forall in Hx. apply Hx.
      by eapply list_elem_of_lookup_2.
    + apply (IH i j); [lia|done..].
Qed.

Section Grouping.

Context {A : Type} (key : A → number).

Lemma group_keys_elem k xs (gs : list (number * list A)) : (k, xs) ∈ gs → Mongo.num_key k ∈ group_keys gs.
Proof.
  intros H. unfold group_keys. apply list_elem_of_fmap. by exists (k, xs).
Qed.

Lemma group_insert_keys x (gs : list (number * list A)) :
  group_keys (Mongo.group_insert key x gs)
  = group_keys gs
      ++ (if decide (Mongo.num_key (key x) ∈ group_keys gs) then []
          else [Mongo.num_key (key x)]).
Proof.
  unfold group_keys. induction gs as [|[k xs] gs IH]; cbn [Mongo.group_insert].
  - rewrite decide_False by apply not_elem_of_nil. done.
  - destruct (Mongo.num_eq k (key x)) eqn:E; rewrite !fmap_cons; cbn [fst].
    + apply num_eq_key in E. rewrite decide_True; [by rewrite app_nil_r|].
      rewrite E. by left.
    + apply num_eq_false_key in E. rewrite IH, <- app_comm_cons. f_equal.
      f_equal. destruct (decide (Mongo.num_key (key x)
                         ∈ (λ g : number * list A, Mongo.num_key g.1) <$> gs))
        as [Hin|Hnin].
      * by rewrite decide_True by (by right).
      * rewrite decide_False; [done|].
        intros [?|?]%elem_of_cons; [congruence|done].
Qed.

Lemma group_insert_elem x (gs : list (number * list A)) k xs :
  NoDup (group_keys gs) →
  (k, xs) ∈ Mongo.group_insert key x gs →
  (∃ xs0, (k, xs0) ∈ gs
          ∧ xs = xs0 ++ (if Mongo.num_eq k (key x) then [x] else []))
  ∨ ((k, xs) = (key x, [x]) ∧ Mongo.num_key (key x) ∉ group_keys gs).
Proof.
  induction gs as [|[k0 xs0] gs IH]; simpl.
  - intros _ ->%list_elem_of_singleton. right. split; [done|]. apply not_elem_of_nil.
  - intros [Hk0 Hnd]%NoDup_cons. simpl in Hk0.
    destruct (Mongo.num_eq k0 (key x)) eqn:E.
    + intros [[= -> ->]|Hin]%elem_of_cons; left.
      * exists xs0. rewrite E. split; [by left|done].
      * exists xs. split; [by right|].
        destruct (Mongo.num_eq k (key x)) eqn:E'; [|by rewrite app_nil_r].
        exfalso. apply Hk0. apply num_eq_key in E, E'. rewrite E, <- E'.
        by eapply group_keys_elem.
    + intros [[= -> ->]|Hin]%elem_of_cons.
      * left. exists xs0. rewrite E, app_nil_r. split; [by left|done].
      * destruct (IH Hnd Hin) as [(xs1 & H1 & ->)|[Heq Hnot]].
        -- left. exists xs1. split; [by right|done].
        -- right. split; [done|]. apply num_eq_false_key in E.
           intros [?|?]%elem_of_cons; [congruence|done].
Qed.

Lemma grouped_snoc l gs x :
  grouped key l gs → grouped key (l ++ [x]) (Mongo.group_insert key x gs).
Proof.
  intros [Hm Hd Hc]. split.
  - intros k xs Hin.
    destruct (group_insert_elem _ _ _ _ Hd Hin) as [(xs0 & H0 & ->)|[[= -> ->] Hnot]].
    + destruct (Hm _ _ H0) as [Hf Hne]. split.
      * rewrite List.filter_app. simpl. rewrite <- Hf.
        by destruct (Mongo.num_eq k (key x)).
      * intros [? _]%app_eq_nil. done.
    + split; [|done]. rewrite List.filter_app. simpl.
      rewrite (proj2 (num_eq_key (key x) (key x)) eq_refl).
      rewrite filter_none; [done|].
      intros y Hy. apply num_eq_false_key. intros Heq. apply Hnot.
      rewrite Heq. by apply Hc.
  - rewrite group_insert_keys. case_decide; [by rewrite app_nil_r|].
    apply NoDup_app. split_and!; [done| |apply NoDup_singleton].
    intros k Hk ->%list_elem_of_singleton. done.
  - intros y Hy. rewrite group_insert_keys. apply elem_of_app.
    apply elem_of_app in Hy as [Hy| ->%list_elem_of_singleton]; [left; by apply Hc|].
    case_decide; [by left|right; by left].
Qed.

Lemma group_by_grouped l : grouped key l (Mongo.group_by key l).
Proof.
  unfold Mongo.group_by.
  assert (∀ l0 gs, grouped key l0 gs →
            grouped key (l0 ++ l) (fold_left (λ gs x, Mongo.group_insert key x gs) l gs))
    as H.
  { induction l as [|x l IH]; intros l0 gs Hg; simpl.
    - by rewrite app_nil_r.
    - rewrite (cons_middle x l0 l), app_assoc. apply IH. by apply grouped_snoc. }
  apply (H [] []). split.
  - intros k xs Hin. by apply elem_of_nil in Hin.
  - constructor.
  - intros y Hy. by apply elem_of_nil in Hy.
Qed.

End Grouping.

(** ** leaderboard *)

Lemma byTotalRewardsDesc_total a b :
  byTotalRewardsDesc a b = true ∨ byTotalRewardsDesc b a = true.
Proof. apply key_leb_total. Qed.

Lemma byTotalRewardsDesc_trans a b c :
  byTotalRewardsDesc a b = true → byTotalRewardsDesc b c = true →
  byTotalRewardsDesc a c = true.
Proof. unfold byTotalRewardsDesc. intros H1 H2. by eapply key_leb_trans. Qed.

Lemma imap_take {A B} (f : nat → A → B) (n : nat) (l : list A) :
  imap f (take n l) = take n (imap f l).
Proof.
  apply list_eq. intros i. rewrite list_lookup_imap, !lookup_take.
  case_decide; [by rewrite list_lookup_imap|done].
Qed.

Section LeaderboardProperties.

Variable acc_sum : list number → number.
Variable acc_avg : list number → option number.
Variable toFixed : nat → number → string.
Variable Number_of_string : string → number.
Variable String_of_number : number → string.

Lemma leaderGroups_sorted start history :
  StronglySorted (λ a b, byTotalRewardsDesc a b = true)
    (leaderGroups acc_sum acc_avg start history).
Proof.
  apply sort_by_sorted;
    [apply byTotalRewardsDesc_total | apply byTotalRewardsDesc_trans].
Qed.

Lemma leaderGroups_distinct start history :
  NoDup ((λ g, Mongo.num_key (LeaderGroup._id g))
           <$> leaderGroups acc_sum acc_avg start history).
Proof.
  unfold leaderGroups. rewrite sort_by_perm, <- list_fmap_compose.
  apply (grouped_distinct _ _ _ (group_by_grouped MinerHistoryDoc.minerUid _)).
Qed.

Lemma leaderGroups_members start history g :
  g ∈ leaderGroups acc_sum acc_avg start history →
  let members := groupMembers start history (LeaderGroup._id g) in
  members ≠ []
  ∧ LeaderGroup.participationCount g = length members
  ∧ LeaderGroup.totalRewards g
    = acc_sum (omap MinerHistoryDoc.rewardScore members).
Proof.
  unfold leaderGroups. rewrite sort_by_perm.
  intros ([k xs] & -> & Hin)%list_elem_of_fmap. simpl.
  destruct (grouped_members _ _ _
              (group_by_grouped MinerHistoryDoc.minerUid _) _ _ Hin) as [Hxs Hne].
  unfold groupMembers. by rewrite <- Hxs.
Qed.

Lemma leaderGroups_cover start history h :
  h ∈ List.filter (inWindow start) history →
  ∃ g, g ∈ leaderGroups acc_sum acc_avg start history
       ∧ Mongo.num_eq (LeaderGroup._id g) (MinerHistoryDoc.minerUid h) = true.
Proof.
  intros Hh.
  pose proof (grouped_cover _ _ _
                (group_by_grouped MinerHistoryDoc.minerUid _) _ Hh) as Hk.
  apply list_elem_of_fmap in Hk as ([k xs] & Hk & Hin). simpl in Hk.
  exists (leaderGroup acc_sum acc_avg (k, xs)). split.
  - unfold leaderGroups. rewrite sort_by_perm. apply list_elem_of_fmap. eauto.
  - simpl. by apply num_eq_key.
Qed.

Lemma groupMembers_key start history uid uid' :
  Mongo.num_key uid = Mongo.num_key uid' →
  groupMembers start history uid = groupMembers start history uid'.
Proof.
  intros Hk. unfold groupMembers. apply List.filter_ext. intros h.
  unfold Mongo.num_eq. by rewrite Hk.
Qed.

Lemma leaderGroups_length start history :
  length (leaderGroups acc_sum acc_avg start history)
  = length (minersInWindow start history).
Proof.
  unfold leaderGroups, minersInWindow.
  rewrite sort_by_perm, length_fmap.
  pose proof (group_by_grouped MinerHistoryDoc.minerUid
                (List.filter (inWindow start) history)) as [Hm Hd Hc].
  rewrite <- (length_fmap (λ g, Mongo.num_key g.1)).
  apply Permutation_length, NoDup_Permutation;
    [exact Hd|apply NoDup_remove_dups|].
  intros k. rewrite elem_of_remove_dups. split.
  - intros ([k0 xs] & -> & Hin)%list_elem_of_fmap. simpl.
    destruct (Hm _ _ Hin) as [Hxs Hne].
    destruct xs as [|y xs]; [done|].
    assert (y ∈ y :: xs) as Hy by (by left).
    rewrite Hxs in Hy. apply elem_of_List_filter in Hy as [Hy Hk].
    apply num_eq_key in Hk. rewrite Hk.
    apply list_elem_of_fmap. eauto.
  - intros (h & -> & Hh)%list_elem_of_fmap. by apply Hc.
Qed.

(** C7.  With a limit the store accepts, the leaderboard is produced and:
    - its length is the smaller of [limit] and the number of miners with a
      history entry in the window;
    - the entry at position [i] has rank [i + 1], so the ranks are 1..N;
    - total rewards do not increase along the list, in the store's order on
      numbers;
    - every entry stands for the non-empty group of the history entries of
      its miner whose timestamp is at or after the start of the window: its
      participationCount is their number and its totalRewards the store's
      sum of their scores;
    - no two entries are for the same miner;
    - a miner of the window that is not listed has a total no larger than
      that of any listed entry, and when the list is shorter than [limit]
      every miner of the window is listed. *)
Theorem leaderboard_ranking
    (zone : Zone.t) (limit : Z) (timeRange : string) (now : Z) (st : Store) :
  limit_ok limit = true →
  let start := startDate zone timeRange now in
  let members (uid : number) := groupMembers start (MinerHistory st) uid in
  let listed (es : list LeaderboardEntry.t) (uid : number) :=
    ∃ e, e ∈ es ∧ Mongo.num_eq (LeaderboardEntry.minerUid e) uid = true in
  ∃ es,
    leaderboard acc_sum acc_avg toFixed Number_of_string String_of_number
      zone (Some limit) timeRange now st = Some es
    ∧ length es
      = (Z.to_nat limit `min` length (minersInWindow start (MinerHistory st)))%nat
    ∧ (∀ i e, es !! i = Some e → LeaderboardEntry.rank e = (i + 1)%nat)
    ∧ LeaderboardEntry.rank <$> es = seq 1 (length es)
    ∧ (∀ i j a b,
         (i < j)%nat → es !! i = Some a → es !! j = Some b →
         Mongo.key_leb (Mongo.num_key (LeaderboardEntry.totalRewards b))
                       (Mongo.num_key (LeaderboardEntry.totalRewards a)) = true)
    ∧ (∀ e, e ∈ es →
            members (LeaderboardEntry.minerUid e) ≠ []
            ∧ (∀ h, h ∈ members (LeaderboardEntry.minerUid e) ↔
                    h ∈ MinerHistory st
                    ∧ start ≤ MinerHistoryDoc.timestamp h
                    ∧ Mongo.num_eq (LeaderboardEntry.minerUid e)
                                   (MinerHistoryDoc.minerUid h) = true)
            ∧ LeaderboardEntry.participationCount e
              = length (members (LeaderboardEntry.minerUid e))
            ∧ LeaderboardEntry.totalRewards e
              = acc_sum (omap MinerHistoryDoc.rewardScore
                           (members (LeaderboardEntry.minerUid e))))
    ∧ (∀ i j a b,
         i ≠ j → es !! i = Some a → es !! j = Some b →
         Mongo.num_eq (LeaderboardEntry.minerUid a)
                      (LeaderboardEntry.minerUid b) = false)
    ∧ (∀ h, h ∈ MinerHistory st → start ≤ MinerHistoryDoc.timestamp h →
            listed es (MinerHistoryDoc.minerUid h)
            ∨ ((Z.to_nat limit ≤ length es)%nat
               ∧ ∀ e, e ∈ es →
                      Mongo.key_leb
                        (Mongo.num_key
                           (acc_sum (omap MinerHistoryDoc.rewardScore
                                       (members (MinerHistoryDoc.minerUid h)))))
                        (Mongo.num_key (LeaderboardEntry.totalRewards e))
                      = true)).
Proof.
  intros Hok start members listed. subst start. unfold leaderboard. rewrite Hok.
  set (start := startDate zone timeRange now) in *.
  set (gs := leaderGroups acc_sum acc_avg start (MinerHistory st)).
  set (entry := leaderboardEntry toFixed Number_of_string String_of_number).
  eexists. split; [reflexivity|].
  assert (∀ i e, imap entry (take (Z.to_nat limit) gs) !! i = Some e →
            ∃ g, gs !! i = Some g ∧ (i < Z.to_nat limit)%nat ∧ e = entry i g)
    as Hlookup.
  { intros i e. rewrite list_lookup_imap.
    intros (g & [Hg Hi]%lookup_take_Some & ->)%fmap_Some. eauto. }
  assert (length (imap entry (take (Z.to_nat limit) gs))
          = (Z.to_nat limit `min` length gs)%nat) as Hlen.
  { by rewrite length_imap, length_take. }
  split_and!.
  - rewrite Hlen. unfold gs. by rewrite leaderGroups_length.
  - intros i e (g & _ & _ & ->)%Hlookup. done.
  - apply list_eq. intros i. rewrite list_lookup_fmap.
    destruct (imap entry (take (Z.to_nat limit) gs) !! i) as [e|] eqn:E; simpl.
    + apply lookup_lt_Some in E as Hi.
      apply Hlookup in E as (g & _ & _ & ->). simpl.
      rewrite lookup_seq_lt by done. f_equal. lia.
    + apply lookup_ge_None in E. symmetry. apply lookup_ge_None.
      by rewrite length_seq.
  - intros i j a b Hij (ga & Ha & _ & ->)%Hlookup (gb & Hb & _ & ->)%Hlookup.
    simpl. apply (StronglySorted_lookup _ _ _ _ _ _
                    (leaderGroups_sorted start (MinerHistory st)) Hij Ha Hb).
  - intros e (i & (g & Hg & _ & ->)%Hlookup)%list_elem_of_lookup.
    apply list_elem_of_lookup_2 in Hg.
    destruct (leaderGroups_members _ _ _ Hg) as (Hne & Hcount & Htotal).
    unfold members. simpl. split_and!; try done.
    intros h. unfold groupMembers.
    rewrite !elem_of_List_filter. unfold inWindow. rewrite Z.leb_le. tauto.
  - intros i j a b Hij (ga & Ha & _ & ->)%Hlookup (gb & Hb & _ & ->)%Hlookup.
    simpl. apply num_eq_false_key. intros Heq.
    apply Hij.
    eapply (NoDup_lookup _ i j (Mongo.num_key (LeaderGroup._id ga))
              (leaderGroups_distinct start (MinerHistory st)));
      rewrite list_lookup_fmap; fold gs; [by rewrite Ha|by rewrite Hb, Heq].
  - intros h Hh Hts.
    destruct (leaderGroups_cover start (MinerHistory st) h) as (g & Hg & Hk).
    { apply elem_of_List_filter. unfold inWindow. by rewrite Z.leb_le. }
    pose proof (leaderGroups_members _ _ _ Hg) as (_ & _ & Htotal).
    apply list_elem_of_lookup in Hg as [j Hj]. fold gs in Hj.
    destruct (decide (j < Z.to_nat limit)%nat) as [Hlt|Hge].
    + left. exists (entry j g). split; [|done].
      apply list_elem_of_lookup. exists j.
      by rewrite list_lookup_imap, lookup_take_lt, Hj.
    + right. apply lookup_lt_Some in Hj as Hjlen. split; [rewrite Hlen; lia|].
      intros e (i & (gi & Hi & Hilt & ->)%Hlookup)%list_elem_of_lookup. simpl.
      apply num_eq_key in Hk.
      unfold members. rewrite <- (groupMembers_key _ _ _ _ Hk), <- Htotal.
      apply (StronglySorted_lookup _ _ i j _ _
               (leaderGroups_sorted start (MinerHistory st))); [lia|done..].
Qed.

End LeaderboardProperties.

(** * The properties on the sample run *)

Lemma recordMinerReward_first_match_witness :
  isNotFoundError
    (recordMinerReward "s1" (Some 7%float) (Some 1%float) None 1004 Sample.responded).2
  ∧ status
      (recordMinerReward "s1" (Some 2%float) (Some 5%float) (Some "good") 1004
         Sample.responded).2 = 200.
Proof.
  split.
  - apply (recordMinerReward_first_match "s1" 7%float 1%float None 1004
             Sample.responded).
    right. eexists. split; [vm_compute; reflexivity|].
    intros r Hr. apply list_elem_of_In in Hr. vm_compute in Hr.
    destruct Hr as [<-|[<-|[<-|[]]]]; reflexivity.
  - eapply (proj2 (recordMinerReward_first_match "s1" 2%float 5%float
                     (Some "good") 1004 Sample.responded)) with (i := 1%nat).
    + vm_compute. reflexivity.
    + vm_compute. reflexivity.
    + reflexivity.
    + intros j r' Hj Hr'. destruct j as [|j]; [|lia].
      vm_compute in Hr'. by injection Hr' as <-.
Defined.

(** The second reward for miner 2 lands on the same, first, entry of miner 2
    and, having no reason, keeps the reason of the first reward; the later
    entry of miner 2 never gets a reward. *)
Example rewarded_entries :
  (λ r, (MinerResponse.minerUid r, MinerResponse.githubUrl r,
         MinerResponse.rewardScore r, MinerResponse.rewardReason r))
    <$> default [] (Session.minerResponses <$> ValidationSession Sample.rewarded !! "s1")
  = [(1%float, None, Some 4%float, Some "ok");
     (2%float, Some "url-a", Some 3%float, Some "good");
     (2%float, Some "url-b", None, None)].
Proof. vm_compute. reflexivity. Qed.

Lemma recordRewardsBatch_metrics_witness :
  status
    (recordRewardsBatch "s1" (Some [1%float; 2%float])
       (Some [5%float; (-1)%float]) "u1" 2000 (λ i, 2000 + Z.of_nat i)
       Sample.responded).2 = 200
  ∧ ∃ s',
      ValidationSession
        (recordRewardsBatch "s1" (Some [1%float; 2%float])
           (Some [5%float; (-1)%float]) "u1" 2000 (λ i, 2000 + Z.of_nat i)
           Sample.responded).1 !! "s1" = Some s'
      ∧ ValidationMetrics.successRate (Session.metrics s') = Some 50%float
      ∧ ValidationMetrics.averageRewardScore (Session.metrics s') = Some 2%float
      ∧ ValidationMetrics.failureCount (Session.metrics s') = Some 1%float
      ∧ length (Session.computedRewards s') = 2%nat.
Proof.
  edestruct (recordRewardsBatch_metrics "s1" [1%float; 2%float]
               [5%float; (-1)%float] "u1" 2000 (λ i, 2000 + Z.of_nat i)
               Sample.responded)
    as (_ & _ & Hex & _).
  - vm_compute. reflexivity.
  - reflexivity.
  - intros u Hu. by apply elem_of_nil in Hu.
  - exact (Hex eq_refl eq_refl).
Defined.

(** C2, the claim as stated fails: with rewards [Infinity, -Infinity], which
    a JSON body carries as [1e999, -1e999], the two arrays have length 2 and
    the session is stored, but the mean is NaN; the call answers 500 and the
    session keeps the computedRewards and the metrics it had, none. *)
Lemma batch_with_NaN_mean_refused :
  (λ res : Store * Response,
     status res.2 = 500
     ∧ ValidationSession res.1 !! "s1" = ValidationSession Sample.responded !! "s1"
     ∧ Session.computedRewards <$> ValidationSession res.1 !! "s1" = Some []
     ∧ Session.metrics <$> ValidationSession res.1 !! "s1"
       = Some ValidationMetrics.empty)
    (recordRewardsBatch "s1" (Some [1%float; 2%float])
       (Some [PrimFloat.infinity; PrimFloat.neg_infinity]) "u1" 2000
       (λ _, 2000) Sample.responded).
Proof. vm_compute. done. Qed.

(** C3, the claim as stated fails: recordChallenge on the completed sample
    session answers 200 and sets its state to [in_progress]. *)
Lemma completed_session_reopened :
  Session.state <$> ValidationSession Sample.completed !! "s1"
  = Some State.completed
  ∧ status (run (RecordChallenge "s1" (Some "p") None None None 3000)
              Sample.completed).2 = 200
  ∧ Session.state
      <$> ValidationSession
            (run (RecordChallenge "s1" (Some "p") None None None 3000)
               Sample.completed).1 !! "s1"
    = Some State.in_progress.
Proof. split_and!; vm_compute; reflexivity. Qed.

Lemma completed_state_transitions_witness :
  ∃ s',
    ValidationSession
      (run (LogError "s1" (Some "scoring") (Some "late answer") None 3000)
         Sample.completed).1 !! "s1" = Some s'
    ∧ Session.state s' = State.completed.
Proof.
  edestruct (completed_state_transitions
               (LogError "s1" (Some "scoring") (Some "late answer") None 3000)
               Sample.completed "s1")
    as (s' & Hs' & Hc & _ & _).
  - vm_compute. reflexivity.
  - exists s'. split; [exact Hs'|].
    destruct Hc as [H|[_ (p & d & f & r & now & Hop)]];
      [reflexivity|exact H|discriminate Hop].
Defined.

Lemma missing_session_silent_witness :
  (recordSubnetSnapshot "absent" (Some 12%float) (Some 4100%float)
     None None None None 2000 Sample.created).1 = Sample.created
  ∧ (logError "absent" (Some "scoring") (Some "late answer") None 2000
       Sample.created).1 = Sample.created
  ∧ status (recordRewardsBatch "absent" (Some [1%float]) (Some [5%float])
              "u1" 2000 (λ _, 2000) Sample.created).2 = 200
  ∧ RewardUpdate
      (recordRewardsBatch "absent" (Some [1%float]) (Some [5%float])
         "u1" 2000 (λ _, 2000) Sample.created).1
    = [RewardUpdateDoc.mk "u1" "absent" [1%float] [5%float] 2000 false None].
Proof.
  destruct (missing_session_silent "absent" Sample.created) as (Hb & Hs & He).
  { vm_compute. reflexivity. }
  split_and!.
  - apply Hs.
  - by apply He.
  - apply Hb; [reflexivity|]. intros u Hu. by apply elem_of_nil in Hu.
  - apply Hb; [reflexivity|]. intros u Hu. by apply elem_of_nil in Hu.
Defined.

(** C5, the claim as stated fails: the array [[1.5]] is not a sequence of
    integers, yet the call answers 201 and the session is stored. *)
Lemma createSession_accepts_non_integers :
  forallb JS.isInteger [1.5%float] = false
  ∧ status (createSession None (Some [1.5%float]) None None "s1" 1000
              Sample.store0).2 = 201
  ∧ Session.sampledMinerUids
      <$> ValidationSession
            (createSession None (Some [1.5%float]) None None "s1" 1000
               Sample.store0).1 !! "s1"
    = Some [1.5%float].
Proof. split_and!; vm_compute; reflexivity. Qed.

Lemma createSession_array_check_witness :
  isValidationError
    (createSession (Some 3%float) None None None "s1" 1000 Sample.store0).2
  ∧ ∃ s,
      ValidationSession
        (createSession None (Some [1%float; 2%float; 3%float]) None (Some "v1")
           "s1" 1000 Sample.store0).1 !! "s1" = Some s
      ∧ Session.state s = State.pending
      ∧ Session.sampledMinerCount s = 3%float.
Proof.
  split.
  - by apply (createSession_array_check (Some 3%float) None None None "s1" 1000
                Sample.store0).
  - edestruct (proj2 (createSession_array_check None
                        (Some [1%float; 2%float; 3%float]) None (Some "v1")
                        "s1" 1000 Sample.store0))
      as (_ & _ & (s & Hs & _ & Hp & _ & _ & _ & _ & _ & H3) & _);
      [reflexivity|reflexivity|].
    exists s. split_and!; [exact Hs|exact Hp|by apply H3].
Defined.

Lemma completeSession_patches_metrics_witness :
  isNotFoundError (completeSession "absent" None Sample.completed).2
  ∧ ∃ s',
      ValidationSession
        (completeSession "s1"
           (Some (ValidationMetrics.mk None None (Some 80%float) None None))
           Sample.completed).1 !! "s1" = Some s'
      ∧ Session.state s' = State.completed
      ∧ ValidationMetrics.successRate (Session.metrics s') = Some 80%float
      ∧ ValidationMetrics.totalQueryTime (Session.metrics s') = Some 12%float
      ∧ ValidationMetrics.validFindings (Session.metrics s') = Some 4%float.
Proof.
  split.
  - apply (completeSession_patches_metrics "absent" None Sample.completed).
    vm_compute. reflexivity.
  - edestruct (proj2 (completeSession_patches_metrics "s1"
                        (Some (ValidationMetrics.mk None None (Some 80%float)
                                 None None))
                        Sample.completed))
      as (_ & _ & (s' & Hs' & Hc & Ht & _ & Hr & _ & Hv & _) & _).
    { vm_compute. reflexivity. }
    exists s'. split_and!; [exact Hs'|exact Hc|exact Hr|exact Ht|exact Hv].
Defined.

(** The start of the window: a fixed number of milliseconds back in a zone
    of fixed offset; an hour less when the clocks went forward in between. *)
Example startDate_examples :
  startDate (Zone.fixed 7200000) "24h" 100000000 = 100000000 - 86400000
  ∧ startDate (Zone.fixed (-3600000)) "7d" 900000000 = 900000000 - 7 * 86400000
  ∧ startDate (Zone.fixed 0) "1h" 100000000 = 100000000
  ∧ startDate
      (Zone.mk (λ t, if t <? 50000000 then 0 else 3600000)
               (λ t, if t <? 50000000 then 0 else 3600000))
      "24h" 100000000
    = 100000000 - 82800000.
Proof. split_and!; vm_compute; reflexivity. Qed.

(** The board of the sample run: miner 2 (5 + 3) before miner 1 (4); a limit
    of 1 keeps the first entry; a limit of 0 is refused; a day later only
    the rewards of the last two milliseconds are in the window. *)
Example board_sample :
  (λ e, (LeaderboardEntry.rank e, LeaderboardEntry.minerUid e,
         LeaderboardEntry.totalRewards e, LeaderboardEntry.participationCount e))
    <$> default [] (Sample.board 10 2000 Sample.rewarded)
  = [(1%nat, 2%float, 8%float, 2%nat); (2%nat, 1%float, 4%float, 1%nat)].
Proof. vm_compute. reflexivity. Qed.

Example board_sample_truncated :
  (λ e, (LeaderboardEntry.rank e, LeaderboardEntry.minerUid e))
    <$> default [] (Sample.board 1 2000 Sample.rewarded)
  = [(1%nat, 2%float)]
  ∧ Sample.board 0 2000 Sample.rewarded = None.
Proof. split; vm_compute; reflexivity. Qed.

Example board_sample_window :
  (λ e, (LeaderboardEntry.rank e, LeaderboardEntry.minerUid e,
         LeaderboardEntry.totalRewards e))
    <$> default [] (Sample.board 10 (1005 + 86400000) Sample.rewarded)
  = [(1%nat, 1%float, 4%float); (2%nat, 2%float, 3%float)].
Proof. vm_compute. reflexivity. Qed.

Lemma leaderboard_ranking_witness :
  ∃ es,
    Sample.board 1 2000 Sample.rewarded = Some es
    ∧ length es = 1%nat
    ∧ ∀ i e, es !! i = Some e → LeaderboardEntry.rank e = (i + 1)%nat.
Proof.
  destruct (leaderboard_ranking JS.sum Sample.ieee_avg (λ _ _, "0")
              (λ _, 0%float) (λ _, "0") (Zone.fixed 0) 1 "24h" 2000
              Sample.rewarded)
    as (es & Hes & Hlen & Hrank & _).
  - reflexivity.
  - exists es. split_and!; [exact Hes|exact Hlen|exact Hrank].
Defined.

Lemma projectSummary_no_sessions_witness :
  PrimFloat.is_nan
    (ProjectSummary.avgRewardScore (projectSummary "p" Sample.created)) = true
  ∧ ProjectSummary.totalValidationRuns (projectSummary "p" Sample.created) = 0%nat
  ∧ ProjectSummary.lastRun (projectSummary "p" Sample.created) = None.
Proof.
  destruct (projectSummary_no_sessions "p" Sample.created)
    as (Hnan & Hruns & _ & _ & _ & Hlast & _).
  - intros sid s Hs.
    change (ValidationSession Sample.created)
      with (<["s1" := default s (ValidationSession Sample.created !! "s1")]>
              (∅ : gmap string Session.t)) in Hs.
    apply lookup_insert_Some in Hs as [[_ <-]|[_ Hs]]; [discriminate|].
    by rewrite lookup_empty in Hs.
  - split_and!; [exact Hnan|exact Hruns|exact Hlast].
Defined.

Lemma recordRewardsBatch_replaces_metrics_witness :
  (ValidationMetrics.totalQueryTime ∘ Session.metrics)
    <$> ValidationSession Sample.completed !! "s1" = Some (Some 12%float)
  ∧ ∃ s',
      ValidationSession
        (recordRewardsBatch "s1" (Some [1%float; 2%float])
           (Some [5%float; (-1)%float]) "u1" 3000 (λ _, 3000)
           Sample.completed).1 !! "s1" = Some s'
      ∧ ValidationMetrics.totalQueryTime (Session.metrics s') = None
      ∧ ValidationMetrics.validFindings (Session.metrics s') = None.
Proof.
  split; [vm_compute; reflexivity|].
  edestruct (recordRewardsBatch_replaces_metrics "s1" (Some [1%float; 2%float])
               (Some [5%float; (-1)%float]) "u1" 3000 (λ _, 3000)
               Sample.completed)
    as (s' & Hs' & Ht & Hv & _).
  - vm_compute. reflexivity.
  - vm_compute. reflexivity.
  - exists s'. split_and!; [exact Hs'|exact Ht|exact Hv].
Defined.

Lemma recordRewardsBatch_empty_witness :
  RewardUpdate
    (recordRewardsBatch "s1" (Some []) (Some []) "u1" 2000 (λ _, 2000)
       Sample.responded).1
  = [RewardUpdateDoc.mk "u1" "s1" [] [] 2000 false None]
  ∧ status (recordRewardsBatch "s1" (Some []) (Some []) "u1" 2000 (λ _, 2000)
              Sample.responded).2 = 500
  ∧ status (recordRewardsBatch "s9" (Some []) (Some []) "u1" 2000 (λ _, 2000)
              Sample.responded).2 = 200.
Proof.
  destruct (recordRewardsBatch_empty "s1" "u1" 2000 (λ _, 2000) Sample.responded)
    as (Hlog & _ & _ & _ & _ & _ & Hstored).
  { intros u Hu. by apply elem_of_nil in Hu. }
  destruct (recordRewardsBatch_empty "s9" "u1" 2000 (λ _, 2000) Sample.responded)
    as (_ & _ & _ & _ & _ & Habsent & _).
  { intros u Hu. by apply elem_of_nil in Hu. }
  split_and!.
  - exact Hlog.
  - apply Hstored. vm_compute. by eexists.
  - apply Habsent. vm_compute. reflexivity.
Defined.

(** C10, the claim as stated fails: on the sample session, after a batch
    that stored two computedRewards and the metrics 50, 2 and 1, a batch of
    two empty arrays answers 500, not success, and the session keeps its two
    computedRewards and its metrics: nothing is replaced and no NaN is
    stored. *)
Lemma empty_batch_refused :
  (λ st : Store,
     (λ res : Store * Response,
        status res.2 = 500 ∧ success res.2 = false
        ∧ length <$> (Session.computedRewards <$> ValidationSession res.1 !! "s1")
          = Some 2%nat
        ∧ Session.metrics <$> ValidationSession res.1 !! "s1"
          = Some (ValidationMetrics.mk None (Some 2%float) (Some 50%float)
                    (Some 1%float) None))
       (recordRewardsBatch "s1" (Some []) (Some []) "u2" 3000 (λ _, 3000) st))
    (recordRewardsBatch "s1" (Some [1%float; 2%float])
       (Some [5%float; (-1)%float]) "u1" 2000 (λ _, 2000) Sample.responded).1.
Proof. vm_compute. done. Qed.

(** The store's order agrees with the order of the numbers on examples. *)
Example key_leb_examples :
  Mongo.key_leb (Mongo.num_key 1.5%float) (Mongo.num_key 2%float) = true
  ∧ Mongo.key_leb (Mongo.num_key 2%float) (Mongo.num_key 1.5%float) = false
  ∧ Mongo.key_leb (Mongo.num_key (-3)%float) (Mongo.num_key (-2.5)%float) = true
  ∧ Mongo.key_leb (Mongo.num_key (-0)%float) (Mongo.num_key 0%float) = true
  ∧ Mongo.key_leb (Mongo.num_key 0%float) (Mongo.num_key (-0)%float) = true
  ∧ Mongo.key_leb (Mongo.num_key nan) (Mongo.num_key neg_infinity) = true
  ∧ Mongo.key_leb (Mongo.num_key 0x1p+996%float) (Mongo.num_key infinity) = true
  ∧ Mongo.key_leb (Mongo.num_key 0x1p-1074%float) (Mongo.num_key 0%float) = false.
Proof. split_and!; vm_compute; reflexivity. Qed.

(** The summary of a project no session belongs to, and the metrics an empty
    batch computes. *)
Example summary_of_unknown_project :
  projectSummary "p" Sample.completed
  = ProjectSummary.mk "p" 0 0 0 0%float nan None [].
Proof. vm_compute. reflexivity. Qed.

Example empty_batch_metrics :
  batchMetrics [] []
  = ValidationMetrics.mk None (Some nan) (Some nan) (Some 0%float) None.
Proof. vm_compute. reflexivity. Qed.

(** * Further properties of the repository *)

(** ** What every operation keeps *)

Lemma same_but_reward_refl r : same_but_reward r r.
Proof. by repeat split. Qed.

Lemma session_step_refl s : session_step s s.
Proof.
  split; try done.
  - intros i r Hr. exists r. split_and!; [done|apply same_but_reward_refl|done].
  - by left.
Qed.

Lemma session_step_trans s1 s2 s3 :
  session_step s1 s2 → session_step s2 s3 → session_step s1 s3.
Proof.
  intros [A1 A2 A3 A4 A5 A6 A7 A8 A9 A10] [B1 B2 B3 B4 B5 B6 B7 B8 B9 B10].
  split; try congruence.
  - by etrans.
  - lia.
  - intros i r Hr. destruct (A9 i r Hr) as (r2 & Hr2 & Hs2 & Hk2).
    destruct (B9 i r2 Hr2) as (r3 & Hr3 & Hs3 & Hk3).
    exists r3. split_and!; [done| |auto].
    unfold same_but_reward in *. destruct_and!. split_and!; congruence.
  - destruct B10 as [->|[->| ->]]; auto.
Qed.

(** An update that leaves the identity, the error log and the responses
    alone and moves the state forward is a step. *)
Lemma session_step_frame s s' :
  Session.sessionId s' = Session.sessionId s →
  Session.timestamp s' = Session.timestamp s →
  Session.projectName s' = Session.projectName s →
  Session.sampledMinerCount s' = Session.sampledMinerCount s →
  Session.sampledMinerUids s' = Session.sampledMinerUids s →
  Session.metadata s' = Session.metadata s →
  Session.validationErrors s' = Session.validationErrors s →
  Session.minerResponses s' = Session.minerResponses s →
  (Session.state s' = Session.state s
   ∨ Session.state s' = State.in_progress
   ∨ Session.state s' = State.completed) →
  session_step s s'.
Proof.
  intros H1 H2 H3 H4 H5 H6 H7 H8 H9. split; try done.
  - by rewrite H7.
  - by rewrite H8.
  - intros i r Hr. exists r. rewrite H8.
    split_and!; [done|apply same_but_reward_refl|done].
Qed.

Lemma session_step_push_response s entry :
  session_step s
    (Session_set.minerResponses' (Session.minerResponses s ++ [entry]) s).
Proof.
  split; simpl; try done.
  - rewrite length_app. lia.
  - intros i r Hr. exists r.
    split_and!; [by apply lookup_app_l_Some|apply same_but_reward_refl|done].
  - by left.
Qed.

Lemma session_step_push_error s entry :
  session_step s
    (Session_set.validationErrors' (Session.validationErrors s ++ [entry]) s).
Proof.
  split; simpl; try done.
  - by apply prefix_app_r.
  - intros i r Hr. exists r. split_and!; [done|apply same_but_reward_refl|done].
  - by left.
Qed.

Lemma session_step_reward s i rewardScore rewardReason :
  session_step s
    (Session_set.minerResponses'
       (alter (set_reward rewardScore rewardReason) i (Session.minerResponses s)) s).
Proof.
  split; simpl; try done.
  - by rewrite length_alter.
  - intros j r Hr. destruct (decide (i = j)) as [->|Hne].
    + exists (set_reward rewardScore rewardReason r).
      rewrite list_lookup_alter_eq, Hr. simpl.
      split_and!; [done|by repeat split|by destruct rewardScore; simpl; eauto].
    + exists r. rewrite list_lookup_alter_ne by done.
      split_and!; [done|apply same_but_reward_refl|done].
  - by left.
Qed.

(** One operation: a stored session stays stored, and what happens to it is
    a step. *)
Lemma run_session_step (op : Operation) (st : Store) (sid : string) (s : Session.t) :
  ValidationSession st !! sid = Some s →
  ∃ s', ValidationSession (run op st).1 !! sid = Some s' ∧ session_step s s'.
Proof.
  intros Hs.
  assert (∀ u a,
            (∀ x, session_step x (u x)) →
            ∃ s', ValidationSession (findOneAndUpdate a u st).1 !! sid = Some s'
                  ∧ session_step s s') as Hupd.
  { intros u a Hu. rewrite findOneAndUpdate_lookup.
    case_decide; rewrite Hs; simpl; eauto using session_step_refl. }
  destruct op; simpl.
  - unfold createSession. destruct sampledMinerUids as [uids|];
      [|eauto using session_step_refl].
    destruct (ValidationSession st !! uuid) eqn:E; [eauto using session_step_refl|].
    simpl. rewrite lookup_insert_ne; [eauto using session_step_refl|].
    intros ->. congruence.
  - unfold recordChallenge.
    destruct (JS.falsy_string projectId); [eauto using session_step_refl|].
    match goal with |- context [findOneAndUpdate ?a ?u st] =>
      destruct (Hupd u a) as (s' & Hs' & Hstep);
        [|destruct (findOneAndUpdate a u st) as [st' [x|]]; eauto] end.
    intros x. apply session_step_frame; simpl; auto.
  - unfold recordGroundTruth.
    match goal with |- context [findOneAndUpdate ?a ?u st] =>
      destruct (Hupd u a) as (s' & Hs' & Hstep);
        [|destruct (findOneAndUpdate a u st) as [st' [x|]]; eauto] end.
    intros x. apply session_step_frame; simpl; auto.
  - unfold recordMinerResponse.
    destruct minerUid; [|eauto using session_step_refl].
    match goal with |- context [findOneAndUpdate ?a ?u st] =>
      destruct (Hupd u a) as (s' & Hs' & Hstep);
        [|destruct (findOneAndUpdate a u st) as [st' [x|]]; eauto] end.
    intros x. apply session_step_push_response.
  - unfold recordMinerReward.
    destruct minerUid as [uid|]; [|eauto using session_step_refl].
    destruct (ValidationSession st !! sessionId) as [s0|] eqn:E; simpl;
      [|eauto using session_step_refl].
    destruct (positional _ (Session.minerResponses s0)); simpl;
      [|eauto using session_step_refl].
    destruct (decide (sessionId = sid)) as [->|Hne].
    + rewrite lookup_insert_eq. simplify_eq. eauto using session_step_reward.
    + rewrite lookup_insert_ne by done. eauto using session_step_refl.
  - unfold recordRewardsBatch.
    destruct minerUids as [uids|], rewards as [rws|];
      [|eauto using session_step_refl..].
    destruct (negb _); [eauto using session_step_refl|].
    destruct (existsb _ _); [eauto using session_step_refl|].
    destruct (ValidationSession st !! sessionId) as [s0|] eqn:E; simpl;
      [|eauto using session_step_refl].
    destruct (ValidationMetrics.validate _); simpl;
      [|eauto using session_step_refl].
    destruct (decide (sessionId = sid)) as [->|Hne].
    + rewrite lookup_insert_eq. simplify_eq. eexists. split; [done|].
      apply session_step_frame; simpl; auto.
    + rewrite lookup_insert_ne by done. eauto using session_step_refl.
  - unfold recordSubnetSnapshot.
    destruct netuid, block; [|eauto using session_step_refl..]. simpl.
    apply Hupd. intros x. apply session_step_frame; simpl; auto.
  - unfold logError. destruct (_ || _); [eauto using session_step_refl|]. simpl.
    apply Hupd. intros x. apply session_step_push_error.
  - unfold completeSession.
    match goal with |- context [findOneAndUpdate ?a ?u st] =>
      destruct (Hupd u a) as (s' & Hs' & Hstep);
        [|destruct (findOneAndUpdate a u st) as [st' [x|]]; eauto] end.
    intros x. apply session_step_frame; simpl; auto.
Qed.

Lemma runs_snoc ops op st : runs (ops ++ [op]) st = (run op (runs ops st)).1.
Proof. unfold runs. by rewrite foldl_app. Qed.

Lemma runs_session_step (ops : list Operation) (st : Store) (sid : string)
    (s : Session.t) :
  ValidationSession st !! sid = Some s →
  ∃ s', ValidationSession (runs ops st) !! sid = Some s' ∧ session_step s s'.
Proof.
  intros Hs. induction ops as [|op ops IH] using rev_ind.
  - exists s. split; [done|apply session_step_refl].
  - destruct IH as (s1 & Hs1 & Hstep1). rewrite runs_snoc.
    destruct (run_session_step op _ _ _ Hs1) as (s2 & Hs2 & Hstep2).
    exists s2. split; [done|]. by eapply session_step_trans.
Qed.

(** Case analysis on the branches of a handler that leaves the logs alone. *)
Ltac handler_cases :=
  repeat match goal with
         | |- context [findOneAndUpdate ?a ?u ?st] =>
             let H := fresh "Hlogs" in
             let E := fresh "Eupd" in
             pose proof (findOneAndUpdate_logs a u st) as H;
             destruct (findOneAndUpdate a u st) as [? [?|]] eqn:E;
             simpl in H |- *; destruct H
         | |- context [match ?x with _ => _ end] => destruct x; simpl
         end.

(** One operation and the two logs: the history grows by at most one entry,
    written by a recordMinerReward that found its response entry; the
    reward-update log grows by at most one entry, with a new [updateId]. *)
Lemma run_history (op : Operation) (st : Store) :
  MinerHistory (run op st).1 = MinerHistory st
  ∨ ∃ sid uid score reason now s i r,
      op = RecordMinerReward sid (Some uid) score reason now
      ∧ ValidationSession st !! sid = Some s
      ∧ Session.minerResponses s !! i = Some r
      ∧ Mongo.num_eq uid (MinerResponse.minerUid r) = true
      ∧ ValidationSession (run op st).1
        = <[sid := Session_set.minerResponses'
                     (alter (set_reward score reason) i (Session.minerResponses s))
                     s]> (ValidationSession st)
      ∧ MinerHistory (run op st).1
        = MinerHistory st
            ++ [MinerHistoryDoc.mk uid sid None score None None None None
                  now (if scored score then Status.success else Status.failed)].
Proof.
  destruct op; simpl;
    [ left; unfold createSession | left; unfold recordChallenge
    | left; unfold recordGroundTruth | left; unfold recordMinerResponse
    | | left; unfold recordRewardsBatch | left; unfold recordSubnetSnapshot
    | left; unfold logError | left; unfold completeSession ];
    try (handler_cases; done).
  unfold recordMinerReward. destruct minerUid as [uid|]; [|by left].
  destruct (ValidationSession st !! sessionId) as [s|] eqn:E; simpl; [|by left].
  destruct (positional _ (Session.minerResponses s)) as [i|] eqn:Ei; simpl;
    [|by left].
  apply positional_Some in Ei as (r & Hr & Hm & _).
  right. exists sessionId, uid, rewardScore, rewardReason, now, s, i, r. done.
Qed.

Lemma existsb_updateId_false uuid (log : list RewardUpdateDoc.t) :
  existsb (λ u, String.eqb (RewardUpdateDoc.updateId u) uuid) log = false →
  uuid ∉ RewardUpdateDoc.updateId <$> log.
Proof.
  induction log as [|u log IH]; simpl.
  - intros _. apply not_elem_of_nil.
  - intros [Hu Hl]%orb_false_iff. apply String.eqb_neq in Hu.
    intros [?|?]%elem_of_cons; [congruence|by apply IH].
Qed.

Lemma run_rewardUpdates (op : Operation) (st : Store) :
  RewardUpdate (run op st).1 = RewardUpdate st
  ∨ ∃ u, RewardUpdate (run op st).1 = RewardUpdate st ++ [u]
         ∧ RewardUpdateDoc.updateId u ∉ RewardUpdateDoc.updateId <$> RewardUpdate st.
Proof.
  destruct op; simpl;
    [ left; unfold createSession | left; unfold recordChallenge
    | left; unfold recordGroundTruth | left; unfold recordMinerResponse
    | left; unfold recordMinerReward | | left; unfold recordSubnetSnapshot
    | left; unfold logError | left; unfold completeSession ];
    try (handler_cases; done).
  unfold recordRewardsBatch.
  destruct minerUids as [uids|], rewards as [rws|]; [|by left..].
  destruct (negb _); [by left|].
  destruct (existsb _ _) eqn:E; [by left|].
  apply existsb_updateId_false in E.
  right. destruct (ValidationSession st !! sessionId); simpl;
    [destruct (ValidationMetrics.validate _); simpl|]; eauto.
Qed.

Lemma backed_step (st st' : Store) (h : MinerHistoryDoc.t) :
  (∀ sid s, ValidationSession st !! sid = Some s →
            ∃ s', ValidationSession st' !! sid = Some s' ∧ session_step s s') →
  backed st h → backed st' h.
Proof.
  intros Hstep [(s & r & Hs & Hr & Hm & Hk) Hstatus]. split; [|done].
  destruct (Hstep _ _ Hs) as (s' & Hs' & Hss).
  apply list_elem_of_lookup in Hr as [i Hi].
  destruct (step_responses _ _ Hss i r Hi) as (r' & Hr' & Hsame & Hkeep).
  exists s', r'. split_and!; [done|by eapply list_elem_of_lookup_2| |auto].
  destruct Hsame as [-> _]. done.
Qed.

Lemma findOneAndUpdate_lookup_None a u st sid :
  ValidationSession st !! sid = None →
  ValidationSession (findOneAndUpdate a u st).1 !! sid = None.
Proof.
  intros H. rewrite findOneAndUpdate_lookup. case_decide; by rewrite H.
Qed.

(** A session that appears was created by this operation: it has the key as
    its [sessionId] and is [pending]. *)
Lemma run_new_session (op : Operation) (st : Store) (sid : string) (s' : Session.t) :
  ValidationSession st !! sid = None →
  ValidationSession (run op st).1 !! sid = Some s' →
  Session.sessionId s' = sid ∧ Session.state s' = State.pending.
Proof.
  intros Hnone. destruct op; simpl.
  - unfold createSession. destruct sampledMinerUids as [uids|]; [|(simpl in *; intros; congruence)].
    destruct (ValidationSession st !! uuid) eqn:E; [(simpl in *; intros; congruence)|]. simpl.
    destruct (decide (uuid = sid)) as [->|Hne].
    + rewrite lookup_insert_eq. by intros [= <-].
    + rewrite lookup_insert_ne by done. (simpl in *; intros; congruence).
  - unfold recordChallenge. destruct (JS.falsy_string projectId); [(simpl in *; intros; congruence)|].
    match goal with |- context [findOneAndUpdate ?a ?u st] =>
      pose proof (findOneAndUpdate_lookup_None a u st sid Hnone);
      destruct (findOneAndUpdate a u st) as [? [?|]] end; simpl in *; (simpl in *; intros; congruence).
  - unfold recordGroundTruth.
    match goal with |- context [findOneAndUpdate ?a ?u st] =>
      pose proof (findOneAndUpdate_lookup_None a u st sid Hnone);
      destruct (findOneAndUpdate a u st) as [? [?|]] end; simpl in *; (simpl in *; intros; congruence).
  - unfold recordMinerResponse. destruct minerUid; [|(simpl in *; intros; congruence)].
    match goal with |- context [findOneAndUpdate ?a ?u st] =>
      pose proof (findOneAndUpdate_lookup_None a u st sid Hnone);
      destruct (findOneAndUpdate a u st) as [? [?|]] end; simpl in *; (simpl in *; intros; congruence).
  - unfold recordMinerReward. destruct minerUid as [uid|]; [|(simpl in *; intros; congruence)].
    destruct (ValidationSession st !! sessionId) as [s0|] eqn:E; simpl;
      [|(simpl in *; intros; congruence)].
    destruct (positional _ (Session.minerResponses s0)); simpl; [|(simpl in *; intros; congruence)].
    rewrite lookup_insert_ne; [congruence|]. intros ->. congruence.
  - unfold recordRewardsBatch.
    destruct minerUids as [uids|], rewards as [rws|]; [|(simpl in *; intros; congruence)..].
    destruct (negb _); [(simpl in *; intros; congruence)|]. destruct (existsb _ _); [(simpl in *; intros; congruence)|].
    destruct (ValidationSession st !! sessionId) as [s0|] eqn:E; simpl;
      [|(simpl in *; intros; congruence)].
    destruct (ValidationMetrics.validate _); simpl;
      [|(simpl in *; intros; congruence)].
    rewrite lookup_insert_ne; [congruence|]. intros ->. congruence.
  - unfold recordSubnetSnapshot. destruct netuid, block; [|(simpl in *; intros; congruence)..]. simpl.
    rewrite findOneAndUpdate_lookup_None by done. (simpl in *; intros; congruence).
  - unfold logError. destruct (_ || _); [(simpl in *; intros; congruence)|]. simpl.
    rewrite findOneAndUpdate_lookup_None by done. (simpl in *; intros; congruence).
  - unfold completeSession.
    match goal with |- context [findOneAndUpdate ?a ?u st] =>
      pose proof (findOneAndUpdate_lookup_None a u st sid Hnone);
      destruct (findOneAndUpdate a u st) as [? [?|]] end; simpl in *; (simpl in *; intros; congruence).
Qed.

Lemma consistent_empty : consistent emptyStore.
Proof.
  split; simpl.
  - intros sid s Hs. by rewrite lookup_empty in Hs.
  - intros sid s Hs. by rewrite lookup_empty in Hs.
  - constructor.
  - intros h Hh. by apply elem_of_nil in Hh.
Qed.

(** Every operation keeps the store consistent. *)
Lemma run_consistent (op : Operation) (st : Store) :
  consistent st → consistent (run op st).1.
Proof.
  intros [Hkeys Hfail Hnd Hback].
  assert (∀ sid s', ValidationSession (run op st).1 !! sid = Some s' →
            (∃ s, ValidationSession st !! sid = Some s ∧ session_step s s')
            ∨ (ValidationSession st !! sid = None
               ∧ Session.sessionId s' = sid
               ∧ Session.state s' = State.pending)) as Hfrom.
  { intros sid s' Hs'.
    destruct (ValidationSession st !! sid) as [s|] eqn:E.
    - left. destruct (run_session_step op st sid s E) as (s2 & Hs2 & Hstep).
      exists s. split; [done|]. congruence.
    - right. split; [done|]. by apply (run_new_session op st). }
  split.
  - intros sid s' Hs'. destruct (Hfrom _ _ Hs') as [(s & Hs & Hstep)|(_ & Hid & _)];
      [|done]. rewrite (step_sessionId _ _ Hstep). by apply Hkeys.
  - intros sid s' Hs'. destruct (Hfrom _ _ Hs') as [(s & Hs & Hstep)|(_ & _ & Hp)];
      [|congruence].
    specialize (Hfail _ _ Hs).
    destruct (step_state _ _ Hstep) as [H|[H|H]]; congruence.
  - destruct (run_rewardUpdates op st) as [->|(u & -> & Hu)]; [done|].
    rewrite fmap_app. apply NoDup_app. split_and!; [done| |apply NoDup_singleton].
    intros x Hx ->%list_elem_of_singleton. done.
  - intros h Hh.
    destruct (run_history op st)
      as [Heq|(sid & uid & score & reason & now & s & i & r
               & -> & Hs & Hr & Hm & Hsess & Hhist)].
    + rewrite Heq in Hh. apply (backed_step st); [|by apply Hback].
      intros sid s Hs. by apply run_session_step.
    + rewrite Hhist in Hh. apply elem_of_app in Hh as [Hh| ->%list_elem_of_singleton].
      * apply (backed_step st); [|by apply Hback].
        intros sid' s' Hs'. by apply run_session_step.
      * split; [|done].
        eexists _, (set_reward score reason r).
        cbn [MinerHistoryDoc.sessionId MinerHistoryDoc.minerUid
             MinerHistoryDoc.rewardScore].
        rewrite Hsess, lookup_insert_eq.
        split_and!; [done| |done|by intros [x ->]; simpl; eauto].
        simpl. eapply list_elem_of_lookup_2.
        by rewrite list_lookup_alter_eq, Hr.
Qed.

Lemma runs_consistent (ops : list Operation) (st : Store) :
  consistent st → consistent (runs ops st).
Proof.
  intros Hst. induction ops as [|op ops IH] using rev_ind; [done|].
  rewrite runs_snoc. by apply run_consistent.
Qed.

(** X1.  No sequence of operations removes a stored session or changes its
    sessionId, timestamp, projectName, sampledMinerCount, sampledMinerUids
    or metadata. *)
Theorem sessions_keep_identity
    (ops : list Operation) (st : Store) (sid : string) (s : Session.t) :
  ValidationSession st !! sid = Some s →
  ∃ s', ValidationSession (runs ops st) !! sid = Some s'
        ∧ Session.sessionId s' = Session.sessionId s
        ∧ Session.timestamp s' = Session.timestamp s
        ∧ Session.projectName s' = Session.projectName s
        ∧ Session.sampledMinerCount s' = Session.sampledMinerCount s
        ∧ Session.sampledMinerUids s' = Session.sampledMinerUids s
        ∧ Session.metadata s' = Session.metadata s.
Proof.
  intros Hs. destruct (runs_session_step ops st sid s Hs) as (s' & Hs' & Hstep).
  exists s'. destruct Hstep. done.
Qed.

(** X2.  Over any sequence of operations the error log of a stored session
    only grows at its end: the earlier log is a prefix of the later one. *)
Theorem validationErrors_append_only
    (ops : list Operation) (st : Store) (sid : string) (s : Session.t) :
  ValidationSession st !! sid = Some s →
  ∃ s', ValidationSession (runs ops st) !! sid = Some s'
        ∧ Session.validationErrors s `prefix_of` Session.validationErrors s'.
Proof.
  intros Hs. destruct (runs_session_step ops st sid s Hs) as (s' & Hs' & Hstep).
  exists s'. destruct Hstep. done.
Qed.


Lemma run_logs_prefix (op : Operation) (st : Store) :
  MinerHistory st `prefix_of` MinerHistory (run op st).1
  ∧ RewardUpdate st `prefix_of` RewardUpdate (run op st).1.
Proof.
  split.
  - destruct (run_history op st) as [->|(? & ? & ? & ? & ? & ? & ? & ? & H)];
      [done|].
    destruct H as (_ & _ & _ & _ & _ & ->). by apply prefix_app_r.
  - destruct (run_rewardUpdates op st) as [->|(u & -> & _)]; [done|].
    by apply prefix_app_r.
Qed.

(** X4.  The two logs are append-only: over any sequence of operations the
    earlier MinerHistory is a prefix of the later one, and so is the earlier
    RewardUpdate log. *)
Theorem logs_append_only (ops : list Operation) (st : Store) :
  MinerHistory st `prefix_of` MinerHistory (runs ops st)
  ∧ RewardUpdate st `prefix_of` RewardUpdate (runs ops st).
Proof.
  induction ops as [|op ops [IH1 IH2]] using rev_ind; [done|].
  rewrite runs_snoc. destruct (run_logs_prefix op (runs ops st)) as [H1 H2].
  split; by etrans.
Qed.

(** A batch whose generated updateId a log entry already has is refused by
    the unique index: whatever its arrays, it does not answer 200, and when
    they are two arrays of the same length it answers 500; the store is
    unchanged. *)
Lemma recordRewardsBatch_duplicate sid minerUids rewards uuid now clock st :
  uuid ∈ RewardUpdateDoc.updateId <$> RewardUpdate st →
  let res := recordRewardsBatch sid minerUids rewards uuid now clock st in
  res.1 = st
  ∧ status res.2 ≠ 200
  ∧ ∀ uids rws, minerUids = Some uids → rewards = Some rws →
                length uids = length rws → res.2 = internal_error.
Proof.
  intros Hin res. subst res. unfold recordRewardsBatch.
  destruct minerUids as [uids|], rewards as [rws|]; try done.
  destruct (negb _) eqn:Hlen; simpl.
  - split_and!; try done. intros ? ? [= <-] [= <-] E.
    rewrite E, Nat.eqb_refl in Hlen. done.
  - destruct (existsb _ _) eqn:E; [done|].
    by apply existsb_updateId_false in E.
Qed.

(** X5.  In every store reached from the empty one, no two entries of the
    reward-update log have the same updateId: a rewards-update of two arrays
    of the same length whose generated updateId is already in the log
    answers 500 and leaves the store as it was. *)
Theorem reachable_updateIds_unique (ops : list Operation) :
  let st := runs ops emptyStore in
  NoDup (RewardUpdateDoc.updateId <$> RewardUpdate st)
  ∧ ∀ sessionId minerUids rewards uuid now clock,
      uuid ∈ RewardUpdateDoc.updateId <$> RewardUpdate st →
      length minerUids = length rewards →
      let res := recordRewardsBatch sessionId (Some minerUids) (Some rewards)
                   uuid now clock st in
      status res.2 = 500 ∧ success res.2 = false ∧ res.1 = st.
Proof.
  intros st. split.
  - apply (runs_consistent ops emptyStore consistent_empty).
  - intros sid uids rws uuid now clock Hin Hlen res.
    destruct (recordRewardsBatch_duplicate sid (Some uids) (Some rws) uuid now
                clock st Hin) as (Hst & _ & Hres).
    subst res. by rewrite Hst, (Hres uids rws).
Qed.


(** X7.  In every store reached from the empty one, a session is stored under
    its own sessionId and its state is never [failed]. *)
Theorem reachable_sessions_keyed
    (ops : list Operation) (sid : string) (s : Session.t) :
  ValidationSession (runs ops emptyStore) !! sid = Some s →
  Session.sessionId s = sid ∧ Session.state s ≠ State.failed.
Proof.
  intros Hs. destruct (runs_consistent ops emptyStore consistent_empty).
  split; eauto.
Qed.

(** ** recordChallenge, recordGroundTruth, recordMinerResponse *)

(** X8.  recordChallenge answers 400 and changes nothing when projectId is
    missing or empty, and 404, changing nothing, when the session is not
    stored.  On a stored session it answers 200; the state becomes
    [in_progress] whatever it was; projectId and challengeInfo.projectId
    become the given one and challengeInfo.createdAt the current time;
    description, difficulty and rawData are overwritten when given and kept
    otherwise; nothing else in the store changes. *)
Theorem recordChallenge_sets_challenge
    (sessionId : string) (projectId description difficulty : option string)
    (rawData : option json) (now : Z) (st : Store) :
  let res := recordChallenge sessionId projectId description difficulty
               rawData now st in
  ((projectId = None ∨ projectId = Some "") →
   isValidationError res.2 ∧ res.1 = st)
  ∧ (∀ p, projectId = Some p → p ≠ "" →
       (ValidationSession st !! sessionId = None →
        isNotFoundError res.2 ∧ res.1 = st)
       ∧ ∀ s, ValidationSession st !! sessionId = Some s →
              status res.2 = 200 ∧ success res.2 = true
              ∧ (∃ s', ValidationSession res.1 !! sessionId = Some s'
                       ∧ Session.state s' = State.in_progress
                       ∧ Session.projectId s' = Some p
                       ∧ ChallengeInfo.projectId (Session.challengeInfo s') = Some p
                       ∧ ChallengeInfo.createdAt (Session.challengeInfo s') = Some now
                       ∧ ChallengeInfo.description (Session.challengeInfo s')
                         = match description with
                           | Some d => Some d
                           | None => ChallengeInfo.description (Session.challengeInfo s)
                           end
                       ∧ ChallengeInfo.difficulty (Session.challengeInfo s')
                         = match difficulty with
                           | Some d => Some d
                           | None => ChallengeInfo.difficulty (Session.challengeInfo s)
                           end
                       ∧ ChallengeInfo.rawData (Session.challengeInfo s')
                         = match rawData with
                           | Some d => Some d
                           | None => ChallengeInfo.rawData (Session.challengeInfo s)
                           end
                       ∧ same_but_challenge s s')
              ∧ only_session_changed sessionId st res.1).
Proof.
  intros res. subst res. unfold recordChallenge. split.
  - by intros [-> | ->].
  - intros p -> Hp. simpl. apply String.eqb_neq in Hp. rewrite Hp. split.
    + intros H. by rewrite (findOneAndUpdate_absent _ _ _ H).
    + intros s Hs. rewrite (findOneAndUpdate_present _ _ _ _ Hs). simpl.
      split_and!; try done.
      * eexists. rewrite lookup_insert_eq. split; [reflexivity|]. simpl.
        split_and!; done.
      * unfold only_session_changed. simpl. split_and!; try done.
        intros sid Hsid. by rewrite lookup_insert_ne.
Qed.

(** X9.  The last recordChallenge wins: on a stored session, a second call
    that carries description, difficulty and rawData leaves the store exactly
    as if the first call had never been made. *)
Theorem recordChallenge_last_wins
    (sessionId p1 p2 d2 f2 : string) (d1 f1 : option string)
    (r1 : option json) (r2 : json) (now1 now2 : Z) (st : Store) (s : Session.t) :
  ValidationSession st !! sessionId = Some s →
  p1 ≠ "" → p2 ≠ "" →
  let first := recordChallenge sessionId (Some p1) d1 f1 r1 now1 st in
  let second := recordChallenge sessionId (Some p2) (Some d2) (Some f2) (Some r2) now2 in
  status first.2 = 200
  ∧ status (second first.1).2 = 200
  ∧ (second first.1).1 = (second st).1.
Proof.
  intros Hs Hp1 Hp2 first second. subst first second. unfold recordChallenge.
  simpl. apply String.eqb_neq in Hp1, Hp2. rewrite Hp1, Hp2.
  rewrite (findOneAndUpdate_present _ _ _ _ Hs). simpl.
  erewrite findOneAndUpdate_present by (simpl; apply lookup_insert_eq).
  rewrite (findOneAndUpdate_present _ _ _ _ Hs).
  simpl. split_and!; try done. by rewrite insert_insert_eq.
Qed.

(** X10.  recordGroundTruth answers 404, changing nothing, when the session
    is not stored.  On a stored session it answers 200 and leaves the state
    and every field outside groundTruth alone; reportId, criticalIssues and
    rawData are overwritten when given and kept otherwise, while
    vulnerabilities becomes the given list, or the empty list when none is
    given. *)
Theorem recordGroundTruth_sets_groundTruth
    (sessionId : string) (reportId : option string)
    (vulnerabilities : option (list string)) (criticalIssues : option number)
    (rawData : option json) (st : Store) :
  let res := recordGroundTruth sessionId reportId vulnerabilities
               criticalIssues rawData st in
  (ValidationSession st !! sessionId = None →
   isNotFoundError res.2 ∧ res.1 = st)
  ∧ ∀ s, ValidationSession st !! sessionId = Some s →
         status res.2 = 200 ∧ success res.2 = true
         ∧ (∃ s', ValidationSession res.1 !! sessionId = Some s'
                  ∧ GroundTruth.vulnerabilities (Session.groundTruth s')
                    = match vulnerabilities with Some v => v | None => [] end
                  ∧ GroundTruth.reportId (Session.groundTruth s')
                    = match reportId with
                      | Some r => Some r
                      | None => GroundTruth.reportId (Session.groundTruth s)
                      end
                  ∧ GroundTruth.criticalIssues (Session.groundTruth s')
                    = match criticalIssues with
                      | Some c => Some c
                      | None => GroundTruth.criticalIssues (Session.groundTruth s)
                      end
                  ∧ GroundTruth.rawData (Session.groundTruth s')
                    = match rawData with
                      | Some d => Some d
                      | None => GroundTruth.rawData (Session.groundTruth s)
                      end
                  ∧ same_but_groundTruth s s')
         ∧ only_session_changed sessionId st res.1.
Proof.
  intros res. subst res. unfold recordGroundTruth. split.
  - intros H. by rewrite (findOneAndUpdate_absent _ _ _ H).
  - intros s Hs. rewrite (findOneAndUpdate_present _ _ _ _ Hs). simpl.
    split_and!; try done.
    + eexists. rewrite lookup_insert_eq. split; [reflexivity|]. simpl.
      split_and!; done.
    + unfold only_session_changed. simpl. split_and!; try done.
      intros sid Hsid. by rewrite lookup_insert_ne.
Qed.

(** X11.  recordMinerResponse answers 400, changing nothing, when minerUid is
    not a number, and 404, changing nothing, when the session is not stored.
    On a stored session it answers 200 and appends one entry at the end of
    minerResponses, whether or not the miner already has one: the entry has
    the given fields, the current time, an empty agentPerformance when none
    is given, and no reward; nothing else in the store changes. *)
Theorem recordMinerResponse_appends
    (sessionId : string) (minerUid : option number) (githubUrl : option string)
    (responseTime : option number) (success' : option bool)
    (errorMessage : option string) (agentPerformance : option AgentPerformance.t)
    (now : Z) (st : Store) :
  let res := recordMinerResponse sessionId minerUid githubUrl responseTime
               success' errorMessage agentPerformance now st in
  (minerUid = None → isValidationError res.2 ∧ res.1 = st)
  ∧ ∀ uid, minerUid = Some uid →
      (ValidationSession st !! sessionId = None →
       isNotFoundError res.2 ∧ res.1 = st)
      ∧ ∀ s, ValidationSession st !! sessionId = Some s →
             status res.2 = 200 ∧ success res.2 = true
             ∧ (∃ s', ValidationSession res.1 !! sessionId = Some s'
                      ∧ Session.minerResponses s'
                        = Session.minerResponses s
                            ++ [MinerResponse.mk uid githubUrl responseTime
                                  success' errorMessage now
                                  (match agentPerformance with
                                   | Some a => a
                                   | None => AgentPerformance.mk None None None None
                                   end)
                                  None None]
                      ∧ same_but_minerResponses s s')
             ∧ only_session_changed sessionId st res.1.
Proof.
  intros res. subst res. unfold recordMinerResponse. split.
  - by intros ->.
  - intros uid ->. split.
    + intros H. by rewrite (findOneAndUpdate_absent _ _ _ H).
    + intros s Hs. rewrite (findOneAndUpdate_present _ _ _ _ Hs). simpl.
      split_and!; try done.
      * eexists. rewrite lookup_insert_eq. split; [reflexivity|]. simpl.
        split_and!; try done; by destruct agentPerformance.
      * unfold only_session_changed. simpl. split_and!; try done.
        intros sid Hsid. by rewrite lookup_insert_ne.
Qed.

Lemma positional_is_Some {A} (p : A → bool) (l : list A) (x : A) :
  x ∈ l → p x = true → is_Some (positional p l).
Proof.
  intros Hx Hp. destruct (positional p l) eqn:E; [by eauto|].
  rewrite positional_None in E. specialize (E x Hx). congruence.
Qed.

Lemma num_eq_refl x : Mongo.num_eq x x = true.
Proof. by apply num_eq_key. Qed.

(** X12.  Once a response of a miner is recorded on a stored session, a
    reward for that miner on that session is accepted, with or without a
    rewardScore: recordMinerReward answers 200, not 404, and appends one
    history entry. *)
Theorem reward_after_response
    (sessionId : string) (uid : number) (githubUrl : option string)
    (responseTime : option number) (success' : option bool)
    (errorMessage : option string) (agentPerformance : option AgentPerformance.t)
    (now : Z) (rewardScore : option number) (rewardReason : option string)
    (later : Z) (st : Store) (s : Session.t) :
  ValidationSession st !! sessionId = Some s →
  let responded := (recordMinerResponse sessionId (Some uid) githubUrl
                      responseTime success' errorMessage agentPerformance
                      now st).1 in
  let res := recordMinerReward sessionId (Some uid) rewardScore rewardReason
               later responded in
  status res.2 = 200
  ∧ length (MinerHistory res.1) = S (length (MinerHistory st)).
Proof.
  intros Hs responded res. subst responded res. unfold recordMinerResponse.
  rewrite (findOneAndUpdate_present _ _ _ _ Hs). simpl.
  unfold recordMinerReward. simpl. rewrite lookup_insert_eq. simpl.
  match goal with |- context [positional ?p ?l] =>
    destruct (positional_is_Some p l
                (MinerResponse.mk uid githubUrl responseTime success'
                   errorMessage now
                   (default AgentPerformance.empty agentPerformance) None None))
      as [i ->] end.
  - apply elem_of_app. right. by left.
  - apply num_eq_refl.
  - simpl. split; [done|]. rewrite length_app. simpl. lia.
Qed.

(** ** logError, recordSubnetSnapshot, getSession *)

(** X13.  logError answers 400, changing nothing, when stage or message is
    missing or empty.  Otherwise it answers 200; on a stored session it
    appends one entry with the given stage, message and stack trace and the
    current time at the end of validationErrors and changes nothing else; on
    a session that is not stored it changes nothing. *)
Theorem logError_appends
    (sessionId : string) (stage message' stackTrace : option string)
    (now : Z) (st : Store) :
  let res := logError sessionId stage message' stackTrace now st in
  ((stage = None ∨ stage = Some "" ∨ message' = None ∨ message' = Some "") →
   isValidationError res.2 ∧ res.1 = st)
  ∧ ∀ sg msg,
      stage = Some sg → message' = Some msg → sg ≠ "" → msg ≠ "" →
      status res.2 = 200 ∧ success res.2 = true
      ∧ (ValidationSession st !! sessionId = None → res.1 = st)
      ∧ ∀ s, ValidationSession st !! sessionId = Some s →
             (∃ s', ValidationSession res.1 !! sessionId = Some s'
                    ∧ Session.validationErrors s'
                      = Session.validationErrors s
                          ++ [ValidationError.mk sg msg now stackTrace]
                    ∧ same_but_validationErrors s s')
             ∧ only_session_changed sessionId st res.1.
Proof.
  intros res. subst res. unfold logError. split.
  - intros [-> |[-> |[-> | ->]]]; simpl; rewrite ?orb_true_r; try done;
      by destruct (JS.falsy_string stage).
  - intros sg msg -> -> Hs Hm. simpl. apply String.eqb_neq in Hs, Hm.
    rewrite Hs, Hm. simpl. split_and!; try done.
    + intros H. by rewrite (findOneAndUpdate_absent _ _ _ H).
    + intros s Hl. rewrite (findOneAndUpdate_present _ _ _ _ Hl). simpl. split.
      * eexists. rewrite lookup_insert_eq. split; [reflexivity|]. simpl.
        split_and!; done.
      * unfold only_session_changed. simpl. split_and!; try done.
        intros sid Hsid. by rewrite lookup_insert_ne.
Qed.

(** X14.  recordSubnetSnapshot answers 400, changing nothing, when netuid or
    block is not a number.  Otherwise it answers 200, and on a stored session
    getSession then returns the session with the given netuid and block and
    the current time in subnetSnapshot; activeValidators, activeMiners,
    totalStake and emissionPerBlock are overwritten when given and kept
    otherwise; nothing else in the store changes. *)
Theorem recordSubnetSnapshot_then_getSession
    (sessionId : string) (netuid block : option number)
    (activeValidators activeMiners totalStake emissionPerBlock : option number)
    (now : Z) (st : Store) :
  let res := recordSubnetSnapshot sessionId netuid block activeValidators
               activeMiners totalStake emissionPerBlock now st in
  ((netuid = None ∨ block = None) → isValidationError res.2 ∧ res.1 = st)
  ∧ ∀ n b,
      netuid = Some n → block = Some b →
      status res.2 = 200 ∧ success res.2 = true
      ∧ ∀ s, ValidationSession st !! sessionId = Some s →
             (∃ s', getSession sessionId res.1 = inl s'
                    ∧ SubnetSnapshot.netuid (Session.subnetSnapshot s') = Some n
                    ∧ SubnetSnapshot.block (Session.subnetSnapshot s') = Some b
                    ∧ SubnetSnapshot.timestamp (Session.subnetSnapshot s') = Some now
                    ∧ SubnetSnapshot.activeValidators (Session.subnetSnapshot s')
                      = match activeValidators with
                        | Some v => Some v
                        | None => SubnetSnapshot.activeValidators
                                    (Session.subnetSnapshot s)
                        end
                    ∧ SubnetSnapshot.activeMiners (Session.subnetSnapshot s')
                      = match activeMiners with
                        | Some v => Some v
                        | None => SubnetSnapshot.activeMiners
                                    (Session.subnetSnapshot s)
                        end
                    ∧ SubnetSnapshot.totalStake (Session.subnetSnapshot s')
                      = match totalStake with
                        | Some v => Some v
                        | None => SubnetSnapshot.totalStake
                                    (Session.subnetSnapshot s)
                        end
                    ∧ SubnetSnapshot.emissionPerBlock (Session.subnetSnapshot s')
                      = match emissionPerBlock with
                        | Some v => Some v
                        | None => SubnetSnapshot.emissionPerBlock
                                    (Session.subnetSnapshot s)
                        end
                    ∧ same_but_subnetSnapshot s s')
             ∧ only_session_changed sessionId st res.1.
Proof.
  intros res. subst res. unfold recordSubnetSnapshot. split.
  - intros [-> | ->]; [done|]. by destruct netuid.
  - intros n b -> ->. simpl. split_and!; try done.
    intros s Hs. rewrite (findOneAndUpdate_present _ _ _ _ Hs). simpl. split.
    + eexists. unfold getSession. simpl. rewrite lookup_insert_eq.
      split; [reflexivity|]. simpl. split_and!; done.
    + unfold only_session_changed. simpl. split_and!; try done.
      intros sid Hsid. by rewrite lookup_insert_ne.
Qed.

(** X15.  createSession never overwrites: with a uuid that a stored session
    already has it answers 500 and the store is unchanged.  With a new uuid,
    getSession on it then returns the created session, whose timestamp is
    the current time and whose sampledMinerCount is the given count, except
    that a count that is missing, 0 or NaN is replaced by the length of
    sampledMinerUids; getSession on any other id answers as before. *)
Theorem createSession_then_getSession
    (sampledMinerCount : option number) (uids : list number)
    (validatorAddress configVersion : option string)
    (uuid : string) (now : Z) (st : Store) :
  let res := createSession sampledMinerCount (Some uids)
               validatorAddress configVersion uuid now st in
  (is_Some (ValidationSession st !! uuid) → status res.2 = 500 ∧ res.1 = st)
  ∧ (ValidationSession st !! uuid = None →
     (∃ s, getSession uuid res.1 = inl s
           ∧ Session.timestamp s = now
           ∧ Metadata.validatorAddress (Session.metadata s) = validatorAddress
           ∧ Metadata.configVersion (Session.metadata s) = configVersion
           ∧ Session.sampledMinerCount s
             = match sampledMinerCount with
               | Some c =>
                   if PrimFloat.eqb c 0%float || PrimFloat.is_nan c
                   then JS.Number_of_nat (length uids) else c
               | None => JS.Number_of_nat (length uids)
               end)
     ∧ ∀ sid, sid ≠ uuid → getSession sid res.1 = getSession sid st).
Proof.
  intros res. subst res. unfold createSession. split.
  - intros [s ->]. done.
  - intros ->. simpl. split.
    + eexists. unfold getSession. simpl. rewrite lookup_insert_eq.
      split; [reflexivity|]. simpl. split_and!; try done.
      unfold JS.or_number, JS.truthy. destruct sampledMinerCount as [c|]; [|done].
      by destruct (PrimFloat.eqb c 0), (PrimFloat.is_nan c).
    + intros sid Hsid. unfold getSession. simpl. by rewrite lookup_insert_ne.
Qed.

(** ** listRecent *)

Lemma byTimestampDesc_total a b :
  byTimestampDesc a b = true ∨ byTimestampDesc b a = true.
Proof. unfold byTimestampDesc. rewrite !Z.leb_le. lia. Qed.

Lemma byTimestampDesc_trans a b c :
  byTimestampDesc a b = true → byTimestampDesc b c = true →
  byTimestampDesc a c = true.
Proof. unfold byTimestampDesc. rewrite !Z.leb_le. lia. Qed.

Lemma limitTo_take {A} (n : nat) (l : list A) :
  limitTo n l = take (match n with O => length l | _ => n end) l.
Proof. destruct n; simpl; [by rewrite firstn_all|done]. Qed.

Lemma limitTo_lookup {A} (n k : nat) (l : list A) i x :
  limitTo n (drop k l) !! i = Some x → l !! (k + i)%nat = Some x.
Proof.
  rewrite limitTo_take. intros [H _]%lookup_take_Some.
  by rewrite lookup_drop in H.
Qed.

Lemma limitTo_sublist {A} (n k : nat) (l : list A) :
  limitTo n (drop k l) `sublist_of` l.
Proof.
  rewrite limitTo_take. etrans; [apply sublist_take|apply sublist_drop].
Qed.

(** The stored sessions, most recent first. *)
Lemma sessions_by_timestamp (st : Store) :
  let all := Mongo.sort_by byTimestampDesc (map_to_list (ValidationSession st)).*2 in
  StronglySorted (λ a b, byTimestampDesc a b = true) all
  ∧ length all = size (ValidationSession st)
  ∧ ∀ s, s ∈ all ↔ ∃ sid, ValidationSession st !! sid = Some s.
Proof.
  intros all. subst all. split_and!.
  - apply sort_by_sorted;
      [apply byTimestampDesc_total|apply byTimestampDesc_trans].
  - by rewrite sort_by_perm, length_fmap, length_map_to_list.
  - intros s. rewrite sort_by_perm, list_elem_of_fmap. split.
    + intros ([sid s'] & -> & Hin). exists sid. by apply elem_of_map_to_list.
    + intros (sid & Hs). exists (sid, s). split; [done|].
      by apply elem_of_map_to_list.
Qed.

(** X16.  A page of listRecent: total is the number of stored sessions,
    whatever the window; the page has as many sessions as lie past [skip],
    cut to [limit] when [limit] is not 0; its sessions are stored ones, in
    order of non-increasing timestamp; when every session is stored under
    its sessionId, no sessionId occurs twice on the page; and a page with
    [skip] 0 and a [limit] that is 0 or at least the total holds every stored
    session. *)
Theorem listRecent_page (limit skip : nat) (st : Store) :
  let res := listRecent limit skip st in
  let total := size (ValidationSession st) in
  Pagination.total res.2 = total
  ∧ length res.1
    = match limit with
      | O => (total - skip)%nat
      | _ => (limit `min` (total - skip))%nat
      end
  ∧ (∀ i j a b,
       (i < j)%nat → res.1 !! i = Some a → res.1 !! j = Some b →
       Session.timestamp b ≤ Session.timestamp a)
  ∧ (∀ s, s ∈ res.1 → ∃ sid, ValidationSession st !! sid = Some s)
  ∧ ((∀ sid s, ValidationSession st !! sid = Some s → Session.sessionId s = sid) →
     NoDup (Session.sessionId <$> res.1))
  ∧ (skip = 0%nat → (limit = 0%nat ∨ (total ≤ limit)%nat) →
     ∀ sid s, ValidationSession st !! sid = Some s → s ∈ res.1).
Proof.
  intros res total. subst res total. unfold listRecent. simpl.
  destruct (sessions_by_timestamp st) as (Hsorted & Hlen & Hin).
  set (all := Mongo.sort_by byTimestampDesc (map_to_list (ValidationSession st)).*2)
    in *.
  split_and!.
  - done.
  - rewrite limitTo_take, length_take, length_drop, Hlen. destruct limit; lia.
  - intros i j a b Hij Ha%limitTo_lookup Hb%limitTo_lookup.
    apply Z.leb_le.
    apply (StronglySorted_lookup _ all (skip + i) (skip + j) a b Hsorted);
      [lia|done..].
  - intros s Hs. apply Hin. eapply elem_of_sublist; [done|apply limitTo_sublist].
  - intros Hkeys.
    apply (sublist_NoDup _ (Session.sessionId <$> all));
      [|apply fmap_sublist, limitTo_sublist].
    unfold all. rewrite sort_by_perm.
    assert (Session.sessionId <$> (map_to_list (ValidationSession st)).*2
            = (map_to_list (ValidationSession st)).*1) as ->.
    { rewrite <- list_fmap_compose. apply list_fmap_ext.
      intros i [sid s] Hi. simpl. apply Hkeys.
      apply elem_of_map_to_list. by eapply list_elem_of_lookup_2. }
    apply NoDup_fst_map_to_list.
  - intros -> Hlim sid s Hs. rewrite drop_0, limitTo_take.
    rewrite take_ge; [apply Hin; eauto|].
    rewrite Hlen. destruct Hlim as [-> |Hlim]; [lia|]. destruct limit; lia.
Qed.

(** ** sessionStats and minerHistory *)

Lemma filter_disjoint_length {A} (p q : A → bool) (l : list A) :
  (∀ x, x ∈ l → p x = true → q x = false) →
  (length (List.filter p l) + length (List.filter q l) ≤ length l)%nat.
Proof.
  induction l as [|a l IH]; intros H; simpl; [lia|].
  assert (length (List.filter p l) + length (List.filter q l) ≤ length l)%nat
    by (apply IH; intros x Hx; apply H; by right).
  pose proof (H a ltac:(left)) as Ha.
  destruct (p a); [rewrite Ha by done|destruct (q a)]; simpl; lia.
Qed.

Lemma filter_cover_length {A} (p q : A → bool) (l : list A) :
  (∀ x, x ∈ l → p x = negb (q x)) →
  (length (List.filter p l) + length (List.filter q l) = length l)%nat.
Proof.
  induction l as [|a l IH]; intros H; simpl; [lia|].
  assert (length (List.filter p l) + length (List.filter q l) = length l)%nat
    by (apply IH; intros x Hx; apply H; by right).
  rewrite (H a ltac:(left)). destruct (q a); simpl; lia.
Qed.

Lemma sessionsSince_elem start st s :
  s ∈ sessionsSince start st
  ↔ (∃ sid, ValidationSession st !! sid = Some s) ∧ start ≤ Session.timestamp s.
Proof.
  unfold sessionsSince. rewrite elem_of_List_filter, Z.leb_le, list_elem_of_fmap.
  split.
  - intros [([sid s'] & -> & Hin) Hts]. split; [|done].
    exists sid. by apply elem_of_map_to_list.
  - intros [(sid & Hs) Hts]. split; [|done].
    exists (sid, s). split; [done|]. by apply elem_of_map_to_list.
Qed.

Lemma historyOf_elem uid st h :
  h ∈ historyOf uid st
  ↔ h ∈ MinerHistory st ∧ Mongo.num_eq uid (MinerHistoryDoc.minerUid h) = true.
Proof. unfold historyOf. by rewrite elem_of_List_filter. Qed.

Lemma byHistoryTimestampDesc_total a b :
  byHistoryTimestampDesc a b = true ∨ byHistoryTimestampDesc b a = true.
Proof. unfold byHistoryTimestampDesc. rewrite !Z.leb_le. lia. Qed.

Lemma byHistoryTimestampDesc_trans a b c :
  byHistoryTimestampDesc a b = true → byHistoryTimestampDesc b c = true →
  byHistoryTimestampDesc a c = true.
Proof. unfold byHistoryTimestampDesc. rewrite !Z.leb_le. lia. Qed.

Section StatisticsProperties.

Variable acc_sum : list number → number.
Variable acc_avg : list number → option number.

(** X17.  sessionStats never fails.  When no stored session has a timestamp
    at or after the start of the window, every field of the answer is 0.
    Otherwise totalSessions is at least 1, and in every case
    completedSessions + failedSessions is at most totalSessions. *)
Theorem sessionStats_counts
    (zone : Zone.t) (timeRange : string) (now : Z) (st : Store) :
  let stats := sessionStats acc_sum acc_avg zone timeRange now st in
  let start := startDate zone timeRange now in
  ((∀ sid s, ValidationSession st !! sid = Some s → Session.timestamp s < start) →
   stats = SessionStats.mk 0 0 0 (Some 0%float) 0%float (Some 0%float))
  ∧ (∀ sid s, ValidationSession st !! sid = Some s →
              start ≤ Session.timestamp s →
              (1 ≤ SessionStats.totalSessions stats)%nat)
  ∧ (SessionStats.completedSessions stats + SessionStats.failedSessions stats
     ≤ SessionStats.totalSessions stats)%nat.
Proof.
  intros stats start. subst stats start. unfold sessionStats.
  set (matched := sessionsSince (startDate zone timeRange now) st).
  split_and!.
  - intros Hold. assert (matched = []) as ->; [|done].
    apply elem_of_nil_inv. intros s [(sid & Hs) Hts]%sessionsSince_elem.
    specialize (Hold _ _ Hs). lia.
  - intros sid s Hs Hts.
    assert (s ∈ matched) as Hin by (apply sessionsSince_elem; eauto).
    destruct matched as [|a l] eqn:E; [by apply elem_of_nil in Hin|].
    simpl. lia.
  - destruct matched as [|a l] eqn:E; [simpl; lia|].
    cbn [SessionStats.completedSessions SessionStats.failedSessions
         SessionStats.totalSessions].
    apply filter_disjoint_length. intros x _ Hc.
    apply bool_decide_eq_true in Hc. apply bool_decide_eq_false. congruence.
Qed.

(** X18.  In every store reached from the empty one, sessionStats reports
    failedSessions = 0: no operation puts a session in state [failed]. *)
Theorem sessionStats_never_failed
    (ops : list Operation) (zone : Zone.t) (timeRange : string) (now : Z) :
  SessionStats.failedSessions
    (sessionStats acc_sum acc_avg zone timeRange now (runs ops emptyStore))
  = 0%nat.
Proof.
  unfold sessionStats.
  set (matched := sessionsSince (startDate zone timeRange now)
                    (runs ops emptyStore)).
  assert (∀ s, s ∈ matched → Session.state s ≠ State.failed) as Hnf.
  { intros s [(sid & Hs) _]%sessionsSince_elem.
    by eapply (never_failed _ (runs_consistent ops emptyStore consistent_empty)). }
  destruct matched as [|a l] eqn:E; [done|].
  cbn [SessionStats.failedSessions]. rewrite filter_none; [done|].
  intros s Hs. apply bool_decide_eq_false. by apply Hnf.
Qed.

(** X19.  minerHistory.  For a minerUid that [parseInt] makes NaN of, the
    answer is 500.  For any other: every returned entry is a history entry of
    that miner; the entries come in order of non-increasing timestamp; there
    are at most [limit] of them when [limit] is not 0; totalParticipations
    counts all history entries of the miner, whatever the limit, so it is at
    least the number of entries returned; successCount + failureCount is at
    most totalParticipations; and for a miner without history the list is
    empty and every field of the stats is 0. *)
Theorem minerHistory_window (minerIdNum : number) (limit : nat) (st : Store) :
  let mine := historyOf minerIdNum st in
  (PrimFloat.is_nan minerIdNum = true →
   ∃ r, minerHistory acc_avg minerIdNum limit st = inr r ∧ status r = 500)
  ∧ (PrimFloat.is_nan minerIdNum = false →
     ∃ history stats,
       minerHistory acc_avg minerIdNum limit st = inl (history, stats)
       ∧ (∀ h, h ∈ history →
               h ∈ MinerHistory st
               ∧ Mongo.num_eq minerIdNum (MinerHistoryDoc.minerUid h) = true)
       ∧ (∀ i j a b,
            (i < j)%nat → history !! i = Some a → history !! j = Some b →
            MinerHistoryDoc.timestamp b ≤ MinerHistoryDoc.timestamp a)
       ∧ length history
         = match limit with
           | O => length mine
           | _ => (limit `min` length mine)%nat
           end
       ∧ MinerStats.totalParticipations stats = length mine
       ∧ (MinerStats.successCount stats + MinerStats.failureCount stats
          ≤ MinerStats.totalParticipations stats)%nat
       ∧ ((∀ h, h ∈ MinerHistory st →
                Mongo.num_eq minerIdNum (MinerHistoryDoc.minerUid h) = false) →
          history = []
          ∧ stats = MinerStats.mk (Some 0%float) 0 0 0 (Some 0%float))).
Proof.
  intros mine. subst mine. unfold minerHistory, Mongo.castNumber. split.
  { intros ->. by eexists. }
  intros ->. set (mine := historyOf minerIdNum st).
  eexists _, _. split; [reflexivity|]. split_and!.
  - intros h Hh. apply historyOf_elem. fold mine.
    rewrite <- (drop_0 (Mongo.sort_by _ mine)) in Hh.
    eapply elem_of_sublist in Hh; [|apply limitTo_sublist].
    by rewrite sort_by_perm in Hh.
  - intros i j a b Hij Ha Hb.
    rewrite <- (drop_0 (Mongo.sort_by _ mine)) in Ha, Hb.
    apply limitTo_lookup in Ha, Hb. apply Z.leb_le.
    apply (StronglySorted_lookup (λ a b, byHistoryTimestampDesc a b = true)
             (Mongo.sort_by byHistoryTimestampDesc mine) (0 + i) (0 + j) a b);
      [|lia|done..].
    apply sort_by_sorted;
      [apply byHistoryTimestampDesc_total|apply byHistoryTimestampDesc_trans].
  - destruct limit; simpl; [by rewrite sort_by_perm|].
    by rewrite length_take, sort_by_perm.
  - by destruct mine.
  - destruct mine as [|a l] eqn:E; [simpl; lia|].
    cbn [MinerStats.successCount MinerStats.failureCount
         MinerStats.totalParticipations].
    apply filter_disjoint_length. intros x _ Hc.
    apply bool_decide_eq_true in Hc. apply bool_decide_eq_false. congruence.
  - intros Hnone. assert (mine = []) as ->; [|by destruct limit].
    unfold mine, historyOf. by apply filter_none.
Qed.

(** X20.  In every store reached from the empty one, each history entry of a
    miner is a success or a failure: for a minerUid that is a number the
    answer is produced and
    successCount + failureCount = totalParticipations. *)
Theorem minerHistory_counts_add_up
    (ops : list Operation) (minerIdNum : number) (limit : nat) :
  PrimFloat.is_nan minerIdNum = false →
  ∃ history stats,
    minerHistory acc_avg minerIdNum limit (runs ops emptyStore)
    = inl (history, stats)
    ∧ (MinerStats.successCount stats + MinerStats.failureCount stats
       = MinerStats.totalParticipations stats)%nat.
Proof.
  intros Hnum. unfold minerHistory, Mongo.castNumber. rewrite Hnum.
  eexists _, _. split; [reflexivity|].
  set (mine := historyOf minerIdNum (runs ops emptyStore)).
  assert (∀ h, h ∈ mine →
            MinerHistoryDoc.status h = Status.success
            ∨ MinerHistoryDoc.status h = Status.failed) as Hst.
  { intros h [Hh _]%historyOf_elem.
    destruct (history_backed _ (runs_consistent ops emptyStore consistent_empty)
                h Hh) as [_ ->].
    destruct (scored _); auto. }
  destruct mine as [|a l] eqn:E; [done|].
  cbn [MinerStats.successCount MinerStats.failureCount
       MinerStats.totalParticipations].
  apply filter_cover_length. intros h Hh.
  destruct (Hst h Hh) as [-> | ->]; done.
Qed.

(** X21.  A recorded reward shows in the miner's history: when
    recordMinerReward answers 200, with or without a rewardScore, the
    history of every other miner holds the same entries as before, and, the
    minerUid being one minerHistory can be asked for, the miner's
    totalParticipations grows by exactly 1. *)
Theorem minerHistory_after_reward
    (sessionId : string) (uid : number) (rewardScore : option number)
    (rewardReason : option string) (now : Z) (st : Store) (limit : nat) :
  let res := recordMinerReward sessionId (Some uid) rewardScore rewardReason
               now st in
  status res.2 = 200 →
  (∀ other, Mongo.num_eq other uid = false →
            historyOf other res.1 = historyOf other st)
  ∧ (PrimFloat.is_nan uid = false →
     ∃ before after,
       minerHistory acc_avg uid limit st = inl before
       ∧ minerHistory acc_avg uid limit res.1 = inl after
       ∧ MinerStats.totalParticipations after.2
         = S (MinerStats.totalParticipations before.2)).
Proof.
  intros res Hok. subst res.
  assert (MinerHistory (recordMinerReward sessionId (Some uid) rewardScore
                          rewardReason now st).1
          = MinerHistory st
              ++ [MinerHistoryDoc.mk uid sessionId None rewardScore
                    None None None None now
                    (if scored rewardScore then Status.success else Status.failed)])
    as Hhist.
  { revert Hok. unfold recordMinerReward.
    destruct (ValidationSession st !! sessionId) as [s|]; simpl; [|done].
    by destruct (positional _ (Session.minerResponses s)). }
  split.
  - intros other Hother. unfold historyOf.
    rewrite Hhist, List.filter_app. simpl. rewrite Hother. by rewrite app_nil_r.
  - intros Hnum. unfold minerHistory, Mongo.castNumber. rewrite Hnum.
    eexists _, _. split_and!; [reflexivity..|]. cbn [snd].
    assert (∀ mine : list MinerHistoryDoc.t,
              MinerStats.totalParticipations
                match mine with
                | [] => MinerStats.mk (Some 0%float) 0 0 0 (Some 0%float)
                | _ =>
                    MinerStats.mk
                      (acc_avg (omap MinerHistoryDoc.rewardScore mine))
                      (length mine)
                      (length (List.filter
                                 (λ h, bool_decide
                                         (MinerHistoryDoc.status h = Status.success))
                                 mine))
                      (length (List.filter
                                 (λ h, bool_decide
                                         (MinerHistoryDoc.status h = Status.failed))
                                 mine))
                      (acc_avg (omap MinerHistoryDoc.accuracy mine))
                end = length mine) as Htotal by (by intros []).
    rewrite !Htotal. unfold historyOf. rewrite Hhist, List.filter_app. simpl.
    rewrite num_eq_refl, length_app. simpl. lia.
Qed.

End StatisticsProperties.

(** ** projectSummary on a project with sessions *)

Lemma findByProject_elem projectId st s :
  s ∈ findByProject projectId st
  ↔ (∃ sid, ValidationSession st !! sid = Some s)
    ∧ Session.projectId s = Some projectId.
Proof.
  unfold findByProject.
  rewrite sort_by_perm, elem_of_List_filter, bool_decide_eq_true,
    list_elem_of_fmap.
  split.
  - intros [([sid s'] & -> & Hin) Hp]. split; [|done].
    exists sid. by apply elem_of_map_to_list.
  - intros [(sid & Hs) Hp]. split; [|done].
    exists (sid, s). split; [done|]. by apply elem_of_map_to_list.
Qed.

Lemma findByProject_sorted projectId st :
  StronglySorted (λ a b, byTimestampDesc a b = true) (findByProject projectId st).
Proof.
  apply (sort_by_sorted byTimestampDesc);
    [apply byTimestampDesc_total|apply byTimestampDesc_trans].
Qed.

(** X22.  projectSummary: totalValidationRuns is the number of rows;
    successfulRuns + failedRuns is at most totalValidationRuns; every stored
    session of the project has its row; and lastRun, when there is one, is
    the timestamp of a stored session of the project and no stored session of
    the project has a later one.  lastRun is null exactly when the project
    has no stored session. *)
Theorem projectSummary_latest (projectId : string) (st : Store) :
  let summary := projectSummary projectId st in
  let ofProject s :=
    (∃ sid, ValidationSession st !! sid = Some s)
    ∧ Session.projectId s = Some projectId in
  ProjectSummary.totalValidationRuns summary
  = length (ProjectSummary.sessions summary)
  ∧ (ProjectSummary.successfulRuns summary + ProjectSummary.failedRuns summary
     ≤ ProjectSummary.totalValidationRuns summary)%nat
  ∧ (∀ s, ofProject s →
          SummaryRow.mk (Session.sessionId s) (Session.timestamp s)
            (Session.state s) (Session.sampledMinerCount s)
            (ValidationMetrics.averageRewardScore (Session.metrics s))
          ∈ ProjectSummary.sessions summary)
  ∧ (∀ t, ProjectSummary.lastRun summary = Some t →
          (∃ s, ofProject s ∧ Session.timestamp s = t)
          ∧ ∀ s, ofProject s → Session.timestamp s ≤ t)
  ∧ (ProjectSummary.lastRun summary = None ↔ ∀ s, ¬ ofProject s).
Proof.
  intros summary ofProject. subst summary. unfold projectSummary.
  cbn [ProjectSummary.totalValidationRuns ProjectSummary.sessions
       ProjectSummary.successfulRuns ProjectSummary.failedRuns
       ProjectSummary.lastRun].
  pose proof (findByProject_elem projectId st) as Hin.
  pose proof (findByProject_sorted projectId st) as Hsorted.
  set (sessions := findByProject projectId st) in *.
  split_and!.
  - by rewrite length_fmap.
  - apply filter_disjoint_length. intros x _ Hc.
    apply bool_decide_eq_true in Hc. apply bool_decide_eq_false. congruence.
  - intros s Hs. apply list_elem_of_fmap. exists s. split; [done|].
    by apply Hin.
  - intros t Ht. destruct sessions as [|a l] eqn:E; [done|].
    simpl in Ht. injection Ht as <-. split.
    + exists a. split; [|done]. apply Hin. by left.
    + intros s [->|Hs]%Hin%elem_of_cons; [lia|].
      apply StronglySorted_inv in Hsorted as [_ Hall].
      rewrite Forall_forall in Hall. specialize (Hall s Hs).
      unfold byTimestampDesc in Hall. by apply Z.leb_le.
  - destruct sessions as [|a l] eqn:E; simpl.
    + split; [|done]. intros _ s Hs%Hin. by apply elem_of_nil in Hs.
    + split; [done|]. intros Hnone. exfalso. apply (Hnone a). apply Hin. by left.
Qed.

(** X23.  A recorded challenge files the session under its project: after
    recordChallenge answers 200 for a session stored under its sessionId,
    the summary of the given project has a row for that session, in state
    [in_progress], and a lastRun; and when every session is stored under its
    sessionId, the summary of any other project has no row for it. *)
Theorem projectSummary_after_challenge
    (sessionId p : string) (description difficulty : option string)
    (rawData : option json) (now : Z) (st : Store) (s : Session.t) :
  ValidationSession st !! sessionId = Some s →
  Session.sessionId s = sessionId →
  p ≠ "" →
  let st' := (recordChallenge sessionId (Some p) description difficulty
                rawData now st).1 in
  (∃ row, row ∈ ProjectSummary.sessions (projectSummary p st')
          ∧ SummaryRow.sessionId row = sessionId
          ∧ SummaryRow.state row = State.in_progress
          ∧ SummaryRow.timestamp row = Session.timestamp s)
  ∧ is_Some (ProjectSummary.lastRun (projectSummary p st'))
  ∧ ((∀ sid x, ValidationSession st !! sid = Some x → Session.sessionId x = sid) →
     ∀ q row, q ≠ p →
              row ∈ ProjectSummary.sessions (projectSummary q st') →
              SummaryRow.sessionId row ≠ sessionId).
Proof.
  intros Hs Hid Hp st'. subst st'. unfold recordChallenge. simpl.
  apply String.eqb_neq in Hp. rewrite Hp.
  rewrite (findOneAndUpdate_present _ _ _ _ Hs). simpl.
  match goal with |- context [<[sessionId := ?x]> _] => set (s' := x) end.
  set (st' := mkStore _ _ _).
  assert (s' ∈ findByProject p st') as Hin.
  { apply findByProject_elem. split; [|done].
    exists sessionId. subst st'. simpl. apply lookup_insert_eq. }
  split_and!.
  - eexists. split.
    + unfold projectSummary. cbn [ProjectSummary.sessions].
      apply list_elem_of_fmap. exists s'. split; [reflexivity|done].
    + simpl. done.
  - unfold projectSummary. cbn [ProjectSummary.lastRun].
    destruct (findByProject p st') eqn:E; [by apply elem_of_nil in Hin|].
    simpl. eauto.
  - intros Hkeys q row Hq.
    unfold projectSummary. cbn [ProjectSummary.sessions].
    intros (x & -> & [(sid & Hx) Hpx]%findByProject_elem)%list_elem_of_fmap.
    simpl. subst st'. simpl in Hx.
    destruct (decide (sessionId = sid)) as [<-|Hne].
    + rewrite lookup_insert_eq in Hx. injection Hx as <-. simpl in Hpx. congruence.
    + rewrite lookup_insert_ne in Hx by done. rewrite (Hkeys _ _ Hx). congruence.
Qed.

(** ** Audit reports *)

Lemma audit_required_true (s : option string) :
  Audit.required s = true ↔ ∃ v, s = Some v ∧ v ≠ "".
Proof.
  unfold Audit.required, JS.falsy_string. destruct s as [v|]; simpl.
  - rewrite negb_true_iff, String.eqb_neq. split; [eauto|].
    by intros (? & [= <-] & ?).
  - split; [done|]. by intros (? & ? & _).
Qed.

(** X24.  A report with a non-empty id that no stored report has, whose
    vulnerabilities each have a non-empty id and a severity among critical,
    high, medium, low and info, is stored: POST answers 201 with the report,
    GET by that id then answers 200 with the same report, GET by any other
    id answers as before, and the list of all reports is the old one with
    the new report added. *)
Theorem audit_create_then_findOne
    (body : AuditDoc.t) (id : string) (audits : gmap string AuditDoc.t) :
  AuditDoc.id body = Some id →
  id ≠ "" →
  (∀ v, v ∈ AuditDoc.vulnerabilities body →
        (∃ vid, Vulnerability.id v = Some vid ∧ vid ≠ "")
        ∧ ∃ sev, Vulnerability.severity v = Some sev ∧ sev ∈ Audit.severities) →
  audits !! id = None →
  let res := Audit.create body audits in
  res.2 = (201, Some body)
  ∧ Audit.findOne id res.1 = (200, Some body)
  ∧ (∀ id', id' ≠ id → Audit.findOne id' res.1 = Audit.findOne id' audits)
  ∧ Audit.find res.1 ≡ₚ body :: Audit.find audits.
Proof.
  intros Hid Hne Hv Hfresh res. subst res. unfold Audit.create.
  rewrite Hid.
  assert (Audit.valid body = true) as ->.
  { unfold Audit.valid. apply andb_true_iff. split.
    - apply audit_required_true. eauto.
    - apply forallb_forall. intros v Hin%list_elem_of_In.
      destruct (Hv v Hin) as [Hvid (sev & Hsev & Hmem)].
      unfold Audit.validVulnerability. apply andb_true_iff. split.
      + by apply audit_required_true.
      + rewrite Hsev. by apply bool_decide_eq_true. }
  rewrite Hfresh. simpl. split_and!.
  - done.
  - unfold Audit.findOne. by rewrite lookup_insert_eq.
  - intros id' Hid'. unfold Audit.findOne. by rewrite lookup_insert_ne.
  - unfold Audit.find. by rewrite map_to_list_insert.
Qed.

(** X25.  POST stores nothing and answers 400 when the report has no id or
    an empty id, when a stored report already has its id, or when one of its
    vulnerabilities has no id, an empty id, no severity, or a severity
    outside critical, high, medium, low and info. *)
Theorem audit_create_rejects (body : AuditDoc.t) (audits : gmap string AuditDoc.t) :
  (AuditDoc.id body = None
   ∨ AuditDoc.id body = Some ""
   ∨ (∃ id, AuditDoc.id body = Some id ∧ is_Some (audits !! id))
   ∨ ∃ v, v ∈ AuditDoc.vulnerabilities body
          ∧ (Vulnerability.id v = None
             ∨ Vulnerability.id v = Some ""
             ∨ Vulnerability.severity v = None
             ∨ ∃ sev, Vulnerability.severity v = Some sev
                      ∧ sev ∉ Audit.severities)) →
  Audit.create body audits = (audits, (400, None)).
Proof.
  unfold Audit.create.
  intros [-> |[Hid|[(id & Hid & [a Ha])|(v & Hin & Hv)]]].
  - done.
  - rewrite Hid. unfold Audit.valid. by rewrite Hid.
  - rewrite Hid, Ha. by destruct (Audit.valid body).
  - destruct (AuditDoc.id body) as [id|]; [|done].
    assert (Audit.valid body = false) as ->; [|done].
    unfold Audit.valid. apply andb_false_iff. right.
    apply not_true_iff_false. intros Hall.
    rewrite forallb_forall in Hall. apply list_elem_of_In in Hin.
    specialize (Hall v Hin). unfold Audit.validVulnerability in Hall.
    apply andb_true_iff in Hall as [Hr Hs].
    apply audit_required_true in Hr as (vid & Hvid & Hne).
    destruct Hv as [Hv|[Hv|[Hv|(sev & Hsev & Hnot)]]]; try congruence.
    + by rewrite Hv in Hs.
    + rewrite Hsev in Hs. by apply bool_decide_eq_true in Hs.
Qed.

(** X26.  DELETE by the id of a stored report answers 204, after which GET
    by that id answers 404 and GET by any other id answers as before; DELETE
    by an id no stored report has answers 404 and changes nothing.  Deleting
    a report just created with a new id gives back the store as it was. *)
Theorem audit_delete (id : string) (audits : gmap string AuditDoc.t) :
  let res := Audit.findOneAndDelete id audits in
  (is_Some (audits !! id) →
   res.2 = 204
   ∧ Audit.findOne id res.1 = (404, None)
   ∧ ∀ id', id' ≠ id → Audit.findOne id' res.1 = Audit.findOne id' audits)
  ∧ (audits !! id = None → res = (audits, 404))
  ∧ (∀ body,
       audits !! id = None →
       (Audit.create body audits).2 = (201, Some body) →
       AuditDoc.id body = Some id →
       (Audit.findOneAndDelete id (Audit.create body audits).1).1 = audits).
Proof.
  intros res. subst res. unfold Audit.findOneAndDelete. split_and!.
  - intros [a ->]. simpl. unfold Audit.findOne. split_and!.
    + done.
    + by rewrite lookup_delete_eq.
    + intros id' Hid'. by rewrite lookup_delete_ne.
  - by intros ->.
  - intros body Hfresh Hcreated Hid. revert Hcreated. unfold Audit.create.
    rewrite Hid, Hfresh. destruct (Audit.valid body); [|done]. intros _. simpl.
    rewrite lookup_insert_eq. simpl. by rewrite delete_insert_eq, delete_id.
Qed.

(** X27.  POST and DELETE keep the collection well formed: when every stored
    report is stored under its id and passes the document validation, the
    same holds after a POST and after a DELETE. *)
Theorem audits_stay_valid
    (body : AuditDoc.t) (id : string) (audits : gmap string AuditDoc.t) :
  (∀ k a, audits !! k = Some a →
          AuditDoc.id a = Some k ∧ Audit.valid a = true) →
  (∀ k a, (Audit.create body audits).1 !! k = Some a →
          AuditDoc.id a = Some k ∧ Audit.valid a = true)
  ∧ (∀ k a, (Audit.findOneAndDelete id audits).1 !! k = Some a →
            AuditDoc.id a = Some k ∧ Audit.valid a = true).
Proof.
  intros Hinv. split.
  - intros k a. unfold Audit.create.
    destruct (AuditDoc.id body) as [bid|] eqn:Hid; [|by apply Hinv].
    destruct (Audit.valid body) eqn:Hvalid; [|by apply Hinv].
    destruct (audits !! bid) eqn:Hb; [by apply Hinv|]. simpl.
    intros [[<- <-]|[_ Hk]]%lookup_insert_Some; [done|by apply Hinv].
  - intros k a. unfold Audit.findOneAndDelete.
    destruct (audits !! id); [|by apply Hinv]. simpl.
    intros [_ Hk]%lookup_delete_Some. by apply Hinv.
Qed.

(** * The further properties on the sample run *)

(** The sample operations, run from the empty store: one session, three
    responses, three history entries, one log entry of each kind. *)
Example sample_run_final :
  (λ s, (Session.state s, Session.projectId s,
         length (Session.minerResponses s),
         length (Session.validationErrors s),
         length (Session.computedRewards s)))
    <$> ValidationSession SampleRun.final !! "s1"
  = Some (State.completed, Some "p1", 3%nat, 1%nat, 2%nat)
  ∧ length (MinerHistory SampleRun.final) = 3%nat
  ∧ RewardUpdateDoc.updateId <$> RewardUpdate SampleRun.final = ["u1"].
Proof. split_and!; vm_compute; reflexivity. Qed.

Lemma sessions_keep_identity_witness :
  ∃ s',
    ValidationSession
      (runs (SampleRun.respond ++ SampleRun.reward ++ SampleRun.finish)
         Sample.created) !! "s1" = Some s'
    ∧ Session.timestamp s' = 1000
    ∧ Session.sampledMinerUids s' = [1%float; 2%float; 3%float].
Proof.
  edestruct (sessions_keep_identity
               (SampleRun.respond ++ SampleRun.reward ++ SampleRun.finish)
               Sample.created "s1")
    as (s' & Hs' & _ & Ht & _ & _ & Hu & _).
  - vm_compute. reflexivity.
  - exists s'. split_and!; [exact Hs'|exact Ht|exact Hu].
Defined.

Lemma validationErrors_append_only_witness :
  ∃ s',
    ValidationSession
      (runs SampleRun.finish
         (run (LogError "s1" (Some "fetch") (Some "timeout") None 1001)
            Sample.created).1) !! "s1" = Some s'
    ∧ [ValidationError.mk "fetch" "timeout" 1001 None]
        `prefix_of` Session.validationErrors s'.
Proof.
  edestruct (validationErrors_append_only SampleRun.finish
               (run (LogError "s1" (Some "fetch") (Some "timeout") None 1001)
                  Sample.created).1 "s1")
    as (s' & Hs' & Hp).
  - vm_compute. reflexivity.
  - exists s'. split; [exact Hs'|exact Hp].
Defined.


(** A reward without a rewardScore is accepted: the response entry is left
    as it was, and the history entry has no score and is [failed]. *)
Example scoreless_reward :
  (λ res : Store * Response,
     status res.2 = 200
     ∧ ValidationSession res.1 !! "s1" = ValidationSession Sample.responded !! "s1"
     ∧ MinerHistory res.1
       = [MinerHistoryDoc.mk 2%float "s1" None None None None None None 1004
            Status.failed])
    (recordMinerReward "s1" (Some 2%float) None None 1004 Sample.responded).
Proof. vm_compute. done. Qed.


(** The sample run ends with the log entry [u1]: a batch that draws [u1]
    again is refused. *)
Example duplicate_updateId_refused :
  (λ res : Store * Response,
     status res.2 = 500
     ∧ RewardUpdateDoc.updateId <$> RewardUpdate res.1 = ["u1"])
    (recordRewardsBatch "s1" (Some [3%float]) (Some [1%float]) "u1" 3000
       (λ _, 3000) SampleRun.final).
Proof. vm_compute. done. Qed.

Lemma reachable_sessions_keyed_witness :
  ∃ s, ValidationSession SampleRun.final !! "s1" = Some s
       ∧ Session.sessionId s = "s1"
       ∧ Session.state s ≠ State.failed.
Proof.
  unfold SampleRun.final.
  assert (is_Some (ValidationSession (runs SampleRun.ops emptyStore) !! "s1"))
    as [s Hs].
  { vm_compute. eauto. }
  exists s. split; [exact Hs|].
  exact (reachable_sessions_keyed SampleRun.ops "s1" s Hs).
Defined.

Lemma recordChallenge_last_wins_witness :
  (recordChallenge "s1" (Some "p2") (Some "second") (Some "hard")
     (Some (JString "raw")) 1010
     (recordChallenge "s1" (Some "p1") (Some "first") None None 1009
        Sample.rewarded).1).1
  = (recordChallenge "s1" (Some "p2") (Some "second") (Some "hard")
       (Some (JString "raw")) 1010 Sample.rewarded).1.
Proof.
  edestruct (recordChallenge_last_wins "s1" "p1" "p2" "second" "hard"
               (Some "first") None None (JString "raw") 1009 1010
               Sample.rewarded)
    as (_ & _ & H); [vm_compute; reflexivity|done|done|exact H].
Defined.

Lemma reward_after_response_witness :
  status
    (recordMinerReward "s1" (Some 7%float) (Some 1%float) None 2001
       (recordMinerResponse "s1" (Some 7%float) None None None None None 2000
          Sample.created).1).2 = 200.
Proof.
  edestruct (reward_after_response "s1" 7%float None None None None None 2000
               (Some 1%float) None 2001 Sample.created)
    as [H _]; [vm_compute; reflexivity|exact H].
Defined.

Lemma minerHistory_after_reward_witness :
  ∃ after,
    minerHistory Sample.ieee_avg 2%float 0
      (recordMinerReward "s1" (Some 2%float) None None 2000 Sample.rewarded).1
    = inl after
    ∧ MinerStats.totalParticipations after.2 = 3%nat.
Proof.
  destruct (minerHistory_after_reward Sample.ieee_avg "s1" 2%float None None
              2000 Sample.rewarded 0) as [_ H]; [vm_compute; reflexivity|].
  destruct (H eq_refl) as (before & after & Hb & Ha & Ht).
  exists after. split; [exact Ha|]. rewrite Ht.
  vm_compute in Hb. injection Hb as <-. reflexivity.
Defined.

Lemma minerHistory_counts_add_up_witness :
  ∃ history stats,
    minerHistory Sample.ieee_avg 2%float 1 (runs SampleRun.ops emptyStore)
    = inl (history, stats)
    ∧ (MinerStats.successCount stats + MinerStats.failureCount stats
       = MinerStats.totalParticipations stats)%nat.
Proof.
  apply (minerHistory_counts_add_up Sample.ieee_avg SampleRun.ops 2%float 1).
  reflexivity.
Defined.

Lemma projectSummary_after_challenge_witness :
  is_Some
    (ProjectSummary.lastRun
       (projectSummary "p1"
          (recordChallenge "s1" (Some "p1") None None None 1009
             Sample.rewarded).1)).
Proof.
  edestruct (projectSummary_after_challenge "s1" "p1" None None None 1009
               Sample.rewarded)
    as (_ & H & _); [vm_compute; reflexivity|reflexivity|done|exact H].
Defined.

Lemma audit_create_then_findOne_witness :
  Audit.findOne "a1" (Audit.create SampleAudit.report ∅).1
  = (200, Some SampleAudit.report).
Proof.
  edestruct (audit_create_then_findOne SampleAudit.report "a1" ∅)
    as (_ & H & _); [reflexivity|done| |apply lookup_empty|exact H].
  intros v ->%list_elem_of_singleton. split.
  - exists "V-1". split; [reflexivity|done].
  - exists "high". split; [reflexivity|]. right. left.
Defined.

Lemma audit_create_rejects_witness :
  Audit.create SampleAudit.badReport ∅ = (∅, (400, None)).
Proof.
  apply audit_create_rejects. right. right. right.
  exists (SampleAudit.finding "severe"). split; [by left|].
  right. right. right. exists "severe". split; [reflexivity|].
  intros Hin. apply list_elem_of_In in Hin. simpl in Hin.
  destruct Hin as [H|[H|[H|[H|[H|[]]]]]]; discriminate H.
Defined.

Lemma audits_stay_valid_witness :
  AuditDoc.id SampleAudit.report = Some "a1"
  ∧ Audit.valid SampleAudit.report = true.
Proof.
  refine (proj1 (audits_stay_valid SampleAudit.report "a1" ∅ _)
            "a1" SampleAudit.report _).
  - intros k a Hk. by rewrite lookup_empty in Hk.
  - unfold Audit.create. simpl. apply lookup_insert_eq.
Defined.

(** Reading the sample run: the most recent entries of miner 2 and the
    stats over the whole history, one page of sessions, and the window
    statistics. *)
Example minerHistory_sample :
  (λ answer,
     match answer with
     | inl (history, stats) =>
         Some (MinerHistoryDoc.timestamp <$> history, stats)
     | inr _ => None
     end) (minerHistory Sample.ieee_avg 2%float 1 SampleRun.final)
  = Some ([1006], MinerStats.mk (Some 4%float) 2 2 0 None)
  ∧ minerHistory Sample.ieee_avg nan 1 SampleRun.final = inr internal_error.
Proof. split; vm_compute; reflexivity. Qed.

Example sessionStats_sample :
  sessionStats JS.sum Sample.ieee_avg (Zone.fixed 0) "24h" 2000 SampleRun.final
  = SessionStats.mk 1 1 0 (Some 6%float) 3%float None
  ∧ sessionStats JS.sum Sample.ieee_avg (Zone.fixed 0) "24h" (1001 + 86400000)
      SampleRun.final
    = SessionStats.mk 0 0 0 (Some 0%float) 0%float (Some 0%float).
Proof. split; vm_compute; reflexivity. Qed.

(** * How the operations on metrics compose *)

(** X28.  completeSession without metrics keeps what a batch computed: after
    an accepted recordRewardsBatch on a stored session, one that answers 200,
    completeSession with no metrics answers 200 and leaves the session
    [completed] with the batch's successRate, averageRewardScore and
    failureCount and the batch's computedRewards. *)
Theorem batch_then_complete
    (sessionId : string) (minerUids rewards : list number)
    (uuid : string) (now : Z) (clock : nat → Z) (st : Store) (s : Session.t) :
  ValidationSession st !! sessionId = Some s →
  let batch := recordRewardsBatch sessionId (Some minerUids) (Some rewards)
                 uuid now clock st in
  let res := completeSession sessionId None batch.1 in
  status batch.2 = 200 →
  status res.2 = 200
  ∧ ∃ s0 s',
      ValidationSession batch.1 !! sessionId = Some s0
      ∧ ValidationSession res.1 !! sessionId = Some s'
      ∧ Session.state s' = State.completed
      ∧ Session.metrics s0 = batchMetrics minerUids rewards
      ∧ Session.metrics s' = Session.metrics s0
      ∧ Session.computedRewards s' = Session.computedRewards s0
      ∧ length (Session.computedRewards s') = length minerUids
      ∧ is_Some (ValidationMetrics.successRate (Session.metrics s')).
Proof.
  intros Hs batch res Hok. subst batch res.
  destruct (recordRewardsBatch_ok _ _ _ _ _ _ _ _ Hs Hok)
    as (uids & rws & [= <-] & [= <-] & _ & ->).
  unfold completeSession. simpl.
  erewrite findOneAndUpdate_present by (simpl; apply lookup_insert_eq).
  simpl. split; [done|].
  eexists _, _. rewrite !lookup_insert_eq.
  split_and!; try reflexivity.
  - simpl. by rewrite length_imap.
  - simpl. eauto.
Qed.

(** X29.  completeSession is idempotent: repeating the call with the same
    metrics gives the same answer and leaves the store as the first call
    left it. *)
Theorem completeSession_idempotent
    (sessionId : string) (metrics : option ValidationMetrics.t) (st : Store) :
  let once := completeSession sessionId metrics st in
  completeSession sessionId metrics once.1 = once.
Proof.
  intros once. subst once. unfold completeSession.
  destruct (ValidationSession st !! sessionId) as [s|] eqn:Hs.
  - rewrite (findOneAndUpdate_present _ _ _ _ Hs). simpl.
    erewrite findOneAndUpdate_present by (simpl; apply lookup_insert_eq).
    simpl. rewrite insert_insert_eq.
    by destruct metrics as [[[?|] [?|] [?|] [?|] [?|]]|].
  - rewrite (findOneAndUpdate_absent _ _ _ Hs). simpl.
    by rewrite (findOneAndUpdate_absent _ _ _ Hs).
Qed.

Lemma batch_then_complete_witness :
  ∃ s',
    ValidationSession
      (completeSession "s1" None
         (recordRewardsBatch "s1" (Some [1%float; 2%float])
            (Some [5%float; (-1)%float]) "u1" 2000 (λ _, 2000)
            Sample.responded).1).1 !! "s1" = Some s'
    ∧ Session.state s' = State.completed
    ∧ ValidationMetrics.successRate (Session.metrics s') = Some 50%float.
Proof.
  edestruct (batch_then_complete "s1" [1%float; 2%float] [5%float; (-1)%float]
               "u1" 2000 (λ _, 2000) Sample.responded)
    as (_ & s0 & s' & _ & Hs' & Hstate & Hm0 & Hm & _).
  - vm_compute. reflexivity.
  - vm_compute. reflexivity.
  - exists s'. split_and!; [exact Hs'|exact Hstate|].
    rewrite Hm, Hm0. reflexivity.
Defined.

(** The pages and the summary of the sample run. *)
Example listRecent_sample :
  (Session.sessionId <$> (listRecent 20 0 SampleRun.final).1,
   (listRecent 20 0 SampleRun.final).2)
  = (["s1"], Pagination.mk 1 20 0)
  ∧ (listRecent 20 1 SampleRun.final).1 = [].
Proof. split; vm_compute; reflexivity. Qed.

Example projectSummary_sample :
  (λ p, (ProjectSummary.totalValidationRuns p, ProjectSummary.successfulRuns p,
         ProjectSummary.failedRuns p, ProjectSummary.totalMinersQueried p,
         ProjectSummary.avgRewardScore p, ProjectSummary.lastRun p))
    (projectSummary "p1" SampleRun.final)
  = (1%nat, 1%nat, 0%nat, 3%float, 6%float, Some 1000).
Proof. vm_compute. reflexivity. Qed.
